(** * Scheduled ETL pipelines: quotes, self_confidence, crypto_prices, healthcare_joblist

    A shallow embedding of the four pipelines of the repository.  Python
    values are JSON-shaped objects, exceptions are an outcome, and the
    stateful calls (XCom pushes, the PostgreSQL connection) run in a small
    state-and-exception monad in which the effects made before a raise stay
    visible, as they do in Python. *)

From Stdlib Require Import ZArith List String Ascii Bool Lia QArith_base.
Import ListNotations.
Local Open Scope string_scope.
Local Open Scope Z_scope.
Local Open Scope list_scope.

(* ===================================================================== *)
(** ** Python values, exceptions and control flow *)
(* ===================================================================== *)

Module Py.

#[local] Set Warnings "-register-all".

(** What [response.json()] yields and what travels through XCom. *)
Inductive pyval : Type :=
| PNone
| PBool (b : bool)
| PInt (n : Z)
| PFloat (q : Q)
| PStr (s : string)
| PList (l : list pyval)
| PDict (d : list (string * pyval))
| PNaN.                    (* float('nan') *)

(** The exception classes the four files can meet. *)
Inductive exn : Type :=
| ConnectionError          (* requests: no connection, timeout *)
| HTTPError                (* requests: raise_for_status *)
| JSONDecodeError          (* requests: body is not JSON *)
| KeyError
| IndexError
| TypeError
| AttributeError
| ValueError (msg : string)
| UnboundLocalError
| OperationalError         (* psycopg2: cannot connect, connection lost *)
| DatabaseError            (* psycopg2: the server refused a statement *)
| NotNullViolation (column : string)
| DataError                (* psycopg2: a value does not fit its column *)
| ProgrammingError         (* psycopg2: a parameter cannot be adapted *)
| InterfaceError.          (* psycopg2: connection or cursor already closed *)

(** [requests.exceptions.RequestException] and its subclasses
    (requests >= 2.27 makes its JSONDecodeError one of them). *)
Definition is_RequestException (e : exn) : bool :=
  match e with
  | ConnectionError | HTTPError | JSONDecodeError => true
  | _ => false
  end.

Inductive outcome (A : Type) : Type :=
| Return (a : A)
| Raise (e : exn).
Arguments Return {A} a.
Arguments Raise {A} e.

Definition raises {A} (o : outcome A) : bool :=
  match o with Return _ => false | Raise _ => true end.

(** Pure code that may raise. *)
Definition obind {A B} (o : outcome A) (k : A -> outcome B) : outcome B :=
  match o with
  | Return a => k a
  | Raise e => Raise e
  end.

(** [try: body  except cls as e: handler e] *)
Definition otry {A} (body : outcome A) (cls : exn -> bool)
    (handler : exn -> outcome A) : outcome A :=
  match body with
  | Return a => Return a
  | Raise e => if cls e then handler e else Raise e
  end.

(** [except Exception] catches every class modelled here. *)
Definition Exception (_ : exn) : bool := true.

(** Truth value of an object ([if x], [not x], [x or y]). *)
Definition truthy (v : pyval) : bool :=
  match v with
  | PNone => false
  | PBool b => b
  | PInt n => negb (n =? 0)
  | PFloat q => negb (Qnum q =? 0)
  | PStr s => negb (String.eqb s "")
  | PList l => match l with [] => false | _ :: _ => true end
  | PDict d => match d with [] => false | _ :: _ => true end
  | PNaN => true
  end.

(** [a or b]; the second operand is evaluated only when needed. *)
Definition py_or (a : pyval) (b : outcome pyval) : outcome pyval :=
  if truthy a then Return a else b.

Fixpoint lookup (k : string) (d : list (string * pyval)) : option pyval :=
  match d with
  | [] => None
  | (k', v) :: d' => if String.eqb k k' then Some v else lookup k d'
  end.

(** [v.get(k, default)]: only dicts have [.get]. *)
Definition get (v : pyval) (k : string) (default : pyval) : outcome pyval :=
  match v with
  | PDict d => Return (match lookup k d with Some x => x | None => default end)
  | _ => Raise AttributeError
  end.

(** [v[k]] for a string key. *)
Definition getitem (v : pyval) (k : string) : outcome pyval :=
  match v with
  | PDict d => match lookup k d with Some x => Return x | None => Raise KeyError end
  | _ => Raise TypeError
  end.

(** [v[0]]. The keys of a JSON object are strings, so a dict has no key 0. *)
Definition getitem0 (v : pyval) : outcome pyval :=
  match v with
  | PList (x :: _) => Return x
  | PList [] => Raise IndexError
  | PStr (String c _) => Return (PStr (String c ""))
  | PStr EmptyString => Raise IndexError
  | PDict _ => Raise KeyError
  | _ => Raise TypeError
  end.

(** Iteration: lists give their items, strings their characters, dicts
    their keys; nothing else is iterable. *)
Definition iter (v : pyval) : outcome (list pyval) :=
  match v with
  | PList l => Return l
  | PStr s => Return (map (fun c => PStr (String c "")) (list_ascii_of_string s))
  | PDict d => Return (map (fun kv => PStr (fst kv)) d)
  | _ => Raise TypeError
  end.

Fixpoint all_str (l : list pyval) : outcome (list string) :=
  match l with
  | [] => Return []
  | PStr s :: l' => obind (all_str l') (fun ss => Return (s :: ss))
  | _ :: _ => Raise TypeError
  end.

(** [sep.join(v)] *)
Definition join (sep : string) (v : pyval) : outcome string :=
  obind (iter v) (fun l => obind (all_str l) (fun ss => Return (String.concat sep ss))).

(** State and exceptions: the state reached when an exception is raised is
    kept, so that a handler or a [finally] block runs on it. *)
Definition M (S A : Type) : Type := S -> outcome A * S.

Definition ret {S A} (a : A) : M S A := fun s => (Return a, s).
Definition throw {S A} (e : exn) : M S A := fun s => (Raise e, s).
Definition lift {S A} (o : outcome A) : M S A := fun s => (o, s).

Definition bind {S A B} (m : M S A) (k : A -> M S B) : M S B :=
  fun s =>
    match m s with
    | (Return a, s') => k a s'
    | (Raise e, s') => (Raise e, s')
    end.

(** [try: body  except cls as e: handler e] *)
Definition try_except {S A} (body : M S A) (cls : exn -> bool)
    (handler : exn -> M S A) : M S A :=
  fun s =>
    match body s with
    | (Return a, s') => (Return a, s')
    | (Raise e, s') => if cls e then handler e s' else (Raise e, s')
    end.

(** [try: body  finally: fin]; an exception of [fin] replaces the pending
    result. *)
Definition try_finally {S A} (body : M S A) (fin : M S unit) : M S A :=
  fun s =>
    match body s with
    | (r, s') =>
        match fin s' with
        | (Return _, s'') => (r, s'')
        | (Raise e, s'') => (Raise e, s'')
        end
    end.

(** [for x in l: body x] *)
Fixpoint for_each {S A} (l : list A) (body : A -> M S unit) : M S unit :=
  match l with
  | [] => ret tt
  | x :: l' => bind (body x) (fun _ => for_each l' body)
  end.

End Py.

Import Py.

Declare Scope py_scope.
Delimit Scope py_scope with py.
Notation "x <- m ;; k" := (bind m (fun x => k))
  (at level 61, m at next level, right associativity) : py_scope.
Notation "m ;; k" := (bind m (fun _ => k))
  (at level 61, right associativity) : py_scope.
Notation "'let?' x := o 'in' k" := (obind o (fun x => k))
  (at level 61, x name, o at next level, right associativity) : py_scope.
Local Open Scope py_scope.

(* ===================================================================== *)
(** ** The HTTP client ([requests]) *)
(* ===================================================================== *)

Module Requests.

(** What the network answers to the one [requests.get] of a fetch: no
    answer at all, or a status line with a body that parses as JSON
    ([Some]) or does not ([None]). *)
Inductive reply : Type :=
| NoAnswer
| Answer (status_code : Z) (body : option pyval).

Record response : Type := mkResponse { status_code : Z; body : option pyval }.

Definition get (net : reply) : outcome response :=
  match net with
  | NoAnswer => Raise ConnectionError
  | Answer st b => Return (mkResponse st b)
  end.

(** [response.raise_for_status()]: "Raise an error for bad responses
    (4xx, 5xx)". *)
Definition raise_for_status (r : response) : outcome unit :=
  if (400 <=? status_code r) && (status_code r <? 600)
  then Raise HTTPError else Return tt.

Definition json (r : response) : outcome pyval :=
  match body r with
  | Some v => Return v
  | None => Raise JSONDecodeError
  end.

Definition is_2xx (st : Z) : bool := (200 <=? st) && (st <? 300).

End Requests.

(* ===================================================================== *)
(** ** XCom: the scheduler's inter-task channel *)
(* ===================================================================== *)

Module XCom.

(** Values are keyed by the pushing task and a key; a task's return value
    is stored under ["return_value"]. *)
Definition store : Type := list ((string * string) * pyval).

Definition same_key (a b : string * string) : bool :=
  String.eqb (fst a) (fst b) && String.eqb (snd a) (snd b).

Fixpoint pull (x : store) (task_id key : string) : pyval :=
  match x with
  | [] => PNone
  | (k, v) :: x' => if same_key k (task_id, key) then v else pull x' task_id key
  end.

Definition push (task_id key : string) (v : pyval) : M store unit :=
  fun x => (Return tt, ((task_id, key), v) :: x).

End XCom.

(* ===================================================================== *)
(** ** The relational sink (psycopg2 connection to PostgreSQL) *)
(* ===================================================================== *)

Module Sink.

(** A local variable holding a connection or a cursor: not yet assigned,
    open, or closed. *)
Inductive handle : Type := Unbound | Open | Closed.

Section Sink.

(** The type of stored rows of the table a loader writes. *)
Variable R : Type.

(** [table] holds the committed rows, [txn] the rows written by the open
    transaction.  [faults] is the sink's fault plan: every call that talks
    to the server (connect, execute, commit) takes the next entry and
    fails when it is [true]; an exhausted plan means no further fault.
    [serial] is the next value of the table's sequence, [clock] the
    server time and [sent] the number of statements passed to
    [cursor.execute] so far. *)
Record t : Type := mk {
  table : list R;
  txn : list R;
  conn : handle;
  cursor : handle;
  faults : list bool;
  serial : Z;
  clock : Z;
  sent : nat
}.

Definition with_txn (s : t) (x : list R) : t :=
  mk (table s) x (conn s) (cursor s) (faults s) (serial s) (clock s) (sent s).
Definition with_conn (s : t) (h : handle) : t :=
  mk (table s) (txn s) h (cursor s) (faults s) (serial s) (clock s) (sent s).
Definition with_cursor (s : t) (h : handle) : t :=
  mk (table s) (txn s) (conn s) h (faults s) (serial s) (clock s) (sent s).
Definition with_faults (s : t) (f : list bool) : t :=
  mk (table s) (txn s) (conn s) (cursor s) f (serial s) (clock s) (sent s).
Definition with_serial (s : t) (n : Z) : t :=
  mk (table s) (txn s) (conn s) (cursor s) (faults s) n (clock s) (sent s).
Definition with_sent (s : t) (n : nat) : t :=
  mk (table s) (txn s) (conn s) (cursor s) (faults s) (serial s) (clock s) n.
Definition with_table (s : t) (x : list R) : t :=
  mk x (txn s) (conn s) (cursor s) (faults s) (serial s) (clock s) (sent s).
Definition with_clock (s : t) (c : Z) : t :=
  mk (table s) (txn s) (conn s) (cursor s) (faults s) (serial s) c (sent s).

(** A task invocation starts with fresh local variables. *)
Definition new_frame (s : t) : t :=
  mk (table s) [] Unbound Unbound (faults s) (serial s) (clock s) (sent s).

(** The rows a statement of the open transaction sees. *)
Definition visible (s : t) : list R := table s ++ txn s.

(** Takes the next entry of the fault plan. *)
Definition next_fault (s : t) : bool * t :=
  match faults s with
  | [] => (false, s)
  | b :: f => (b, with_faults s f)
  end.

(** [psycopg2.connect(...)] / [pg_hook.get_conn()] *)
Definition connect : M t unit :=
  fun s =>
    let (b, s1) := next_fault s in
    if b then (Raise OperationalError, s1)
    else (Return tt, with_txn (with_conn s1 Open) []).

(** [connection.cursor()] *)
Definition get_cursor : M t unit :=
  fun s =>
    match conn s with
    | Unbound => (Raise UnboundLocalError, s)
    | Closed => (Raise InterfaceError, s)
    | Open => (Return tt, with_cursor s Open)
    end.

(** [cursor.execute(stmt)]: the statement is given by what it does to the
    sink when the server accepts it. *)
Definition execute (stmt : t -> outcome t) : M t unit :=
  fun s =>
    match cursor s with
    | Unbound => (Raise UnboundLocalError, s)
    | Closed => (Raise InterfaceError, s)
    | Open =>
        let (b, s1) := next_fault (with_sent s (S (sent s))) in
        if b then (Raise DatabaseError, s1)
        else match stmt s1 with
             | Return s2 => (Return tt, s2)
             | Raise e => (Raise e, s1)
             end
    end.

(** [connection.commit()] *)
Definition commit : M t unit :=
  fun s =>
    match conn s with
    | Unbound => (Raise UnboundLocalError, s)
    | Closed => (Raise InterfaceError, s)
    | Open =>
        let (b, s1) := next_fault s in
        if b then (Raise OperationalError, s1)
        else (Return tt, with_txn (with_table s1 (table s1 ++ txn s1)) [])
    end.

(** [connection.rollback()] *)
Definition rollback : M t unit :=
  fun s =>
    match conn s with
    | Unbound => (Raise UnboundLocalError, s)
    | Closed => (Raise InterfaceError, s)
    | Open => (Return tt, with_txn s [])
    end.

(** [cursor.close()] *)
Definition cursor_close : M t unit :=
  fun s =>
    match cursor s with
    | Unbound => (Raise UnboundLocalError, s)
    | _ => (Return tt, with_cursor s Closed)
    end.

(** [connection.close()]: what was not committed is discarded. *)
Definition close : M t unit :=
  fun s =>
    match conn s with
    | Unbound => (Raise UnboundLocalError, s)
    | _ => (Return tt, with_txn (with_conn s Closed) [])
    end.

(** The connection of this invocation is not held any more: it was closed,
    or never acquired. *)
Definition released (s : t) : bool :=
  match conn s with Open => false | _ => true end.

(** The fields only [connect], [commit] and the two [close] calls change
    are the same in [s] and [s']. *)
Definition stable (s s' : t) : Prop :=
  table s' = table s /\ conn s' = conn s /\ cursor s' = cursor s.

(** A computation that leaves those fields alone, whatever its outcome. *)
Definition keeps {A} (m : M t A) : Prop :=
  forall s, stable s (snd (m s)).

(** A statement that does, when the server accepts it. *)
Definition mild (stmt : t -> outcome t) : Prop :=
  forall s s', stmt s = Return s' -> stable s s'.

(** A normal return means that no call to the server failed: the part of
    the fault plan that was used up holds no fault. *)
Definition quiet {A} (m : M t A) : Prop :=
  forall s a s', m s = (Return a, s') ->
    exists n, faults s = repeat false n ++ faults s'.

(** A statement that leaves the fault plan alone. *)
Definition plain (stmt : t -> outcome t) : Prop :=
  forall s s', stmt s = Return s' -> faults s' = faults s.

End Sink.

Arguments table {R} _.
Arguments txn {R} _.
Arguments conn {R} _.
Arguments cursor {R} _.
Arguments faults {R} _.
Arguments serial {R} _.
Arguments clock {R} _.
Arguments sent {R} _.
Arguments with_sent {R} _ _.
Arguments with_txn {R} _ _.
Arguments with_conn {R} _ _.
Arguments with_cursor {R} _ _.
Arguments with_faults {R} _ _.
Arguments with_serial {R} _ _.
Arguments with_table {R} _ _.
Arguments with_clock {R} _ _.
Arguments new_frame {R} _.
Arguments visible {R} _.
Arguments next_fault {R} _.
Arguments connect {R} _.
Arguments get_cursor {R} _.
Arguments execute {R} _ _.
Arguments commit {R} _.
Arguments rollback {R} _.
Arguments cursor_close {R} _.
Arguments close {R} _.
Arguments released {R} _.
Arguments stable {R} _ _.
Arguments keeps {R A} _.
Arguments mild {R} _.
Arguments quiet {R A} _.
Arguments plain {R} _.

End Sink.

(* ===================================================================== *)
(** ** Frames ([pandas]) *)
(* ===================================================================== *)

Module Pandas.

(** A frame is given by the list of records [pd.DataFrame] or
    [pd.read_json] builds it from.  Its columns are the keys of the
    records, in the order in which they first appear; a record that is no
    mapping brings no named column. *)
Definition is_record (v : pyval) : bool :=
  match v with PDict _ => true | _ => false end.

Definition keys (record : pyval) : list string :=
  match record with PDict d => map fst d | _ => [] end.

Definition mem (x : string) (l : list string) : bool := existsb (String.eqb x) l.

Fixpoint uniq (seen l : list string) : list string :=
  match l with
  | [] => []
  | x :: l' => if mem x seen then uniq seen l' else x :: uniq (x :: seen) l'
  end.

Definition columns (records : list pyval) : list string :=
  uniq [] (List.concat (map keys records)).

(** What a record has under a column; [None] when it lacks the key. *)
Definition entry (c : string) (record : pyval) : option pyval :=
  match record with PDict d => lookup c d | _ => None end.

Definition column (records : list pyval) (c : string) : list (option pyval) :=
  map (entry c) records.

(** The type a column is given, as far as it changes what a cell holds:
    a column that has only numbers and nulls, and not only ints or only
    nulls, becomes one of floats, in which an int is a float and a null
    is NaN.  A column with a string, a list, a mapping or a boolean keeps
    its objects, and so does a column of nulls only; an int that does not
    fit 64 bits is taken to keep the objects of its column too.  An
    absent key is NaN in every column. *)
Inductive kind : Type := Null | Nan | Int | Float | Other.

Definition in_int64 (k : Z) : bool := (- 2 ^ 63 <=? k) && (k <? 2 ^ 63).

Definition kind_of (o : option pyval) : kind :=
  match o with
  | None => Nan
  | Some PNone => Null
  | Some PNaN => Nan
  | Some (PInt k) => if in_int64 k then Int else Other
  | Some (PFloat _) => Float
  | Some _ => Other
  end.

Definition has (k : kind) (col : list (option pyval)) : bool :=
  existsb (fun o => match kind_of o, k with
                    | Null, Null | Nan, Nan | Int, Int | Float, Float
                    | Other, Other => true
                    | _, _ => false
                    end) col.

Definition floated (col : list (option pyval)) : bool :=
  negb (has Other col)
  && (has Float col || has Nan col || (has Null col && has Int col)).

(** The float nearest to an integer: 53 bits are kept, a tie goes to
    the even neighbour. *)
Definition nearest (k : Z) : Z :=
  let a := Z.abs k in
  let e := Z.log2 a - 52 in
  if e <=? 0 then k
  else
    let q := Z.shiftr a e in
    let r := a - Z.shiftl q e in
    let half := Z.shiftl 1 (e - 1) in
    let q' := if (half <? r) || ((r =? half) && Z.odd q) then q + 1 else q in
    Z.sgn k * Z.shiftl q' e.

Definition to_float (v : pyval) : pyval :=
  match v with
  | PNone => PNaN
  | PInt k => PFloat (inject_Z (nearest k))
  | _ => v
  end.

(** The object a row yields for a column: [row[c]]. *)
Definition cell (col : list (option pyval)) (o : option pyval) : pyval :=
  match o with
  | None => PNaN
  | Some v => if floated col then to_float v else v
  end.

(** [for _, row in df.iterrows()]: the rows, each with the cells of its
    columns.  (A frame of quote records has a column of strings, so the
    cells of a row are Python objects, not numpy scalars.)  Values that
    are no mappings give a frame without a named column, so that
    [row["id"]] has no key to find. *)
Definition iterrows (records : list pyval) : list pyval :=
  if forallb is_record records
  then map (fun r =>
              PDict (map (fun c => (c, cell (column records c) (entry c r)))
                         (columns records)))
           records
  else map (fun _ => PDict []) records.

End Pandas.

(* ===================================================================== *)
(** ** quotes/quotes.py *)
(* ===================================================================== *)

Module Quotes.

(** *** Step 1: fetch_quote *)

Definition fetch_quote (net : Requests.reply) : outcome pyval :=
  otry
    (let? response := Requests.get net in
     let? _ := Requests.raise_for_status response in
     let? data := Requests.json response in
     let? id0 := get data "id" PNone in
     let? id := py_or id0 (get data "quoteId" PNone) in
     let? content := get data "content" PNone in
     let? originator := get data "originator" (PDict []) in
     let? author := get originator "name" (PStr "Unknown") in
     let? tags0 := get data "tags" (PList []) in
     let? tags := join ", " tags0 in
     Return (PDict [("id", id); ("content", content);
                    ("author", author); ("tags", PStr tags)]))
    is_RequestException
    (fun _ => Return PNone).

(** *** Step 2: transform_data *)

(** A DataFrame is given by the records it was built from
    ([pd.DataFrame([quote_data])]); what a row yields for a column is
    [Pandas.iterrows].  The program only builds one-row frames. *)
Definition dataframe : Type := list pyval.

(** [df.empty]: no row, or no column. *)
Definition empty (df : dataframe) : bool :=
  forallb (fun r => match r with PDict [] => true | _ => false end) df.

Definition transform_data (quote_data : pyval) : outcome (option dataframe) :=
  if negb (truthy quote_data) then Return None
  else Return (Some [quote_data]).

(** *** Step 3: load_data *)

(** A stored row of
    [quotes (id BIGINT PRIMARY KEY, content TEXT NOT NULL, author TEXT, tags TEXT)]. *)
Record quote_row : Type := mkQuote {
  q_id : Z;
  q_content : pyval;
  q_author : pyval;
  q_tags : pyval
}.

Abbreviation db := (Sink.t quote_row).

Definition in_bigint (k : Z) : bool :=
  (- 2 ^ 63 <=? k) && (k <? 2 ^ 63).

Definition has_id (k : Z) (rows : list quote_row) : bool :=
  existsb (fun r => q_id r =? k) rows.

(** [CREATE TABLE IF NOT EXISTS quotes (...)] and the [DO $$ ... $$] block
    that adds the [tags] column: the table is there with its four
    columns, so neither changes a row. *)
Definition create_table_query (s : db) : outcome db := Return s.
Definition alter_table_query (s : db) : outcome db := Return s.

(** What the driver can pass as a parameter: a mapping cannot be adapted,
    a string must not hold a NUL character, a list is passed as an array
    of its items.  (Whether the server can give the items of an array
    one type is not followed: an array the driver could pass is taken as
    accepted.) *)
Definition no_nul (s : string) : bool :=
  forallb (fun c => negb (Ascii.eqb c Ascii.zero)) (list_ascii_of_string s).

Fixpoint adapt (v : pyval) : outcome unit :=
  match v with
  | PDict _ => Raise ProgrammingError
  | PStr s =>
      if no_nul s then Return tt
      else Raise (ValueError "A string literal cannot contain NUL (0x00) characters.")
  | PList l =>
      (fix all (l : list pyval) : outcome unit :=
         match l with
         | [] => Return tt
         | x :: l' => match adapt x with Return _ => all l' | Raise e => Raise e end
         end) l
  | _ => Return tt
  end.

(** The integer a string stands for when the server reads it as a BIGINT:
    decimal digits with an optional sign, blanks around them.  (The
    other spellings recent servers read, such as [0x11] or [1_000], are
    not read here.) *)
Definition is_space (c : ascii) : bool :=
  let n := nat_of_ascii c in
  Nat.eqb n 32 || (Nat.leb 9 n && Nat.leb n 13).

Definition digit (c : ascii) : option Z :=
  let n := Z.of_nat (nat_of_ascii c) in
  if (48 <=? n) && (n <=? 57) then Some (n - 48) else None.

Fixpoint digits (acc : Z) (seen : bool) (s : string) : option Z :=
  match s with
  | EmptyString => if seen then Some acc else None
  | String c s' =>
      match digit c with
      | Some d => digits (10 * acc + d) true s'
      | None =>
          if seen && forallb is_space (list_ascii_of_string s)
          then Some acc else None
      end
  end.

Fixpoint lstrip (s : string) : string :=
  match s with
  | String c s' => if is_space c then lstrip s' else s
  | EmptyString => EmptyString
  end.

Definition int8in (s : string) : option Z :=
  match lstrip s with
  | String "-" s' => option_map Z.opp (digits 0 false s')
  | String "+" s' => digits 0 false s'
  | s' => digits 0 false s'
  end.

(** A float reaches the server as a numeric literal, which the
    assignment to a BIGINT column rounds, halves away from zero. *)
Definition round (q : Q) : Z :=
  Z.sgn (Qnum q) * ((2 * Z.abs (Qnum q) + Zpos (Qden q)) / (2 * Zpos (Qden q))).

(** The BIGINT the server makes of the id it is given: an int, a float or
    a string that reads as an integer; a boolean, a list and NaN are
    refused. *)
Definition bigint_of (id : pyval) : option Z :=
  match id with
  | PInt k => Some k
  | PFloat q => Some (round q)
  | PStr s => int8in s
  | _ => None
  end.

(** The row the statement would store, or what [execute] raises: the
    driver adapts the four parameters, then the server casts the id and
    checks the two NOT NULL constraints.  The text columns take what the
    driver could adapt; the row is recorded with the parameters as they
    were given, not with the text the server makes of them. *)
Definition row_of (id content author tags : pyval) : outcome quote_row :=
  let? _ := adapt id in
  let? _ := adapt content in
  let? _ := adapt author in
  let? _ := adapt tags in
  match id with
  | PNone => Raise (NotNullViolation "id")
  | _ =>
      match bigint_of id with
      | None => Raise DataError
      | Some k =>
          if negb (in_bigint k) then Raise DataError
          else match content with
               | PNone => Raise (NotNullViolation "content")
               | _ => Return (mkQuote k content author tags)
               end
      end
  end.

(** [INSERT INTO quotes (id, content, author, tags) VALUES (%s, %s, %s, %s)
     ON CONFLICT (id) DO NOTHING]: a row whose id is already visible is
    left alone. *)
Definition insert_query (id content author tags : pyval) (s : db) : outcome db :=
  let? q := row_of id content author tags in
  if has_id (q_id q) (Sink.visible s) then Return s
  else Return (Sink.with_txn s (Sink.txn s ++ [q])).

Definition is_None (v : pyval) : bool :=
  match v with PNone => true | _ => false end.

Definition insert_row (row : pyval) : M db unit :=
  id <- lift (getitem row "id") ;;
  if negb (is_None id) then
    content <- lift (getitem row "content") ;;
    author <- lift (getitem row "author") ;;
    tags <- lift (getitem row "tags") ;;
    Sink.execute (insert_query id content author tags)
  else ret tt.

(** The body of the [try] block.  [connection.autocommit = False] keeps
    psycopg2's default: statements run in a transaction until [commit]. *)
Definition load_body (df : dataframe) : M db unit :=
  Sink.connect ;;
  Sink.get_cursor ;;
  Sink.execute create_table_query ;;
  Sink.execute alter_table_query ;;
  for_each (Pandas.iterrows df) insert_row ;;
  Sink.commit.

Definition load_data (df : option dataframe) : M db unit :=
  match df with
  | None => ret tt
  | Some rows =>
      if empty rows then ret tt
      else
        try_finally
          (try_except (load_body rows) Exception (fun _ => Sink.rollback))
          (Sink.cursor_close ;; Sink.close)
  end.

(** The pipeline of the [__main__] block. *)
Definition main (net : Requests.reply) : M db unit :=
  quote <- lift (fetch_quote net) ;;
  df <- lift (transform_data quote) ;;
  load_data df.

End Quotes.

(* ===================================================================== *)
(** ** quotes/self_confidence.py *)
(* ===================================================================== *)

Module SelfConfidence.

(** Task 1.  The status of the response is not looked at. *)
Definition fetch_quote (net : Requests.reply) : M XCom.store unit :=
  response <- lift (Requests.get net) ;;
  quote_data <- lift (Requests.json response) ;;
  XCom.push "fetch_quote" "quote_data" quote_data.

(** A stored row of
    [self_confidence (id SERIAL PRIMARY KEY, quote TEXT, author TEXT, type TEXT)]. *)
Record sc_row : Type := mkRow {
  sc_id : Z;
  sc_quote : pyval;
  sc_author : pyval;
  sc_type : pyval
}.

Abbreviation db := (Sink.t sc_row).

(** [CREATE TABLE IF NOT EXISTS self_confidence (...)] *)
Definition create_table (s : db) : outcome db := Return s.

(** [INSERT INTO self_confidence (quote, author, type) VALUES (%s, %s, %s)]:
    the id comes from the table's sequence. *)
Definition insert_query (quote author type : pyval) (s : db) : outcome db :=
  Return (Sink.with_txn (Sink.with_serial s (Sink.serial s + 1))
            (Sink.txn s ++ [mkRow (Sink.serial s) quote author type])).

(** Task 3 *)
Definition load_to_postgres (ti : XCom.store) : M db unit :=
  let data := XCom.pull ti "fetch_quote" "quote_data" in
  Sink.connect ;;
  Sink.get_cursor ;;
  Sink.execute create_table ;;
  quote <- lift (getitem data "quote") ;;
  author <- lift (getitem data "author") ;;
  type <- lift (getitem data "type") ;;
  Sink.execute (insert_query quote author type) ;;
  Sink.commit ;;
  Sink.cursor_close ;;
  Sink.close.

End SelfConfidence.

(* ===================================================================== *)
(** ** The scheduler's view of a task *)
(* ===================================================================== *)

Module Airflow.

Record datetime : Type := mkDatetime {
  year : Z; month : Z; day : Z; hour : Z; minute : Z; second : Z
}.

(** The context a callable receives as [**kwargs]. *)
Record kwargs : Type := mkKwargs {
  logical_date : datetime;
  ti : XCom.store
}.

(** What a callable could read besides its arguments: the wall clock of
    the worker that executes it. *)
Record worker : Type := mkWorker { now : datetime }.

Inductive operator : Type :=
| PythonOperator
| ShortCircuitOperator (python_callable : worker -> kwargs -> outcome bool).

Record task : Type := mkTask {
  task_id : string;
  op : operator;
  upstream : list string;
  retries : nat
}.

End Airflow.

(* ===================================================================== *)
(** ** crypto_prices/crypto_prices.py *)
(* ===================================================================== *)

Module Crypto.

Import Airflow.

Definition coin (data : pyval) (symbol name : string) : outcome pyval :=
  let? c := getitem data name in
  let? usd := getitem c "usd" in
  let? c' := getitem data name in
  let? change := getitem c' "usd_24h_change" in
  Return (PDict [("symbol", PStr symbol); ("price_usd", usd); ("change_24h", change)]).

Definition fetch_crypto_prices (net : Requests.reply) : outcome pyval :=
  otry
    (let? response := Requests.get net in
     let? _ := Requests.raise_for_status response in
     let? data := Requests.json response in
     let? btc := coin data "BTC" "bitcoin" in
     let? eth := coin data "ETH" "ethereum" in
     let? bnb := coin data "BNB" "binancecoin" in
     Return (PList [btc; eth; bnb]))
    is_RequestException
    (fun _ => Raise (ValueError "Error fetching data from CoinGecko API")).

(** A stored row of [crypto_prices (symbol, price_usd, change_24h, timestamp)]. *)
Record price_row : Type := mkPrice {
  p_symbol : pyval;
  p_price_usd : pyval;
  p_change_24h : pyval;
  p_timestamp : Z
}.

Abbreviation db := (Sink.t price_row).

(** [INSERT INTO crypto_prices (symbol, price_usd, change_24h, timestamp)
     VALUES (%s, %s, %s, NOW())] *)
Definition insert_query (symbol price_usd change_24h : pyval) (s : db) : outcome db :=
  Return (Sink.with_txn s
            (Sink.txn s ++ [mkPrice symbol price_usd change_24h (Sink.clock s)])).

Definition insert_crypto (crypto : pyval) : M db unit :=
  symbol <- lift (getitem crypto "symbol") ;;
  price_usd <- lift (getitem crypto "price_usd") ;;
  change_24h <- lift (getitem crypto "change_24h") ;;
  Sink.execute (insert_query symbol price_usd change_24h).

Definition insert_into_postgres (kw : kwargs) : M db unit :=
  let crypto_data := XCom.pull (ti kw) "fetch_crypto_prices" "return_value" in
  if negb (truthy crypto_data) then throw (ValueError "No data received from fetch task")
  else
    Sink.connect ;;
    Sink.get_cursor ;;
    items <- lift (iter crypto_data) ;;
    for_each items insert_crypto ;;
    Sink.commit ;;
    Sink.cursor_close ;;
    Sink.close.

(** "Send email only at 8 AM daily" *)
Definition check_send_time (w : worker) (kw : kwargs) : outcome bool :=
  let logical_date := logical_date kw in
  Return (hour logical_date =? 8).

(** The tasks of [crypto_price_dag] with the edges
    [fetch_task >> [insert_task, check_time_task]],
    [insert_task >> check_time_task], [check_time_task >> send_email_task];
    [default_args] gives every task one retry. *)
Definition fetch_task : task :=
  mkTask "fetch_crypto_prices" PythonOperator [] 1.
Definition insert_task : task :=
  mkTask "insert_into_postgres" PythonOperator ["fetch_crypto_prices"] 1.
Definition check_time_task : task :=
  mkTask "check_send_time" (ShortCircuitOperator check_send_time)
    ["fetch_crypto_prices"; "insert_into_postgres"] 1.
Definition send_email_task : task :=
  mkTask "send_email" PythonOperator ["check_send_time"] 1.

Definition dag : list task :=
  [fetch_task; insert_task; check_time_task; send_email_task].

End Crypto.

(* ===================================================================== *)
(** ** healthcare_joblist/healthcare.py *)
(* ===================================================================== *)

Module Healthcare.

Import Airflow.

(** [len(v)] *)
Definition len (v : pyval) : outcome Z :=
  match v with
  | PList l => Return (Z.of_nat (List.length l))
  | PStr s => Return (Z.of_nat (String.length s))
  | PDict d => Return (Z.of_nat (List.length d))
  | _ => Raise TypeError
  end.

(** The API key is an Airflow Variable, taken as set. *)
Definition fetch_data (net : Requests.reply) : M XCom.store unit :=
  try_except
    (response <- lift (Requests.get net) ;;
     lift (Requests.raise_for_status response) ;;
     data <- lift (Requests.json response) ;;
     XCom.push "fetch_data" "raw_data" data ;;
     _ <- lift (len data) ;;
     ret tt)
    Exception
    (fun e => throw e).

(** [item["locations_raw"][0]] followed by [f], guarded by
    [if item.get("locations_raw") else None]. *)
Definition first_location (item : pyval) (f : pyval -> outcome pyval) : outcome pyval :=
  let? guard := get item "locations_raw" PNone in
  if truthy guard then
    let? locations := getitem item "locations_raw" in
    let? loc := getitem0 locations in
    f loc
  else Return PNone.

Definition address_field (name : string) (loc : pyval) : outcome pyval :=
  let? address := getitem loc "address" in
  getitem address name.

(** The dict display of the inner [try] block, evaluated in its order. *)
Definition record_of (item : pyval) : outcome pyval :=
  let? id := get item "id" PNone in
  let? date_posted := get item "date_posted" PNone in
  let? title := get item "title" PNone in
  let? organization := get item "organization" PNone in
  let? organization_url := get item "organization_url" PNone in
  let? date_validthrough := get item "date_validthrough" PNone in
  let? location_country := first_location item (address_field "addressCountry") in
  let? location_locality := first_location item (address_field "addressLocality") in
  let? latitude := first_location item (fun loc => get loc "latitude" PNone) in
  let? longitude := first_location item (fun loc => get loc "longitude" PNone) in
  let? employment_type0 := get item "employment_type" (PList []) in
  let? employment_type := join ", " employment_type0 in
  let? url := get item "url" PNone in
  let? linkedin_org_employees := get item "linkedin_org_employees" PNone in
  let? linkedin_org_size := get item "linkedin_org_size" PNone in
  let? linkedin_org_industry := get item "linkedin_org_industry" PNone in
  let? linkedin_org_locations0 := get item "linkedin_org_locations" (PList []) in
  let? linkedin_org_locations := join ", " linkedin_org_locations0 in
  let? seniority := get item "seniority" PNone in
  Return (PDict [
    ("id", id);
    ("date_posted", date_posted);
    ("title", title);
    ("organization", organization);
    ("organization_url", organization_url);
    ("date_validthrough", date_validthrough);
    ("location_country", location_country);
    ("location_locality", location_locality);
    ("latitude", latitude);
    ("longitude", longitude);
    ("employment_type", PStr employment_type);
    ("url", url);
    ("linkedin_org_employees", linkedin_org_employees);
    ("linkedin_org_size", linkedin_org_size);
    ("linkedin_org_industry", linkedin_org_industry);
    ("linkedin_org_locations", PStr linkedin_org_locations);
    ("seniority", seniority)]).

(** The [for item in raw_data] loop; [flattened_data] is the accumulator.
    The handler of the inner [try] formats [item.get('id')] into its
    message before it continues. *)
Fixpoint flatten (raw_data : list pyval) (flattened_data : list pyval)
    : outcome (list pyval) :=
  match raw_data with
  | [] => Return flattened_data
  | item :: rest =>
      match record_of item with
      | Return record => flatten rest (flattened_data ++ [record])
      | Raise _ =>
          let? _ := get item "id" PNone in
          flatten rest flattened_data
      end
  end.

Definition empty_input : exn :=
  ValueError "Fetched data is empty or not in expected format (list).".
Definition no_valid_records : exn :=
  ValueError "No valid records found after transformation.".

(** The transformed frame is pushed as the JSON document of its records. *)
Definition transform_data (kw : kwargs) : M XCom.store unit :=
  try_except
    (let raw_data := XCom.pull (ti kw) "fetch_data" "raw_data" in
     match raw_data with
     | PList (item :: rest) =>
         flattened_data <- lift (flatten (item :: rest) []) ;;
         match flattened_data with
         | [] => throw no_valid_records
         | _ :: _ => XCom.push "transform_data" "transformed_data" (PList flattened_data)
         end
     | _ => throw empty_input
     end)
    Exception
    (fun e => throw e).

(** A cell of the frame the loader reads back.  What it holds is what
    [pd.read_json] makes of the values its column has in the document:
    dates, numbers and nulls are converted column by column.  A cell is
    therefore given by its column, by the values the records of the
    document have in this column, and by its row. *)
Record cell : Type := mkCell {
  cell_column : string;
  cell_values : list (option pyval);
  cell_row : nat
}.

(** A stored row of [healthcare_joblist]. *)
Definition job_row : Type := list cell.

Abbreviation db := (Sink.t job_row).

(** [pd.read_json(transformed_data, orient='records')]: the frame of the
    records of the document, which [to_json(orient='records')] wrote as a
    list of objects.  Only such documents are followed; any other is
    taken to be refused. *)
Definition read_json (transformed_data : pyval) : outcome (list pyval) :=
  match transformed_data with
  | PList records =>
      if forallb Pandas.is_record records then Return records
      else Raise (ValueError "Mixing dicts with non-Series")
  | _ => Raise (ValueError "Invalid file path or buffer object type")
  end.

(** [tuple(x) for x in df.to_numpy()]: one tuple for each row of the
    frame, with one cell for each of its columns. *)
Definition data_tuples_of (records : list pyval) : list job_row :=
  map (fun i =>
         map (fun c => mkCell c (Pandas.column records c) i)
             (Pandas.columns records))
      (seq 0 (List.length records)).

Definition read_tuples (transformed_data : pyval) : outcome (list job_row) :=
  let? df := read_json transformed_data in
  Return (data_tuples_of df).

(** [INSERT INTO healthcare_joblist (id, ..., seniority) VALUES (%s, ...)]:
    seventeen columns are named, and there is one placeholder for each
    column of the frame, which is the length of every tuple. *)
Definition insert_sql (x : job_row) (s : db) : outcome db :=
  if Nat.eqb (List.length x) 17
  then Return (Sink.with_txn s (Sink.txn s ++ [x]))
  else Raise DatabaseError.

Fixpoint insert_page (page : list job_row) (s : db) : outcome db :=
  match page with
  | [] => Return s
  | x :: page' => let? s' := insert_sql x s in insert_page page' s'
  end.

Fixpoint paginate_aux {A} (fuel : nat) (page_size : nat) (l : list A) : list (list A) :=
  match fuel with
  | O => []
  | S fuel' =>
      match l with
      | [] => []
      | _ :: _ => firstn page_size l :: paginate_aux fuel' page_size (skipn page_size l)
      end
  end.

Definition paginate {A} (page_size : nat) (l : list A) : list (list A) :=
  paginate_aux (List.length l) page_size l.

(** [execute_batch(cursor, sql, argslist, page_size)]: the statements of a
    page go to the server in one [execute]. *)
Definition execute_batch (argslist : list job_row) (page_size : nat) : M db unit :=
  for_each (paginate page_size argslist) (fun page => Sink.execute (insert_page page)).

(** The body of the [try] block. *)
Definition load_body (kw : kwargs) : M db unit :=
  let transformed_data := XCom.pull (ti kw) "transform_data" "transformed_data" in
  data_tuples <- lift (read_tuples transformed_data) ;;
  Sink.connect ;;
  Sink.get_cursor ;;
  execute_batch data_tuples 100 ;;
  Sink.commit.

Definition load_to_postgres (kw : kwargs) : M db unit :=
  try_finally
    (try_except (load_body kw) Exception (fun e => Sink.rollback ;; throw e))
    (Sink.cursor_close ;; Sink.close).

End Healthcare.

(* ===================================================================== *)
(** ** The pipeline graph *)
(* ===================================================================== *)

Module Graph.

Import Airflow.

Inductive state : Type := Pending | Running | Succeeded | Failed | Skipped.

(** A task instance of a run: its state and how often it was started. *)
Record instance : Type := mkInstance { st : state; tries : nat }.

Definition run_state : Type := string -> instance.

Definition init : run_state := fun _ => mkInstance Pending 0.

Definition upd (rs : run_state) (id : string) (i : instance) : run_state :=
  fun x => if String.eqb x id then i else rs x.

Definition set_state (rs : run_state) (id : string) (s : state) : run_state :=
  upd rs id (mkInstance s (tries (rs id))).

Definition is_downstream (d : list task) (gate x : string) : bool :=
  existsb (fun t => String.eqb (task_id t) x && existsb (String.eqb gate) (upstream t)) d.

Definition skip_downstream (d : list task) (gate : string) (rs : run_state) : run_state :=
  fun x => if is_downstream d gate x then mkInstance Skipped (tries (rs x)) else rs x.

Definition ended_without_result (s : state) : bool :=
  match s with Failed | Skipped => true | _ => false end.

(** Modelled from the spec: the executor of the task graph is the
    scheduler, which is not part of the repository; this is the state
    machine of the spec's sections 4.5 and 4.6.  A pending task starts
    when all its upstream tasks succeeded; a running task succeeds or
    fails, and a failed attempt is started again while retries are left;
    a gate that returns false succeeds and marks its downstream tasks
    skipped; a pending task with a failed or skipped upstream task is
    skipped. *)
Inductive step (d : list task) (kw : kwargs) : run_state -> run_state -> Prop :=
| step_start t rs :
    In t d ->
    st (rs (task_id t)) = Pending ->
    (forall u, In u (upstream t) -> st (rs u) = Succeeded) ->
    step d kw rs
      (upd rs (task_id t) (mkInstance Running (S (tries (rs (task_id t))))))
| step_success t rs :
    In t d ->
    op t = PythonOperator ->
    st (rs (task_id t)) = Running ->
    step d kw rs (set_state rs (task_id t) Succeeded)
| step_gate_open t f w rs :
    In t d ->
    op t = ShortCircuitOperator f ->
    st (rs (task_id t)) = Running ->
    f w kw = Return true ->
    step d kw rs (set_state rs (task_id t) Succeeded)
| step_gate_closed t f w rs :
    In t d ->
    op t = ShortCircuitOperator f ->
    st (rs (task_id t)) = Running ->
    f w kw = Return false ->
    step d kw rs (skip_downstream d (task_id t) (set_state rs (task_id t) Succeeded))
| step_retry t rs :
    In t d ->
    st (rs (task_id t)) = Running ->
    (tries (rs (task_id t)) <= retries t)%nat ->
    step d kw rs (set_state rs (task_id t) Pending)
| step_fail t rs :
    In t d ->
    st (rs (task_id t)) = Running ->
    (retries t < tries (rs (task_id t)))%nat ->
    step d kw rs (set_state rs (task_id t) Failed)
| step_skip t u rs :
    In t d ->
    st (rs (task_id t)) = Pending ->
    In u (upstream t) ->
    ended_without_result (st (rs u)) = true ->
    step d kw rs (set_state rs (task_id t) Skipped).

Inductive reachable (d : list task) (kw : kwargs) : run_state -> Prop :=
| reach_init : reachable d kw init
| reach_step rs rs' : reachable d kw rs -> step d kw rs rs' -> reachable d kw rs'.

End Graph.
(* ===================================================================== *)
(** ** The task graphs of healthcare.py and self_confidence.py *)
(* ===================================================================== *)

Module HealthcareDag.
Import Airflow.

(** [default_args] sets no retries, so a task has the default, none. *)
Definition fetch_task : task :=
  mkTask "fetch_data" PythonOperator [] 0.
Definition transform_task : task :=
  mkTask "transform_data" PythonOperator ["fetch_data"] 0.
Definition load_task : task :=
  mkTask "load_to_postgres" PythonOperator ["transform_data"] 0.

(** [fetch_task >> transform_task >> load_task] *)
Definition dag : list task := [fetch_task; transform_task; load_task].

End HealthcareDag.

Module SelfConfidenceDag.
Import Airflow.

Definition fetch_task : task :=
  mkTask "fetch_quote" PythonOperator [] 1.
Definition email_task : task :=
  mkTask "send_csv_email" PythonOperator ["fetch_quote"] 1.
Definition load_task : task :=
  mkTask "load_quote" PythonOperator ["fetch_quote"] 1.

(** [fetch_task >> [email_task, load_task]] *)
Definition dag : list task := [fetch_task; email_task; load_task].

End SelfConfidenceDag.

(* ===================================================================== *)
(** ** The mail client ([smtplib]) and Airflow's Variables *)
(* ===================================================================== *)

Module Variables.

(** [airflow.models.Variable]: named strings kept by the scheduler. *)
Definition store : Type := list (string * string).

Fixpoint find (key : string) (vs : store) : option string :=
  match vs with
  | [] => None
  | (k, v) :: vs' => if String.eqb key k then Some v else find key vs'
  end.

(** [Variable.get(key)] *)
Definition get (vs : store) (key : string) : outcome string :=
  match find key vs with
  | Some v => Return v
  | None => Raise KeyError
  end.

(** [Variable.get(key, default_var=d)] *)
Definition get_default (vs : store) (key : string) (default_var : pyval) : pyval :=
  match find key vs with
  | Some v => PStr v
  | None => default_var
  end.

End Variables.

Module Smtplib.

(** What the mail functions can raise: the classes of [Py.exn], the
    errors of the mail client and of the sockets under it, and the
    [Exception] that crypto_prices.py builds from a caught one. *)
Inductive error : Type :=
| Builtin (e : exn)
| OSError
| Failed (cause : error).       (* Exception("Failed to send email: ...") *)

Inductive result (A : Type) : Type :=
| Done (a : A)
| Fail (e : error).
Arguments Done {A} a.
Arguments Fail {A} e.

Definition E (S A : Type) : Type := S -> result A * S.

Definition ret {S A} (a : A) : E S A := fun s => (Done a, s).
Definition fail {S A} (e : error) : E S A := fun s => (Fail e, s).

(** Pure code of the builtin model. *)
Definition lift {S A} (o : outcome A) : E S A :=
  fun s => match o with
           | Return a => (Done a, s)
           | Raise e => (Fail (Builtin e), s)
           end.

Definition bind {S A B} (m : E S A) (k : A -> E S B) : E S B :=
  fun s =>
    match m s with
    | (Done a, s') => k a s'
    | (Fail e, s') => (Fail e, s')
    end.

(** [try: body  except Exception as e: handler e] *)
Definition try_except {S A} (body : E S A) (handler : error -> E S A) : E S A :=
  fun s =>
    match body s with
    | (Done a, s') => (Done a, s')
    | (Fail e, s') => handler e s'
    end.

(** The calls a program makes on the client. *)
Inductive call : Type :=
| Connect (ssl : bool) (host port : pyval)
| Starttls
| Login (user password : pyval)
| Sendmail (from_addr to_addrs : pyval) (msg : string)
| Quit.

(** A message the server accepted. *)
Record envelope : Type := mkEnvelope {
  from_addr : pyval; to_addrs : pyval; data : string
}.

(** The calls made so far, the messages accepted so far, and what the
    coming calls will meet: [None] for a call that goes through, [Some e]
    for one that raises [e]; after the plan every call goes through. *)
Record t : Type := mk {
  calls : list call;
  outbox : list envelope;
  faults : list (option error)
}.

Definition request (c : call) : E t unit :=
  fun s =>
    let s' := mk (calls s ++ [c]) (outbox s) (tl (faults s)) in
    match hd None (faults s) with
    | None => (Done tt, s')
    | Some e => (Fail e, s')
    end.

(** [smtplib.SMTP(host, port)] *)
Definition SMTP (host port : pyval) : E t unit := request (Connect false host port).

(** [smtplib.SMTP_SSL(host, port)] *)
Definition SMTP_SSL (host port : pyval) : E t unit := request (Connect true host port).

Definition starttls : E t unit := request Starttls.

Definition login (user password : pyval) : E t unit := request (Login user password).

Definition sendmail (sender receivers : pyval) (msg : string) : E t unit :=
  bind (request (Sendmail sender receivers msg))
    (fun _ s => (Done tt,
                 mk (calls s) (outbox s ++ [mkEnvelope sender receivers msg]) (faults s))).

Definition quit : E t unit := request Quit.

(** [email.mime]: a multipart message, its headers in the order they
    were set. *)
Inductive part : Type :=
| MIMEText (text : string)
| MIMEApplication (content : string) (name : string).

Record message : Type := mkMessage {
  headers : list (string * pyval);
  parts : list part
}.

End Smtplib.

Declare Scope mail_scope.
Delimit Scope mail_scope with mail.
Notation "x <- m ;; k" := (Smtplib.bind m (fun x => k))
  (at level 61, m at next level, right associativity) : mail_scope.
Notation "m ;; k" := (Smtplib.bind m (fun _ => k))
  (at level 61, right associativity) : mail_scope.

(* ===================================================================== *)
(** ** crypto_prices/crypto_prices.py: the report *)
(* ===================================================================== *)

Module CryptoEmail.
Import Airflow Smtplib.
Local Open Scope mail_scope.

Definition newline : string := String (ascii_of_nat 10) "".

(** [s.split(sep)] for a one-character separator. *)
Fixpoint split (sep : ascii) (s : string) : list string :=
  match s with
  | EmptyString => [EmptyString]
  | String c s' =>
      if Ascii.eqb c sep then EmptyString :: split sep s'
      else match split sep s' with
           | h :: t => String c h :: t
           | [] => [String c EmptyString]
           end
  end.

Section Builtins.

(** Rendering of values, which the files leave to the interpreter:
    [str(v)], a number with two decimals, [int(s)] of a string, and the
    text of a message. *)
Variable str : pyval -> string.
Variable fixed2 : Q -> string.
Variable int_of_string : string -> outcome Z.
Variable as_string : message -> outcome string.

(** [format(v, ".2f")] *)
Definition format_2f (v : pyval) : outcome string :=
  match v with
  | PInt n => Return (fixed2 (inject_Z n))
  | PFloat q => Return (fixed2 q)
  | PBool b => Return (fixed2 (inject_Z (if b then 1 else 0)))
  | PNaN => Return "nan"
  | PStr _ => Raise (ValueError "Unknown format code 'f' for object of type 'str'")
  | _ => Raise TypeError
  end.

(** [int(v)] *)
Definition int (v : pyval) : outcome Z :=
  match v with
  | PInt n => Return n
  | PBool b => Return (if b then 1 else 0)
  | PFloat q => Return (Z.quot (Qnum q) (Zpos (Qden q)))
  | PStr s => int_of_string s
  | PNaN => Raise (ValueError "cannot convert float NaN to integer")
  | _ => Raise TypeError
  end.

(** One line of the report. *)
Definition line (crypto : pyval) : outcome string :=
  let? symbol := getitem crypto "symbol" in
  let? price_usd := getitem crypto "price_usd" in
  let? price := format_2f price_usd in
  let? change_24h := getitem crypto "change_24h" in
  let? change := format_2f change_24h in
  Return (str symbol ++ " | $" ++ price ++ " | " ++ change ++ "%")%string.

Fixpoint lines (crypto_data : list pyval) : outcome (list string) :=
  match crypto_data with
  | [] => Return []
  | crypto :: rest =>
      let? l := line crypto in
      let? ls := lines rest in
      Return (l :: ls)
  end.

Definition heading : list string :=
  ["Symbol | Price (USD) | 24h Change (%)";
   "----------------------------------------"].

Definition send_email (vars : Variables.store) (kw : kwargs) : E Smtplib.t unit :=
  let crypto_data := XCom.pull (ti kw) "fetch_crypto_prices" "return_value" in
  if negb (truthy crypto_data)
  then fail (Builtin (ValueError "No data received from fetch task"))
  else
    items <- lift (iter crypto_data) ;;
    report_lines <- lift (lines items) ;;
    let report_text := String.concat newline (heading ++ report_lines) in
    smtp_host <- lift (Variables.get vars "smtp_host") ;;
    smtp_port <- lift (int (Variables.get_default vars "smtp_port" (PInt 587))) ;;
    smtp_username <- lift (Variables.get vars "smtp_username") ;;
    smtp_password <- lift (Variables.get vars "smtp_password") ;;
    sender_email <- lift (Variables.get vars "sender_email") ;;
    receiver_emails <- lift (Variables.get vars "receiver_emails") ;;
    let msg :=
      mkMessage [("From", PStr sender_email);
                 ("To", PStr receiver_emails);
                 ("Subject", PStr "Daily Crypto Prices Report")]
                [MIMEText report_text] in
    try_except
      (SMTP (PStr smtp_host) (PInt smtp_port) ;;
       starttls ;;
       login (PStr smtp_username) (PStr smtp_password) ;;
       text <- lift (as_string msg) ;;
       sendmail (PStr sender_email)
                (PList (map PStr (split "," receiver_emails))) text ;;
       quit)
      (fun e => fail (Failed e)).

End Builtins.

End CryptoEmail.

(* ===================================================================== *)
(** ** quotes/self_confidence.py: the mail *)
(* ===================================================================== *)

Module SelfConfidenceEmail.
Import Airflow Smtplib.
Local Open Scope mail_scope.

(** [v == n] for an integer literal [n]. *)
Definition eq_int (v : pyval) (n : Z) : bool :=
  match v with
  | PInt m => m =? n
  | PBool b => (if b then 1 else 0) =? n
  | PFloat q => Qeq_bool q (inject_Z n)
  | _ => false
  end.

Section Builtins.

(** What the file leaves to libraries: a row written by [csv.writer],
    [json.loads], and the text of a message. *)
Variable writerow : list pyval -> string.
Variable json_loads : string -> outcome pyval.
Variable as_string : message -> outcome string.

(** [Variable.get(key, deserialize_json=True)] *)
Definition get_json (vars : Variables.store) (key : string) : outcome pyval :=
  let? v := Variables.get vars key in json_loads v.

Definition generate_csv_and_send_email (vars : Variables.store) (kw : kwargs)
    : E Smtplib.t unit :=
  let data := XCom.pull (ti kw) "fetch_quote" "quote_data" in
  let header := writerow [PStr "quote"; PStr "author"; PStr "type"] in
  quote <- lift (Py.get data "quote" (PStr "")) ;;
  author <- lift (Py.get data "author" (PStr "")) ;;
  type <- lift (Py.get data "type" (PStr "")) ;;
  let csv_content := (header ++ writerow [quote; author; type])%string in
  email_config <- lift (get_json vars "email_config") ;;
  smtp_host <- lift (Py.get email_config "smtp_host" PNone) ;;
  smtp_port <- lift (Py.get email_config "smtp_port" PNone) ;;
  smtp_user <- lift (Py.get email_config "smtp_user" PNone) ;;
  smtp_password <- lift (Py.get email_config "smtp_password" PNone) ;;
  sender_email <- lift (Py.get email_config "sender_email" PNone) ;;
  receiver_email <- lift (Py.get email_config "receiver_email" PNone) ;;
  to <- lift (join ", " receiver_email) ;;
  let msg :=
    mkMessage [("Subject", PStr "Daily Self-Confidence Quote");
               ("From", sender_email);
               ("To", PStr to)]
              [MIMEText "Please find attached the daily quote.";
               MIMEApplication csv_content "quote.csv"] in
  try_except
    ((if eq_int smtp_port 465
      then SMTP_SSL smtp_host smtp_port
      else (SMTP smtp_host smtp_port ;; starttls)) ;;
     login smtp_user smtp_password ;;
     text <- lift (as_string msg) ;;
     sendmail sender_email receiver_email text ;;
     quit)
    (fun e => fail e).

End Builtins.

End SelfConfidenceEmail.


Module GraphVocabulary.
Import Airflow Graph.

(** What holds of [send_email] in every state of a run whose gate is
    closed: it was never started, and it is skipped as soon as the gate
    has run. *)
Definition gate_inv (rs : run_state) : Prop :=
  (st (rs "send_email") = Pending \/ st (rs "send_email") = Skipped)
  /\ tries (rs "send_email") = 0%nat
  /\ (st (rs "check_send_time") = Succeeded -> st (rs "send_email") = Skipped).

(** The run in which every task before the gate succeeds at once. *)
Definition gated_run : run_state :=
  skip_downstream Crypto.dag "check_send_time"
    (set_state
       (upd
          (set_state
             (upd
                (set_state
                   (upd init "fetch_crypto_prices" (mkInstance Running 1))
                   "fetch_crypto_prices" Succeeded)
                "insert_into_postgres" (mkInstance Running 1))
             "insert_into_postgres" Succeeded)
          "check_send_time" (mkInstance Running 1))
       "check_send_time" Succeeded).

End GraphVocabulary.

Module FetchVocabulary.
Import Requests.

(** The statuses [raise_for_status] refuses. *)
Definition bad_status (st : Z) : bool := (400 <=? st) && (st <? 600).

(** The request failed: no answer, a 4xx or 5xx status, or a body that is
    not JSON. *)
Definition request_error (net : reply) : bool :=
  match net with
  | NoAnswer => true
  | Answer st None => true
  | Answer st (Some _) => bad_status st
  end.

(** A mapping that has the key. *)
Definition has_key (k : string) (v : pyval) : bool :=
  match v with
  | PDict d => match lookup k d with Some _ => true | None => false end
  | _ => false
  end.

(** The body is a mapping that has the coin, and the coin is a mapping
    that has [usd] and [usd_24h_change]. *)
Definition has_coin (name : string) (data : pyval) : bool :=
  match data with
  | PDict d =>
      match lookup name d with
      | Some c => has_key "usd" c && has_key "usd_24h_change" c
      | None => false
      end
  | _ => false
  end.

(** The keys [fetch_crypto_prices] requires of a body. *)
Definition has_prices (data : pyval) : bool :=
  has_coin "bitcoin" data && has_coin "ethereum" data && has_coin "binancecoin" data.

(** A body [len] accepts: a list, a mapping or a string. *)
Definition sized (data : pyval) : bool :=
  match data with
  | PList _ | PDict _ | PStr _ => true
  | _ => false
  end.

Definition is_string (v : pyval) : bool :=
  match v with PStr _ => true | _ => false end.

(** What [", ".join] takes: a list of strings, a string, or a mapping,
    whose keys it joins. *)
Definition joinable (v : pyval) : bool :=
  match v with
  | PList l => forallb is_string l
  | PStr _ | PDict _ => true
  | _ => false
  end.

(** The shape [Quotes.fetch_quote] expects of a body: a mapping whose
    [originator], when there is one, is a mapping, and whose [tags], when
    there are any, can be joined. *)
Definition shaped (data : pyval) : bool :=
  match data with
  | PDict d =>
      match lookup "originator" d with
      | None | Some (PDict _) => true
      | Some _ => false
      end
      && match lookup "tags" d with
         | None => true
         | Some tags => joinable tags
         end
  | _ => false
  end.

(** The record [Quotes.fetch_quote] builds from a body without any of the
    keys it reads. *)
Definition blank_quote : pyval :=
  PDict [("id", PNone); ("content", PNone);
         ("author", PStr "Unknown"); ("tags", PStr "")].

End FetchVocabulary.


Module TransformVocabulary.
Import Healthcare.

Definition is_dict (v : pyval) : bool :=
  match v with PDict _ => true | _ => false end.

(** What [d.get(k)] gives for a dict [d]. *)
Definition field (k : string) (d : list (string * pyval)) : pyval :=
  match lookup k d with Some v => v | None => PNone end.

(** A record the inner [try] block cannot build. *)
Definition malformed (item : pyval) : bool := raises (record_of item).

(** The records of the items that are not malformed, in their order. *)
Fixpoint kept (raw_data : list pyval) : list pyval :=
  match raw_data with
  | [] => []
  | item :: rest =>
      match record_of item with
      | Return record => record :: kept rest
      | Raise _ => kept rest
      end
  end.

(** The flat record of a mapping [d], given its four location fields and
    its two joined lists. *)
Definition flat_record (d : list (string * pyval))
    (country locality lat lon : pyval) (et ol : string) : pyval :=
  PDict [
    ("id", field "id" d);
    ("date_posted", field "date_posted" d);
    ("title", field "title" d);
    ("organization", field "organization" d);
    ("organization_url", field "organization_url" d);
    ("date_validthrough", field "date_validthrough" d);
    ("location_country", country);
    ("location_locality", locality);
    ("latitude", lat);
    ("longitude", lon);
    ("employment_type", PStr et);
    ("url", field "url" d);
    ("linkedin_org_employees", field "linkedin_org_employees" d);
    ("linkedin_org_size", field "linkedin_org_size" d);
    ("linkedin_org_industry", field "linkedin_org_industry" d);
    ("linkedin_org_locations", PStr ol);
    ("seniority", field "seniority" d)].

(** [item.get(k, [])] for a dict [d]. *)
Definition list_field (k : string) (d : list (string * pyval)) : pyval :=
  match lookup k d with Some v => v | None => PList [] end.

End TransformVocabulary.


Module QuotesVocabulary.
Import Sink Quotes.

Definition ids (tbl : list quote_row) : list Z := map q_id tbl.

(** [row["id"]] is None. *)
Definition null_id (row : pyval) : bool :=
  match getitem row "id" with
  | Return PNone => true
  | _ => false
  end.

(** The row the statement of the loop stores for a row of the frame: the
    row has its four columns, its id is not None, and the driver and the
    server take the four values. *)
Definition stored (row : pyval) : option quote_row :=
  match getitem row "id", getitem row "content",
        getitem row "author", getitem row "tags" with
  | Return id, Return content, Return author, Return tags =>
      if is_None id then None
      else match row_of id content author tags with
           | Return q => Some q
           | Raise _ => None
           end
  | _, _, _, _ => None
  end.

(** A row of the frame the loop skips or the sink takes. *)
Definition acceptable (row : pyval) : bool :=
  null_id row || match stored row with Some _ => true | None => false end.

(** A record as [fetch_quote] builds it, with an integer id that fits the
    key column and text in the three other fields. *)
Definition keyed (record : pyval) : bool :=
  match record with
  | PDict [(k1, PInt k); (k2, PStr c); (k3, PStr a); (k4, PStr t)] =>
      String.eqb k1 "id" && String.eqb k2 "content"
      && String.eqb k3 "author" && String.eqb k4 "tags"
      && in_bigint k && no_nul c && no_nul a && no_nul t
  | _ => false
  end.

(** The rows a batch adds to the open transaction. *)
Fixpoint pending (tbl txn : list quote_row) (rows : list pyval) : list quote_row :=
  match rows with
  | [] => txn
  | row :: rest =>
      match stored row with
      | Some q =>
          if has_id (q_id q) (tbl ++ txn) then pending tbl txn rest
          else pending tbl (txn ++ [q]) rest
      | None => pending tbl txn rest
      end
  end.

Definition statements (rows : list pyval) : nat :=
  List.length (filter (fun row => negb (null_id row)) rows).

(** The statements of the [try] block between [cursor] and [commit]. *)
Definition block (df : dataframe) : M db unit :=
  execute create_table_query ;;
  execute alter_table_query ;;
  for_each (Pandas.iterrows df) insert_row.

End QuotesVocabulary.


Module AppendVocabulary.
Import Sink Crypto.

(** The three fields [insert_into_postgres] reads from a record. *)
Definition priced (crypto : pyval) : option (pyval * pyval * pyval) :=
  match getitem crypto "symbol", getitem crypto "price_usd",
        getitem crypto "change_24h" with
  | Return a, Return b, Return c => Some (a, b, c)
  | _, _, _ => None
  end.

Definition complete (items : list pyval) : bool :=
  forallb (fun crypto => match priced crypto with Some _ => true | None => false end)
    items.

(** The rows a batch becomes when it is stored at server time [now]. *)
Fixpoint price_rows (now : Z) (items : list pyval) : list price_row :=
  match items with
  | [] => []
  | crypto :: rest =>
      match priced crypto with
      | Some (a, b, c) => mkPrice a b c now :: price_rows now rest
      | None => price_rows now rest
      end
  end.

(** The inserts of the batch, between [cursor] and [commit]. *)
Definition inserts (crypto_data : pyval) : M db unit :=
  items <- lift (iter crypto_data) ;;
  for_each items insert_crypto.

End AppendVocabulary.


(* ===================================================================== *)
(** ** Sample inputs *)
(* ===================================================================== *)

Module Samples.
Import Airflow Sink.

(** A run of 09:00 and a run of 08:00. *)
Definition nine : datetime := mkDatetime 2025 3 1 9 0 0.
Definition eight : datetime := mkDatetime 2025 3 1 8 0 0.

(** The three records [fetch_crypto_prices] returns, as the insert task
    pulls them. *)
Definition price (symbol : string) (usd change : Q) : pyval :=
  PDict [("symbol", PStr symbol); ("price_usd", PFloat usd); ("change_24h", PFloat change)].

Definition three_prices : list pyval :=
  [price "BTC" (Qmake 5000012 100) (Qmake 123 100);
   price "ETH" (Qmake 300050 100) (Qmake (-45) 100);
   price "BNB" (Qmake 60010 100) (Qmake 7 100)].

Definition prices_kw : kwargs :=
  mkKwargs nine [(("fetch_crypto_prices", "return_value"), PList three_prices)].

(** An empty [crypto_prices] table; the server accepts the connection and
    the first insert and refuses the second. *)
Definition no_prices : Crypto.db := mk _ [] [] Unbound Unbound [] 1 1000 0.
Definition second_insert_refused : Crypto.db :=
  with_faults no_prices [false; false; true].

(** Quote records as [fetch_quote] builds them. *)
Definition quote (id : pyval) (content : string) : pyval :=
  PDict [("id", id); ("content", PStr content);
         ("author", PStr "Unknown"); ("tags", PStr "")].

(** An empty [quotes] table; the server accepts the connection and the
    two schema statements and refuses the insert. *)
Definition no_quotes : Quotes.db := mk _ [] [] Unbound Unbound [] 1 1000 0.
Definition insert_refused : Quotes.db :=
  with_faults no_quotes [false; false; false; true].

(** A self-confidence quote as task 1 pushes it. *)
Definition confidence_ti : XCom.store :=
  [(("fetch_quote", "quote_data"),
    PDict [("quote", PStr "You can"); ("author", PStr "B"); ("type", PStr "selfconfidence")])].
Definition no_confidence : SelfConfidence.db := mk _ [] [] Unbound Unbound [] 1 1000 0.

(** Job listings: one whose first location has no address, one without
    locations, one with an address and no coordinates. *)
Definition job_without_address : pyval :=
  PDict [("id", PInt 2); ("locations_raw", PList [PDict []])].
Definition job_without_locations : pyval :=
  PDict [("id", PInt 3); ("title", PStr "Healthcare Assistant")].
Definition job_without_coordinates : pyval :=
  PDict [("id", PInt 4);
         ("locations_raw",
          PList [PDict [("address",
                         PDict [("addressCountry", PStr "GB");
                                ("addressLocality", PStr "Leeds")])]])].

(** One whose address has a country and no locality. *)
Definition job_without_locality : pyval :=
  PDict [("id", PInt 5);
         ("locations_raw",
          PList [PDict [("address", PDict [("addressCountry", PStr "GB")])]])].

Definition raw_kw (raw_data : pyval) : kwargs :=
  mkKwargs eight [(("fetch_data", "raw_data"), raw_data)].

End Samples.
(* ===================================================================== *)
(** ** Vocabulary of the further properties *)
(* ===================================================================== *)

Module OrderVocabulary.
Import Airflow Graph.

(** A task instance that was started at least once. *)
Definition started (i : instance) : Prop := (0 < tries i)%nat.

(** The state of a task that is or was executing. *)
Definition ran (s : state) : bool :=
  match s with Running | Succeeded | Failed => true | _ => false end.

Definition ids (d : list task) : list string := map task_id d.

(** Every started task has all its upstream tasks succeeded, and only a
    started task is or was executing. *)
Definition ordered (d : list task) (rs : run_state) : Prop :=
  (forall t, In t d -> started (rs (task_id t)) ->
     forall u, In u (upstream t) -> st (rs u) = Succeeded)
  /\ (forall x, ran (st (rs x)) = true -> started (rs x)).

(** A task is started at most once more than it has retries, and a task
    waiting to be started has a start left. *)
Definition bounded (d : list task) (rs : run_state) : Prop :=
  forall t, In t d ->
    (tries (rs (task_id t)) <= S (retries t))%nat
    /\ (st (rs (task_id t)) = Pending -> tries (rs (task_id t)) <= retries t)%nat.

(** The task [u] is a gate of the graph. *)
Definition is_gate (d : list task) (u : string) : Prop :=
  exists g f, In g d /\ task_id g = u /\ op g = ShortCircuitOperator f.

(** Every skipped task has a reason upstream: a task that failed or was
    skipped, or a gate that ran. *)
Definition excused (d : list task) (rs : run_state) : Prop :=
  forall t, In t d -> st (rs (task_id t)) = Skipped ->
    exists u, In u (upstream t)
      /\ (ended_without_result (st (rs u)) = true
          \/ (st (rs u) = Succeeded /\ is_gate d u)).

(** The run of the crypto graph in which every task succeeds at its
    first start. *)
Definition mailed_run : run_state :=
  set_state
    (upd
       (set_state
          (upd
             (set_state
                (upd
                   (set_state
                      (upd init "fetch_crypto_prices" (mkInstance Running 1))
                      "fetch_crypto_prices" Succeeded)
                   "insert_into_postgres" (mkInstance Running 1))
                "insert_into_postgres" Succeeded)
             "check_send_time" (mkInstance Running 1))
          "check_send_time" Succeeded)
       "send_email" (mkInstance Running 1))
    "send_email" Succeeded.

End OrderVocabulary.

Module HealthcareVocabulary.
Import Healthcare.

(** The columns of [healthcare_joblist], in the order of the INSERT. *)
Definition columns : list string :=
  ["id"; "date_posted"; "title"; "organization"; "organization_url";
   "date_validthrough"; "location_country"; "location_locality";
   "latitude"; "longitude"; "employment_type"; "url";
   "linkedin_org_employees"; "linkedin_org_size"; "linkedin_org_industry";
   "linkedin_org_locations"; "seniority"].

(** A tuple of the width of the INSERT statement. *)
Definition fits (x : job_row) : bool := Nat.eqb (List.length x) 17.

(** The tuples [load_to_postgres] reads for a run. *)
Definition read_tuples_of (kw : Airflow.kwargs) : outcome (list job_row) :=
  read_tuples (XCom.pull (Airflow.ti kw) "transform_data" "transformed_data").

End HealthcareVocabulary.

Module SelfConfidenceVocabulary.
Import Sink SelfConfidence.

(** The statements of [load_to_postgres] between [cursor] and [commit]. *)
Definition statements (data : pyval) : M db unit :=
  execute create_table ;;
  quote <- lift (getitem data "quote") ;;
  author <- lift (getitem data "author") ;;
  type <- lift (getitem data "type") ;;
  execute (insert_query quote author type).

End SelfConfidenceVocabulary.

Module PipelineVocabulary.
Import Requests Airflow TransformVocabulary.

(** The record [Quotes.fetch_quote] builds from an object [d]. *)
Definition quote_of (d : list (string * pyval)) (author : pyval) (tags : string) : pyval :=
  PDict [("id", if truthy (field "id" d) then field "id" d else field "quoteId" d);
         ("content", field "content" d);
         ("author", author);
         ("tags", PStr tags)].

(** [data.get("originator", {})] for an object [d]. *)
Definition originator (d : list (string * pyval)) : pyval :=
  match lookup "originator" d with Some v => v | None => PDict [] end.

(** The three tasks of the healthcare DAG, each run once with the store
    the previous one left. *)
Definition healthcare_run (net : reply) (date : datetime)
    (x : XCom.store) (s : Healthcare.db) : outcome unit * Healthcare.db :=
  let x1 := snd (Healthcare.fetch_data net x) in
  let x2 := snd (Healthcare.transform_data (mkKwargs date x1) x1) in
  Healthcare.load_to_postgres (mkKwargs date x2) (Sink.new_frame s).


End PipelineVocabulary.

Module MailVocabulary.
Import Smtplib.

Inductive kind : Type :=
| KConnect (ssl : bool) | KStarttls | KLogin | KSendmail | KQuit.

Definition kind_of (c : call) : kind :=
  match c with
  | Connect ssl _ _ => KConnect ssl
  | Starttls => KStarttls
  | Login _ _ => KLogin
  | Sendmail _ _ _ => KSendmail
  | Quit => KQuit
  end.

(** The calls of a complete session, over TLS from the start or
    upgraded. *)
Definition session (ssl : bool) : list kind :=
  if ssl then [KConnect true; KLogin; KSendmail; KQuit]
  else [KConnect false; KStarttls; KLogin; KSendmail; KQuit].

Definition is_prefix (p l : list kind) : Prop := exists n, p = firstn n l.

Definition wrapped (e : error) : bool :=
  match e with Failed _ => true | _ => false end.

(** A call that met this entry of the plan went through. *)
Definition went (f : option error) : bool :=
  match f with None => true | Some _ => false end.

(** The calls of a session up to [login], after which the message is
    rendered. *)
Definition logged_in (ssl : bool) : list kind :=
  if ssl then [KConnect true; KLogin]
  else [KConnect false; KStarttls; KLogin].

(** What a mail function did between two states [s] and [s'] of the
    client, [r] being its result and [wrap] what it makes of an error
    that it caught in the session.

    The calls [p] it added are the beginning of a session, the whole of
    it when the function returned; the server accepted nothing or the
    one message [env], and it accepted it when the function returned;
    when it accepted the message and the function raised, the last call
    was [quit].

    Every call took one entry of the plan.  All calls before the last
    one went through, so no call follows one that raised; when the last
    call raised [e], the function raised [wrap e]; when the function
    returned, every call had gone through.  When every call went through
    and the function raised all the same, either the client was not
    called at all, or the calls stop after [login] and it was the
    rendering of the message that failed. *)
Definition protocol (ssl : bool) (wrap : error -> error) (env : envelope)
    (r : result unit) (s s' : Smtplib.t) (p : list call) : Prop :=
  calls s' = calls s ++ p
  /\ is_prefix (map kind_of p) (session ssl)
  /\ (r = Done tt -> map kind_of p = session ssl)
  /\ (outbox s' = outbox s \/ outbox s' = outbox s ++ [env])
  /\ (r = Done tt -> outbox s' = outbox s ++ [env])
  /\ (outbox s' = outbox s ++ [env] -> r <> Done tt ->
      exists q, p = q ++ [Quit])
  /\ faults s' = skipn (List.length p) (faults s)
  /\ forallb went (firstn (List.length p - 1) (faults s)) = true
  /\ (forall e, p <> [] ->
        nth_error (faults s) (List.length p - 1) = Some (Some e) ->
        r = Fail (wrap e))
  /\ (r = Done tt -> forallb went (firstn (List.length p) (faults s)) = true)
  /\ (forallb went (firstn (List.length p) (faults s)) = true -> r <> Done tt ->
      p = []
      \/ (map kind_of p = logged_in ssl /\ exists b, r = Fail (wrap (Builtin b)))).

(** The outcome of [send_email] of crypto_prices.py: a failure before
    the session is a builtin error that leaves the client alone, a
    failure in the session is wrapped. *)
Definition send_email_post (env : envelope) (s : Smtplib.t)
    (rs : result unit * Smtplib.t) : Prop :=
  exists p,
    protocol false Failed env (fst rs) s (snd rs) p
    /\ (forall e, fst rs = Fail e ->
          if wrapped e then p <> []
          else p = [] /\ snd rs = s /\ exists b, e = Builtin b).

(** The outcome of [generate_csv_and_send_email]: its handler raises
    what it caught; a failure before the session is a builtin error that
    leaves the client alone. *)
Definition generate_post (ssl : bool) (env : envelope) (s : Smtplib.t)
    (rs : result unit * Smtplib.t) : Prop :=
  exists p,
    protocol ssl (fun e => e) env (fst rs) s (snd rs) p
    /\ (p = [] -> snd rs = s /\ exists b, fst rs = Fail (Builtin b)).

(** The port configured for self_confidence.py is 465. *)
Definition port_465 (json_loads : string -> outcome pyval)
    (vars : Variables.store) : bool :=
  match SelfConfidenceEmail.get_json json_loads vars "email_config" with
  | Return email_config =>
      match Py.get email_config "smtp_port" PNone with
      | Return smtp_port => SelfConfidenceEmail.eq_int smtp_port 465
      | Raise _ => false
      end
  | Raise _ => false
  end.

Definition no_envelope : envelope := mkEnvelope PNone PNone "".

End MailVocabulary.

Module FurtherSamples.
Import Smtplib.

(** Stand-ins for the renderings the files leave to the interpreter and
    to libraries. *)
Definition str (v : pyval) : string :=
  match v with PStr s => s | _ => "" end.
Definition fixed2 (q : Q) : string := "0.00".
Definition int_of_string (s : string) : outcome Z := Return 587.
Definition as_string (m : message) : outcome string := Return "message".
Definition writerow (row : list pyval) : string := "row".
Definition json_loads (s : string) : outcome pyval :=
  Return (PDict [("smtp_host", PStr "mail.example.org");
                 ("smtp_port", PInt 465);
                 ("smtp_user", PStr "reports");
                 ("smtp_password", PStr "secret");
                 ("sender_email", PStr "reports@example.org");
                 ("receiver_email", PList [PStr "a@example.org"])]).

(** The Variables of crypto_prices.py and of self_confidence.py. *)
Definition settings : Variables.store :=
  [("smtp_host", "mail.example.org"); ("smtp_port", "587");
   ("smtp_username", "reports"); ("smtp_password", "secret");
   ("sender_email", "reports@example.org");
   ("receiver_emails", "a@example.org,b@example.org")].
Definition config : Variables.store :=
  [("email_config", "the settings as a JSON object")].

(** A server that accepts the message and has gone when [quit] is
    called, in an upgraded session and in one over TLS. *)
Definition gone_at_quit : Smtplib.t :=
  mk [] [] [None; None; None; None; Some OSError].
Definition gone_at_quit_ssl : Smtplib.t :=
  mk [] [] [None; None; None; Some OSError].

(** A server that answers the connection and refuses the next call:
    [starttls] in an upgraded session, [login] in one over TLS. *)
Definition refused_second : Smtplib.t := mk [] [] [None; Some OSError].


End FurtherSamples.


Module SinkFacts.
Import Sink.

Section Stable.

Variable R : Type.

Lemma stable_refl (s : Sink.t R) : stable s s.
Proof. repeat split. Qed.

Lemma stable_trans (s1 s2 s3 : Sink.t R) :
  stable s1 s2 -> stable s2 s3 -> stable s1 s3.
Proof.
  intros (a & b & c) (a' & b' & c'). repeat split; congruence.
Qed.

Lemma next_fault_stable (s : Sink.t R) : stable s (snd (next_fault s)).
Proof.
  unfold next_fault. destruct (faults s); simpl; repeat split.
Qed.

Lemma keeps_ret {A} (a : A) : keeps (R := R) (ret a).
Proof. intros s. apply stable_refl. Qed.

Lemma keeps_lift {A} (o : outcome A) : keeps (R := R) (lift o).
Proof. intros s. apply stable_refl. Qed.

Lemma keeps_throw {A} e : keeps (R := R) (@throw _ A e).
Proof. intros s. apply stable_refl. Qed.

Lemma keeps_bind {A B} (m : M (Sink.t R) A) (k : A -> M (Sink.t R) B) :
  keeps m -> (forall a, keeps (k a)) -> keeps (bind m k).
Proof.
  intros Hm Hk s. unfold bind. specialize (Hm s).
  destruct (m s) as [[a | e] s1]; simpl in *; auto.
  eapply stable_trans; [exact Hm | apply Hk].
Qed.

Lemma keeps_execute (stmt : Sink.t R -> outcome (Sink.t R)) :
  mild stmt -> keeps (execute stmt).
Proof.
  intros Hs s. unfold execute.
  destruct (cursor s) eqn:Ec; simpl; try apply stable_refl.
  pose proof (next_fault_stable (with_sent s (S (sent s)))) as Hn.
  destruct (next_fault (with_sent s (S (sent s)))) as [b s1]; simpl in Hn.
  assert (H0 : stable s s1).
  { destruct Hn as (a & b' & c). repeat split; simpl in *; congruence. }
  destruct b; simpl; auto.
  destruct (stmt s1) as [s2 | e] eqn:E; simpl; auto.
  eapply stable_trans; [exact H0 | apply Hs; exact E].
Qed.

Lemma keeps_for_each {A} (l : list A) (body : A -> M (Sink.t R) unit) :
  (forall x, keeps (body x)) -> keeps (for_each l body).
Proof.
  intros Hb. induction l as [| x l IH]; simpl.
  - apply keeps_ret.
  - apply keeps_bind; auto.
Qed.

Lemma bind_assoc {S A B C} (m : M S A) (f : A -> M S B) (g : B -> M S C) s :
  bind (bind m f) g s = bind m (fun a => bind (f a) g) s.
Proof.
  unfold bind. destruct (m s) as [[a | e] s1]; reflexivity.
Qed.

(** A block that ends in [commit]: the table changes only when the block
    and the commit both succeed. *)
Lemma commit_last (m : M (Sink.t R) unit) s :
  keeps m ->
  let r := bind m (fun _ => commit) s in
  conn (snd r) = conn s /\ cursor (snd r) = cursor s
  /\ (raises (fst r) = true -> table (snd r) = table s)
  /\ (raises (fst r) = false ->
        table (snd r) = table s ++ txn (snd (m s)) /\ fst (m s) = Return tt).
Proof.
  intros Hm. unfold bind. specialize (Hm s).
  destruct (m s) as [[[] | e] s1]; simpl in *; destruct Hm as (Ht & Hc & Hu).
  - unfold commit. destruct (conn s1) eqn:E1; simpl;
      try (repeat split; try congruence; discriminate).
    pose proof (next_fault_stable s1) as Hn.
    destruct (next_fault s1) as [b s2] eqn:E2; simpl in Hn.
    destruct Hn as (Ht2 & Hc2 & Hu2).
    destruct b; simpl.
    + repeat split; try congruence; discriminate.
    + split; [congruence |]. split; [congruence |]. split; [discriminate |]. intros _.
      split; [| reflexivity]. simpl. rewrite Ht2, Ht. f_equal.
      unfold next_fault in E2.
      destruct (faults s1); [injection E2 as <- | injection E2 as _ <-]; reflexivity.
  - repeat split; try congruence; discriminate.
Qed.

(** A block between [connect], [cursor] and a final [commit], run by a
    fresh invocation: either the connection could not be opened and both
    variables are still unassigned, or both are open; a raise leaves the
    table as it was. *)
Lemma connected_block (m : M (Sink.t R) unit) s :
  keeps m ->
  let r := bind connect (fun _ => bind get_cursor (fun _ => bind m (fun _ => commit)))
             (new_frame s) in
  (fst (next_fault (new_frame s)) = true
   /\ raises (fst r) = true /\ conn (snd r) = Unbound /\ cursor (snd r) = Unbound
   /\ table (snd r) = table s)
  \/ (fst (next_fault (new_frame s)) = false
      /\ conn (snd r) = Open /\ cursor (snd r) = Open
      /\ (raises (fst r) = true -> table (snd r) = table s)
      /\ (raises (fst r) = false ->
          fst r = Return tt /\ exists x, table (snd r) = table s ++ x)).
Proof.
  intros Hm. cbv zeta.
  set (rest := bind get_cursor (fun _ => bind m (fun _ => commit))).
  unfold bind. unfold connect.
  pose proof (next_fault_stable (new_frame s)) as Hn.
  destruct (next_fault (new_frame s)) as [b s1]; simpl in Hn.
  destruct Hn as (Ht & Hc & Hu). destruct b; simpl fst.
  - left. simpl. auto.
  - right. split; [reflexivity |].
    subst rest. unfold bind at 1 3 5 7 9 11 13. unfold get_cursor. simpl conn. cbv iota.
    pose proof (commit_last m (with_cursor (with_txn (with_conn s1 Open) []) Open) Hm) as Hcl.
    cbv zeta in Hcl. simpl conn in Hcl. simpl cursor in Hcl. simpl table in Hcl.
    destruct (bind m (fun _ => commit)
                (with_cursor (with_txn (with_conn s1 Open) []) Open)) as [o s3].
    cbn [fst snd] in *. destruct Hcl as (Hc3 & Hu3 & Hr3 & Hk3).
    split; [exact Hc3 |]. split; [exact Hu3 |]. split.
    + intros Hr. rewrite (Hr3 Hr). exact Ht.
    + intros Hr. destruct (Hk3 Hr) as [H _]. split.
      * destruct o as [[] |]; [reflexivity | discriminate].
      * rewrite H, Ht. eauto.
Qed.

Lemma quiet_ret {A} (a : A) : quiet (R := R) (ret a).
Proof. intros s a' s' E. injection E as _ <-. exists 0%nat. reflexivity. Qed.

Lemma quiet_lift {A} (o : outcome A) : quiet (R := R) (lift o).
Proof. intros s a' s' E. injection E as _ <-. exists 0%nat. reflexivity. Qed.

Lemma quiet_throw {A} e : quiet (R := R) (@throw _ A e).
Proof. intros s a' s' E. discriminate. Qed.

Lemma quiet_bind {A B} (m : M (Sink.t R) A) (k : A -> M (Sink.t R) B) :
  quiet m -> (forall a, quiet (k a)) -> quiet (bind m k).
Proof.
  intros Hm Hk s b s' E. unfold bind in E.
  destruct (m s) as [[a | e] s1] eqn:E1; try discriminate.
  destruct (Hm s a s1 E1) as [n Hn]. destruct (Hk a s1 b s' E) as [n' Hn'].
  exists (n + n')%nat. rewrite Hn, Hn', repeat_app, app_assoc. reflexivity.
Qed.

Lemma quiet_for_each {A} (l : list A) (body : A -> M (Sink.t R) unit) :
  (forall x, quiet (body x)) -> quiet (for_each l body).
Proof.
  intros Hb. induction l as [| x l IH]; simpl.
  - apply quiet_ret.
  - apply quiet_bind; auto.
Qed.

Lemma next_fault_quiet (s s1 : Sink.t R) :
  next_fault s = (false, s1) -> exists n, faults s = repeat false n ++ faults s1.
Proof.
  unfold next_fault. destruct (faults s) as [| b f] eqn:E; intros H.
  - injection H as <-. exists 0%nat. rewrite E. reflexivity.
  - injection H as -> <-. exists 1%nat. reflexivity.
Qed.

Lemma quiet_connect : quiet (@connect R).
Proof.
  intros s a s' E. unfold connect in E.
  destruct (next_fault s) as [[] s1] eqn:E1; try discriminate.
  injection E as _ <-. simpl. apply next_fault_quiet. exact E1.
Qed.

Lemma quiet_get_cursor : quiet (@get_cursor R).
Proof.
  intros s a s' E. unfold get_cursor in E.
  destruct (conn s); try discriminate. injection E as _ <-. exists 0%nat. reflexivity.
Qed.

Lemma quiet_execute (stmt : Sink.t R -> outcome (Sink.t R)) :
  plain stmt -> quiet (execute stmt).
Proof.
  intros Hp s a s' E. unfold execute in E.
  destruct (cursor s); try discriminate.
  destruct (next_fault (with_sent s (S (sent s)))) as [[] s1] eqn:E1; try discriminate.
  destruct (stmt s1) as [s2 |] eqn:E2; try discriminate.
  injection E as _ <-. rewrite (Hp _ _ E2).
  apply next_fault_quiet in E1. exact E1.
Qed.

Lemma quiet_commit : quiet (@commit R).
Proof.
  intros s a s' E. unfold commit in E.
  destruct (conn s); try discriminate.
  destruct (next_fault s) as [[] s1] eqn:E1; try discriminate.
  injection E as _ <-. simpl. apply next_fault_quiet. exact E1.
Qed.

Lemma quiet_cursor_close : quiet (@cursor_close R).
Proof.
  intros s a s' E. unfold cursor_close in E.
  destruct (cursor s); try discriminate; injection E as _ <-; exists 0%nat; reflexivity.
Qed.

Lemma quiet_close : quiet (@close R).
Proof.
  intros s a s' E. unfold close in E.
  destruct (conn s); try discriminate; injection E as _ <-; exists 0%nat; reflexivity.
Qed.

Lemma quiet_rethrow {A} (body : M (Sink.t R) A) cls (handler : exn -> M (Sink.t R) A) :
  (forall e s, raises (fst (handler e s)) = true) ->
  quiet body -> quiet (try_except body cls handler).
Proof.
  intros Hh Hb s a s' E. unfold try_except in E.
  destruct (body s) as [[a0 | e] s1] eqn:E1.
  - injection E as <- <-. eapply Hb; eauto.
  - destruct (cls e); try discriminate.
    specialize (Hh e s1). rewrite E in Hh. discriminate.
Qed.

Lemma quiet_try_finally {A} (body : M (Sink.t R) A) (fin : M (Sink.t R) unit) :
  quiet body -> quiet fin -> quiet (try_finally body fin).
Proof.
  intros Hb Hf s a s' E. unfold try_finally in E.
  destruct (body s) as [r s1] eqn:E1.
  destruct (fin s1) as [[[] | e] s2] eqn:E2; try discriminate.
  injection E as -> <-.
  destruct (Hb s a s1 E1) as [n Hn]. destruct (Hf s1 tt s2 E2) as [n' Hn'].
  exists (n + n')%nat. rewrite Hn, Hn', repeat_app, app_assoc. reflexivity.
Qed.

End Stable.

End SinkFacts.


Module GraphFacts.
Import Airflow Graph GraphVocabulary.

Ltac dag_cases H :=
  repeat (destruct H as [H | H]; [subst | ]); try contradiction.

Lemma gate_inv_step kw rs rs' :
  hour (logical_date kw) <> 8 ->
  gate_inv rs -> step Crypto.dag kw rs rs' -> gate_inv rs'.
Proof.
  intros Hh (Hs & Ht & Hg) Hstep.
  inversion Hstep as [t ? Hin Hp Hup | t ? Hin Hop Hr | t f w ? Hin Hop Hr Hf
                     | t f w ? Hin Hop Hr Hf | t ? Hin Hr Hle | t ? Hin Hr Hlt
                     | t u ? Hin Hp Hu He]; subst; clear Hstep.
  - simpl in Hin. dag_cases Hin; unfold gate_inv, upd; simpl in *;
      try (repeat split; auto; intros; try discriminate; auto; fail).
    specialize (Hup "check_send_time" (or_introl eq_refl)).
    apply Hg in Hup. rewrite Hup in Hp. discriminate.
  - simpl in Hin. dag_cases Hin; unfold gate_inv, set_state, upd; simpl in *;
      try discriminate;
      try (repeat split; auto; intros; try discriminate; auto; fail).
    destruct Hs as [Hs | Hs]; rewrite Hs in Hr; discriminate.
  - simpl in Hin. dag_cases Hin; simpl in Hop; try discriminate.
    injection Hop as <-. unfold Crypto.check_send_time in Hf. simpl in Hf.
    injection Hf as Hf. apply Z.eqb_eq in Hf. contradiction.
  - simpl in Hin. dag_cases Hin; simpl in Hop; try discriminate.
    unfold gate_inv, skip_downstream, set_state, upd; simpl.
    repeat split; auto.
  - simpl in Hin. dag_cases Hin; unfold gate_inv, set_state, upd; simpl in *;
      try (repeat split; auto; intros; try discriminate; auto; fail).
    destruct Hs as [Hs | Hs]; rewrite Hs in Hr; discriminate.
  - simpl in Hin. dag_cases Hin; unfold gate_inv, set_state, upd; simpl in *;
      try (repeat split; auto; intros; try discriminate; auto; fail).
    destruct Hs as [Hs | Hs]; rewrite Hs in Hr; discriminate.
  - simpl in Hin. dag_cases Hin; unfold gate_inv, set_state, upd; simpl in *;
      try (repeat split; auto; intros; try discriminate; auto; fail).
Qed.

Lemma gate_inv_reachable kw rs :
  hour (logical_date kw) <> 8 ->
  reachable Crypto.dag kw rs -> gate_inv rs.
Proof.
  intros Hh Hr. induction Hr as [| rs rs' _ IH Hstep].
  - unfold gate_inv, init; simpl. repeat split; auto. discriminate.
  - eapply gate_inv_step; eauto.
Qed.

Lemma gated_run_reachable kw :
  hour (logical_date kw) <> 8 -> reachable Crypto.dag kw gated_run.
Proof.
  intros Hh. unfold gated_run.
  eapply reach_step.
  2: { eapply (step_gate_closed _ _ Crypto.check_time_task Crypto.check_send_time (mkWorker (logical_date kw))).
       - simpl; auto.
       - reflexivity.
       - reflexivity.
       - unfold Crypto.check_send_time. f_equal. apply Z.eqb_neq. exact Hh. }
  eapply reach_step.
  2: { apply (step_start _ _ Crypto.check_time_task); simpl; auto.
       intros u [<- | [<- | []]]; reflexivity. }
  eapply reach_step.
  2: { apply (step_success _ _ Crypto.insert_task); simpl; auto. }
  eapply reach_step.
  2: { apply (step_start _ _ Crypto.insert_task); simpl; auto.
       intros u [<- | []]; reflexivity. }
  eapply reach_step.
  2: { apply (step_success _ _ Crypto.fetch_task); simpl; auto. }
  eapply reach_step.
  2: { apply (step_start _ _ Crypto.fetch_task); simpl; auto.
       intros u []. }
  apply reach_init.
Qed.

End GraphFacts.
Module FetchFacts.
Import Requests FetchVocabulary.

(** The prefix every fetch shares: the request, the status check, the
    parse. *)
Lemma request_error_spec net :
  request_error net = true ->
  exists e, is_RequestException e = true /\
    (let? response := Requests.get net in
     let? _ := raise_for_status response in
     json response) = Raise e.
Proof.
  destruct net as [| st [data |]]; simpl.
  - intros _. exists ConnectionError. auto.
  - unfold raise_for_status, bad_status. simpl. intros ->. exists HTTPError. auto.
  - intros _. unfold raise_for_status. simpl.
    destruct ((400 <=? st) && (st <? 600)); [exists HTTPError | exists JSONDecodeError]; auto.
Qed.

Lemma request_ok_spec st data :
  bad_status st = false ->
  (let? response := Requests.get (Answer st (Some data)) in
   let? _ := raise_for_status response in
   json response) = Return data.
Proof.
  unfold bad_status. simpl. unfold raise_for_status. simpl. intros ->. reflexivity.
Qed.

Lemma getitem_error v k e : getitem v k = Raise e -> is_RequestException e = false.
Proof.
  unfold getitem. destruct v; try (intros H; injection H as <-; reflexivity).
  destruct (lookup k d); intros H; [discriminate | injection H as <-; reflexivity].
Qed.

Lemma coin_error data symbol name e :
  Crypto.coin data symbol name = Raise e -> is_RequestException e = false.
Proof.
  unfold Crypto.coin.
  destruct (getitem data name) as [c |] eqn:E1; simpl; [| intros H; injection H as <-; eauto using getitem_error].
  destruct (getitem c "usd") as [u |] eqn:E2; simpl; [| intros H; injection H as <-; eauto using getitem_error].
  destruct (getitem c "usd_24h_change") as [g |] eqn:E3; simpl; [discriminate |].
  intros H; injection H as <-; eauto using getitem_error.
Qed.

Lemma crypto_fetch_request_error net :
  request_error net = true ->
  Crypto.fetch_crypto_prices net =
    Raise (ValueError "Error fetching data from CoinGecko API").
Proof.
  intros H. unfold Crypto.fetch_crypto_prices.
  destruct net as [| st [data |]]; simpl in *; auto.
  - unfold raise_for_status, bad_status in *. simpl. rewrite H. reflexivity.
  - unfold raise_for_status. simpl. destruct ((400 <=? st) && (st <? 600)); reflexivity.
Qed.

Lemma crypto_fetch_ok st data :
  bad_status st = false ->
  Crypto.fetch_crypto_prices (Answer st (Some data)) =
    (let? btc := Crypto.coin data "BTC" "bitcoin" in
     let? eth := Crypto.coin data "ETH" "ethereum" in
     let? bnb := Crypto.coin data "BNB" "binancecoin" in
     Return (PList [btc; eth; bnb])).
Proof.
  intros H. unfold Crypto.fetch_crypto_prices, bad_status in *.
  simpl. unfold raise_for_status. simpl. rewrite H. simpl.
  destruct (Crypto.coin data "BTC" "bitcoin") as [b | e] eqn:E1; simpl;
    [| rewrite (coin_error _ _ _ _ E1); reflexivity].
  destruct (Crypto.coin data "ETH" "ethereum") as [t | e] eqn:E2; simpl;
    [| rewrite (coin_error _ _ _ _ E2); reflexivity].
  destruct (Crypto.coin data "BNB" "binancecoin") as [n | e] eqn:E3; simpl;
    [| rewrite (coin_error _ _ _ _ E3); reflexivity].
  reflexivity.
Qed.

(** A coin can be read exactly when the body has its two keys. *)
Lemma coin_returns data symbol name :
  raises (Crypto.coin data symbol name) = negb (has_coin name data).
Proof.
  unfold Crypto.coin, has_coin, has_key.
  destruct data as [| | | | | | d |]; try reflexivity.
  cbn [getitem]. destruct (lookup name d) as [c |]; [| reflexivity].
  cbn [obind]. destruct c as [| | | | | | c |]; try reflexivity.
  cbn [getitem]. destruct (lookup "usd" c); [| reflexivity].
  cbn [obind]. destruct (lookup "usd_24h_change" c); reflexivity.
Qed.

Lemma coin_present data symbol name :
  has_coin name data = true -> exists record, Crypto.coin data symbol name = Return record.
Proof.
  intros H. pose proof (coin_returns data symbol name) as E. rewrite H in E.
  destruct (Crypto.coin data symbol name) as [record |]; [eauto | discriminate].
Qed.

Lemma coin_absent data symbol name record :
  Crypto.coin data symbol name = Return record -> has_coin name data = true.
Proof.
  intros H. pose proof (coin_returns data symbol name) as E. rewrite H in E.
  destruct (has_coin name data); [reflexivity | discriminate].
Qed.

(** [fetch_crypto_prices] returns exactly when the request went through
    and the body has all the prices, and then with three records. *)
Lemma crypto_fetch_returns net v :
  Crypto.fetch_crypto_prices net = Return v ->
  request_error net = false
  /\ (exists st data, net = Answer st (Some data) /\ has_prices data = true)
  /\ (exists btc eth bnb, v = PList [btc; eth; bnb]).
Proof.
  intros H. destruct (request_error net) eqn:Er.
  - rewrite (crypto_fetch_request_error net Er) in H. discriminate.
  - split; [reflexivity |].
    destruct net as [| st [data |]]; try discriminate. simpl in Er.
    rewrite (crypto_fetch_ok st data Er) in H.
    destruct (Crypto.coin data "BTC" "bitcoin") as [b |] eqn:E1; try discriminate.
    destruct (Crypto.coin data "ETH" "ethereum") as [t |] eqn:E2; try discriminate.
    destruct (Crypto.coin data "BNB" "binancecoin") as [n |] eqn:E3; try discriminate.
    simpl in H. injection H as <-. split; [| eauto].
    exists st, data. split; [reflexivity |].
    unfold has_prices.
    rewrite (coin_absent _ _ _ _ E1), (coin_absent _ _ _ _ E2), (coin_absent _ _ _ _ E3).
    reflexivity.
Qed.

Lemma crypto_fetch_missing_key st data :
  has_prices data = false ->
  raises (Crypto.fetch_crypto_prices (Answer st (Some data))) = true.
Proof.
  intros H. destruct (Crypto.fetch_crypto_prices (Answer st (Some data))) as [v |] eqn:E;
    [| reflexivity].
  destruct (crypto_fetch_returns _ _ E) as (_ & (st' & data' & Hn & Hp) & _).
  injection Hn as _ <-. congruence.
Qed.

(** With the request through and the keys there, the batch is returned. *)
Lemma crypto_fetch_batch st data :
  bad_status st = false -> has_prices data = true ->
  exists btc eth bnb,
    Crypto.coin data "BTC" "bitcoin" = Return btc
    /\ Crypto.coin data "ETH" "ethereum" = Return eth
    /\ Crypto.coin data "BNB" "binancecoin" = Return bnb
    /\ Crypto.fetch_crypto_prices (Answer st (Some data)) = Return (PList [btc; eth; bnb]).
Proof.
  intros Hs Hp. unfold has_prices in Hp.
  apply andb_true_iff in Hp. destruct Hp as [Hp H3].
  apply andb_true_iff in Hp. destruct Hp as [H1 H2].
  destruct (coin_present data "BTC" _ H1) as [btc E1].
  destruct (coin_present data "ETH" _ H2) as [eth E2].
  destruct (coin_present data "BNB" _ H3) as [bnb E3].
  exists btc, eth, bnb. rewrite (crypto_fetch_ok st data Hs), E1, E2, E3. auto.
Qed.

Lemma quotes_fetch_request_error net :
  request_error net = true -> Quotes.fetch_quote net = Return PNone.
Proof.
  intros H. unfold Quotes.fetch_quote.
  destruct net as [| st [data |]]; simpl in *; auto.
  - unfold raise_for_status, bad_status in *. simpl. rewrite H. reflexivity.
  - unfold raise_for_status. simpl. destruct ((400 <=? st) && (st <? 600)); reflexivity.
Qed.

Lemma quotes_fetch_missing_keys st d :
  bad_status st = false ->
  lookup "id" d = None -> lookup "quoteId" d = None -> lookup "content" d = None ->
  lookup "originator" d = None -> lookup "tags" d = None ->
  Quotes.fetch_quote (Answer st (Some (PDict d))) = Return blank_quote.
Proof.
  intros H H1 H2 H3 H4 H5. unfold Quotes.fetch_quote, bad_status in *.
  simpl. unfold raise_for_status. simpl. rewrite H. simpl.
  rewrite H1, H2, H3, H4, H5. reflexivity.
Qed.

Lemma healthcare_fetch_request_error net x :
  request_error net = true ->
  raises (fst (Healthcare.fetch_data net x)) = true
  /\ snd (Healthcare.fetch_data net x) = x.
Proof.
  intros H. unfold Healthcare.fetch_data, try_except, bind, lift, throw.
  destruct net as [| st [data |]]; simpl in *; auto.
  - unfold raise_for_status, bad_status in *. simpl. rewrite H. simpl. auto.
  - unfold raise_for_status. simpl. destruct ((400 <=? st) && (st <? 600)); simpl; auto.
Qed.

(** [Healthcare.fetch_data] returns exactly when the request went through
    and the body has a length. *)
Lemma healthcare_fetch_returns net x :
  raises (fst (Healthcare.fetch_data net x)) = false ->
  exists st data, net = Answer st (Some data) /\ bad_status st = false
                  /\ sized data = true.
Proof.
  destruct (request_error net) eqn:Er.
  - intros H. rewrite (proj1 (healthcare_fetch_request_error net x Er)) in H.
    discriminate.
  - destruct net as [| st [data |]]; try discriminate. simpl in Er.
    intros H. exists st, data. split; [reflexivity |]. split; [exact Er |].
    unfold Healthcare.fetch_data, try_except, bind, lift, throw in H.
    unfold bad_status in Er. simpl in H. unfold raise_for_status in H. simpl in H.
    rewrite Er in H. simpl in H.
    destruct data; simpl in H; try discriminate; reflexivity.
Qed.

End FetchFacts.
Module TransformFacts.
Import Airflow Healthcare TransformVocabulary.

Lemma flatten_dicts raw : forall acc,
  forallb is_dict raw = true -> flatten raw acc = Return (acc ++ kept raw).
Proof.
  induction raw as [| item raw IH]; intros acc H; simpl.
  - rewrite app_nil_r. reflexivity.
  - simpl in H. apply andb_true_iff in H. destruct H as [Hd H].
    destruct (record_of item) as [record | e].
    + rewrite IH by exact H. rewrite <- app_assoc. reflexivity.
    + destruct item; try discriminate. simpl. apply IH. exact H.
Qed.

Lemma kept_nil_iff raw :
  kept raw = [] <-> forallb malformed raw = true.
Proof.
  unfold malformed. induction raw as [| item raw IH]; simpl.
  - tauto.
  - destruct (record_of item); simpl.
    + split; discriminate.
    + exact IH.
Qed.

Lemma kept_In raw record :
  In record (kept raw) <-> exists item, In item raw /\ record_of item = Return record.
Proof.
  induction raw as [| item raw IH]; simpl.
  - split; [contradiction | intros (? & [] & _)].
  - destruct (record_of item) as [r | e] eqn:E; simpl; rewrite ?IH; split.
    + intros [<- | (i & Hin & Hr)]; eauto.
    + intros (i & [<- | Hin] & Hr); [left; congruence | eauto].
    + intros (i & Hin & Hr); eauto.
    + intros (i & [<- | Hin] & Hr); [congruence | eauto].
Qed.

(** What [transform_data] does with a list of mappings. *)
Lemma transform_data_dicts kw x raw :
  XCom.pull (ti kw) "fetch_data" "raw_data" = PList raw ->
  forallb is_dict raw = true ->
  transform_data kw x =
    match raw, kept raw with
    | [], _ => (Raise empty_input, x)
    | _ :: _, [] => (Raise no_valid_records, x)
    | _ :: _, _ :: _ =>
        (Return tt, (("transform_data", "transformed_data"), PList (kept raw)) :: x)
    end.
Proof.
  intros Hx Hd. unfold transform_data, try_except. rewrite Hx.
  destruct raw as [| item rest]; [reflexivity |].
  unfold bind, lift. rewrite (flatten_dicts _ [] Hd). simpl app.
  destruct (kept (item :: rest)); reflexivity.
Qed.

Lemma first_location_absent d f :
  truthy (field "locations_raw" d) = false ->
  first_location (PDict d) f = Return PNone.
Proof.
  unfold first_location, field. simpl. intros ->. reflexivity.
Qed.

Lemma first_location_first d loc rest f :
  lookup "locations_raw" d = Some (PList (loc :: rest)) ->
  first_location (PDict d) f = f loc.
Proof.
  unfold first_location. simpl. intros ->. reflexivity.
Qed.

(** The record of a mapping, given its four location fields and its two
    joined lists. *)
Lemma record_of_dict d country locality lat lon et ol :
  first_location (PDict d) (address_field "addressCountry") = Return country ->
  first_location (PDict d) (address_field "addressLocality") = Return locality ->
  first_location (PDict d) (fun loc => get loc "latitude" PNone) = Return lat ->
  first_location (PDict d) (fun loc => get loc "longitude" PNone) = Return lon ->
  join ", " (list_field "employment_type" d) = Return et ->
  join ", " (list_field "linkedin_org_locations" d) = Return ol ->
  record_of (PDict d) = Return (flat_record d country locality lat lon et ol).
Proof.
  intros H1 H2 H3 H4 H5 H6. unfold record_of, list_field in *.
  cbn [get obind]. rewrite H1, H2, H3, H4. cbn [obind]. rewrite H5. cbn [obind].
  rewrite H6. reflexivity.
Qed.

(** A first location without the nested field makes the record fail. *)
Lemma record_of_no_address d loc rest :
  lookup "locations_raw" d = Some (PList (PDict loc :: rest)) ->
  lookup "address" loc = None ->
  record_of (PDict d) = Raise KeyError.
Proof.
  intros Hl Ha. unfold record_of. cbn [get obind].
  rewrite (first_location_first d _ rest _ Hl).
  unfold address_field. simpl. rewrite Ha. reflexivity.
Qed.

End TransformFacts.
Module PandasFacts.
Import Pandas.

(** A value alone in its column is the cell of its row. *)
Lemma cell_single v : cell [Some v] (Some v) = v.
Proof.
  unfold cell, floated, has. cbn [existsb kind_of].
  destruct v as [| b | k | q | s | l | d |]; try reflexivity.
  cbn [kind_of]. destruct (in_int64 k); reflexivity.
Qed.

Lemma uniq_seen seen l :
  (forall x, In x l -> mem x seen = true) -> uniq seen l = [].
Proof.
  induction l as [| x l IH]; intros H; [reflexivity |].
  cbn [uniq]. rewrite (H x (or_introl eq_refl)). apply IH.
  intros y Hy. apply H. right. exact Hy.
Qed.

Lemma mem_In x l : mem x l = true <-> In x l.
Proof.
  unfold mem. rewrite existsb_exists. split.
  - intros (y & Hy & E). apply String.eqb_eq in E. subst. exact Hy.
  - intros H. exists x. split; [exact H | apply String.eqb_refl].
Qed.

Lemma uniq_fresh l1 : forall seen l2,
  NoDup l1 -> (forall x, In x l1 -> ~ In x seen) ->
  uniq seen (l1 ++ l2) = l1 ++ uniq (rev l1 ++ seen) l2.
Proof.
  induction l1 as [| x l1 IH]; intros seen l2 Hn Hs; [reflexivity |].
  cbn [app uniq]. inversion Hn as [| ? ? Hx Hn']; subst.
  destruct (mem x seen) eqn:E.
  { apply mem_In in E. exfalso. apply (Hs x); [left; reflexivity | exact E]. }
  rewrite IH; [| exact Hn' |].
  - cbn [rev]. rewrite <- app_assoc. reflexivity.
  - intros y Hy [<- | Hin]; [contradiction |]. apply (Hs y); [right; exact Hy | exact Hin].
Qed.

(** Records that all have the same keys give these keys as columns. *)
Lemma columns_same ks records :
  NoDup ks -> records <> [] ->
  (forall r, In r records -> keys r = ks) ->
  columns records = ks.
Proof.
  intros Hn Hne Hk. destruct records as [| r records]; [contradiction |].
  unfold columns. cbn [map List.concat]. rewrite (Hk r (or_introl eq_refl)).
  rewrite uniq_fresh; [| exact Hn | intros x _ []].
  rewrite uniq_seen; [apply app_nil_r |].
  intros x Hx. apply mem_In. apply in_or_app. left. apply in_rev. rewrite rev_involutive.
  apply in_concat in Hx. destruct Hx as (l & Hl & Hx).
  apply in_map_iff in Hl. destruct Hl as (r' & <- & Hr').
  rewrite (Hk r' (or_intror Hr')) in Hx. exact Hx.
Qed.

(** A column of objects keeps its cells. *)
Lemma cell_object col v :
  has Other col = true -> cell col (Some v) = v.
Proof. intros H. unfold cell, floated. rewrite H. reflexivity. Qed.

(** So does a column of ints. *)
Lemma cell_int col v :
  has Float col = false -> has Nan col = false -> has Null col = false ->
  cell col (Some v) = v.
Proof.
  intros H1 H2 H3. unfold cell, floated. rewrite H1, H2, H3.
  rewrite andb_false_r. reflexivity.
Qed.

End PandasFacts.


Module QuotesFacts.
Import Sink Quotes QuotesVocabulary SinkFacts.

Lemma insert_row_null row s :
  null_id row = true -> insert_row row s = (Return tt, s).
Proof.
  unfold null_id, insert_row, bind, lift. intros H.
  destruct (getitem row "id") as [[] | ]; try discriminate. reflexivity.
Qed.

Lemma insert_row_stored row q s :
  stored row = Some q -> cursor s = Open -> faults s = [] ->
  insert_row row s =
    (Return tt,
     if has_id (q_id q) (visible s)
     then with_sent s (S (sent s))
     else with_txn (with_sent s (S (sent s))) (txn s ++ [q])).
Proof.
  unfold stored, insert_row, bind, lift. intros H Hc Hf.
  destruct (getitem row "id") as [id | ]; try discriminate.
  destruct (getitem row "content") as [content | ]; try discriminate.
  destruct (getitem row "author") as [author | ]; try discriminate.
  destruct (getitem row "tags") as [tags | ]; try discriminate.
  destruct (is_None id) eqn:En; try discriminate.
  destruct (row_of id content author tags) as [q' | e] eqn:Er; try discriminate.
  injection H as ->. cbn [negb].
  unfold execute, next_fault. rewrite Hc. cbn [faults with_sent]. rewrite Hf.
  unfold insert_query. rewrite Er. cbn [obind].
  unfold visible. cbn [table txn with_sent].
  destruct (has_id (q_id q) (table s ++ txn s)); reflexivity.
Qed.

Lemma acceptable_cases row :
  acceptable row = true ->
  (null_id row = true /\ stored row = None) \/ (null_id row = false /\ exists q, stored row = Some q).
Proof.
  unfold acceptable. destruct (null_id row) eqn:En; cbn [orb].
  - intros _. left. split; [reflexivity |].
    unfold null_id in En. unfold stored.
    destruct (getitem row "id") as [[] | ]; try discriminate.
    destruct (getitem row "content"); [| reflexivity].
    destruct (getitem row "author"); [| reflexivity].
    destruct (getitem row "tags"); reflexivity.
  - destruct (stored row) as [q |]; [eauto | discriminate].
Qed.

Lemma for_each_insert_calm rows : forall s,
  forallb acceptable rows = true -> cursor s = Open -> faults s = [] ->
  for_each rows insert_row s =
    (Return tt,
     with_txn (with_sent s (sent s + statements rows)%nat)
       (pending (table s) (txn s) rows)).
Proof.
  induction rows as [| row rows IH]; intros s Ha Hc Hf.
  - simpl. unfold ret, statements. simpl. rewrite Nat.add_0_r. destruct s; reflexivity.
  - simpl in Ha. apply andb_true_iff in Ha. destruct Ha as [Ha Hrest].
    simpl. unfold bind.
    destruct (acceptable_cases row Ha) as [[Hn Hs] | [Hn [q Hs]]].
    + rewrite insert_row_null by exact Hn. rewrite IH by assumption.
      rewrite Hs. unfold statements. simpl. rewrite Hn. reflexivity.
    + rewrite (insert_row_stored row q s Hs Hc Hf). rewrite Hs.
      unfold statements. simpl. rewrite Hn. simpl. unfold visible.
      destruct (has_id (q_id q) (table s ++ txn s)); rewrite IH by assumption;
        simpl; unfold with_txn, with_sent, statements; simpl;
        rewrite Nat.add_succ_r; reflexivity.
Qed.

(** When the server refuses nothing and every row of the frame is skipped
    or taken, the load commits what the rows add. *)
Lemma load_data_calm df s :
  empty df = false -> forallb acceptable (Pandas.iterrows df) = true ->
  faults s = [] ->
  load_data (Some df) (new_frame s) =
    (Return tt,
     mk _ (table s ++ pending (table s) [] (Pandas.iterrows df)) [] Closed Closed []
       (serial s) (clock s) (sent s + 2 + statements (Pandas.iterrows df))%nat).
Proof.
  intros He Ha Hf. unfold load_data. rewrite He.
  unfold try_finally, try_except, load_body, bind.
  unfold connect, next_fault, new_frame. simpl. rewrite Hf. simpl.
  rewrite for_each_insert_calm by (simpl; auto). simpl.
  cbv [with_txn with_conn with_cursor with_table with_sent
       table txn conn cursor faults serial clock sent].
  destruct s as [tbl tx cn cu fl se cl n]. simpl in *.
  replace (S (S (n + statements (Pandas.iterrows df))))
    with (n + 2 + statements (Pandas.iterrows df))%nat by lia.
  reflexivity.
Qed.

(** *** Frames of one record *)

(** The frame [transform_data] builds of a record of [fetch_quote] yields
    the record itself. *)
Lemma iterrows_quote i c a t :
  Pandas.iterrows [PDict [("id", i); ("content", c); ("author", a); ("tags", t)]]
    = [PDict [("id", i); ("content", c); ("author", a); ("tags", t)]].
Proof.
  unfold Pandas.iterrows, Pandas.columns, Pandas.column.
  cbn [forallb Pandas.is_record andb map Pandas.keys List.concat fst app
       Pandas.uniq Pandas.mem existsb String.eqb Ascii.eqb Bool.eqb orb
       Pandas.entry lookup].
  rewrite !PandasFacts.cell_single. reflexivity.
Qed.

(** A record without content is refused. *)
Lemma row_of_no_content id a t : raises (row_of id PNone a t) = true.
Proof.
  unfold row_of. destruct (adapt id); [| reflexivity]. cbn [adapt obind].
  destruct (adapt a); [| reflexivity]. cbn [obind].
  destruct (adapt t); [| reflexivity]. cbn [obind].
  destruct id; cbn [bigint_of]; try reflexivity;
    repeat match goal with
           | |- context [int8in ?s] => destruct (int8in s)
           | |- context [in_bigint ?k] => destruct (in_bigint k)
           end; reflexivity.
Qed.

(** *** Frames of keyed records *)

Lemma keyed_shape record :
  keyed record = true ->
  exists k c a t,
    record = PDict [("id", PInt k); ("content", PStr c);
                    ("author", PStr a); ("tags", PStr t)]
    /\ in_bigint k = true /\ no_nul c = true /\ no_nul a = true /\ no_nul t = true.
Proof.
  unfold keyed.
  destruct record as [| | | | | | d |]; try discriminate.
  destruct d as [| [k1 [| | k | | | | |]] d]; try discriminate.
  destruct d as [| [k2 [| | | | c | | |]] d]; try discriminate.
  destruct d as [| [k3 [| | | | a | | |]] d]; try discriminate.
  destruct d as [| [k4 [| | | | t | | |]] d]; try discriminate.
  destruct d; try discriminate.
  intros H. repeat (apply andb_true_iff in H; destruct H as [H ?]).
  apply String.eqb_eq in H. subst k1.
  repeat match goal with
         | E : String.eqb _ _ = true |- _ => apply String.eqb_eq in E; subst
         end.
  exists k, c, a, t. auto.
Qed.

Lemma keyed_not_empty record df :
  keyed record = true -> empty (record :: df) = false.
Proof.
  intros H. destruct (keyed_shape record H) as (k & c & a & t & -> & _). reflexivity.
Qed.

Lemma keyed_columns df :
  forallb keyed df = true -> df <> [] ->
  Pandas.columns df = ["id"; "content"; "author"; "tags"].
Proof.
  intros H Hne. destruct df as [| r df]; [contradiction |].
  cbn [forallb] in H. apply andb_true_iff in H. destruct H as [Hr Hd].
  destruct (keyed_shape r Hr) as (k & c & a & t & -> & _).
  unfold Pandas.columns. cbn [map Pandas.keys List.concat fst app].
  cbn [Pandas.uniq Pandas.mem existsb String.eqb Ascii.eqb Bool.eqb orb andb].
  rewrite PandasFacts.uniq_seen; [reflexivity |].
  intros x Hx. apply in_concat in Hx. destruct Hx as (l & Hl & Hx).
  apply in_map_iff in Hl. destruct Hl as (r' & <- & Hr').
  rewrite forallb_forall in Hd.
  destruct (keyed_shape r' (Hd r' Hr')) as (k' & c' & a' & t' & -> & _).
  cbn [Pandas.keys map fst] in Hx.
  destruct Hx as [<- | [<- | [<- | [<- | []]]]]; reflexivity.
Qed.

Lemma keyed_has_object df c :
  forallb keyed df = true -> df <> [] ->
  c = "content" \/ c = "author" \/ c = "tags" ->
  Pandas.has Pandas.Other (Pandas.column df c) = true.
Proof.
  intros H Hne Hc. destruct df as [| r df]; [contradiction |].
  cbn [forallb] in H. apply andb_true_iff in H. destruct H as [Hr _].
  destruct (keyed_shape r Hr) as (k & c' & a & t & -> & _).
  destruct Hc as [-> | [-> | ->]]; reflexivity.
Qed.

Lemma keyed_ids_are_ints df k0 :
  k0 = Pandas.Float \/ k0 = Pandas.Nan \/ k0 = Pandas.Null ->
  forallb keyed df = true ->
  Pandas.has k0 (Pandas.column df "id") = false.
Proof.
  intros Hk H. induction df as [| r df IH]; [reflexivity |].
  cbn [forallb] in H. apply andb_true_iff in H. destruct H as [Hr Hd].
  destruct (keyed_shape r Hr) as (k & c & a & t & -> & _).
  unfold Pandas.column, Pandas.has in *. cbn [map existsb].
  rewrite (IH Hd). rewrite orb_false_r.
  cbn. destruct (Pandas.in_int64 k); destruct Hk as [-> | [-> | ->]]; reflexivity.
Qed.

(** A frame of keyed records yields the records themselves. *)
Lemma iterrows_keyed df :
  forallb keyed df = true -> Pandas.iterrows df = df.
Proof.
  intros H. destruct df as [| r0 df0] eqn:Ed; [reflexivity |].
  rewrite <- Ed in *. assert (Hne : df <> []) by (rewrite Ed; discriminate).
  clear Ed r0 df0.
  unfold Pandas.iterrows.
  assert (Hrec : forallb Pandas.is_record df = true).
  { rewrite forallb_forall in *. intros r Hr.
    destruct (keyed_shape r (H r Hr)) as (k & c & a & t & -> & _). reflexivity. }
  rewrite Hrec, (keyed_columns df H Hne).
  transitivity (map (fun r : pyval => r) df); [| apply map_id].
  apply map_ext_in. intros r Hr.
  rewrite forallb_forall in H.
  destruct (keyed_shape r (H r Hr)) as (k & c & a & t & -> & _).
  rewrite forallb_forall in Hrec.
  assert (H' : forallb keyed df = true) by (apply forallb_forall; exact H).
  cbn [map Pandas.entry lookup String.eqb Ascii.eqb Bool.eqb].
  rewrite (PandasFacts.cell_int (Pandas.column df "id"))
    by (apply keyed_ids_are_ints; auto).
  rewrite !PandasFacts.cell_object by (apply keyed_has_object; auto).
  reflexivity.
Qed.

Lemma keyed_stored record :
  keyed record = true ->
  exists k c a t,
    record = PDict [("id", PInt k); ("content", PStr c);
                    ("author", PStr a); ("tags", PStr t)]
    /\ stored record = Some (mkQuote k (PStr c) (PStr a) (PStr t)).
Proof.
  intros H. destruct (keyed_shape record H) as (k & c & a & t & -> & Hk & Hc & Ha & Ht).
  exists k, c, a, t. split; [reflexivity |].
  unfold stored. cbn [getitem lookup String.eqb Ascii.eqb Bool.eqb is_None].
  unfold row_of. cbn [adapt obind bigint_of]. rewrite Hc, Ha, Ht, Hk. reflexivity.
Qed.

Lemma keyed_acceptable df :
  forallb keyed df = true -> forallb acceptable df = true.
Proof.
  rewrite !forallb_forall. intros H r Hr.
  destruct (keyed_stored r (H r Hr)) as (k & c & a & t & _ & Hs).
  unfold acceptable. rewrite Hs. apply orb_true_r.
Qed.

Lemma has_id_app k a b : has_id k (a ++ b) = has_id k a || has_id k b.
Proof. unfold has_id. apply existsb_app. Qed.

Lemma has_id_In k tbl : has_id k tbl = true <-> In k (ids tbl).
Proof.
  unfold has_id, ids. rewrite existsb_exists, in_map_iff. split.
  - intros (r & Hin & E). apply Z.eqb_eq in E. eauto.
  - intros (r & E & Hin). exists r. split; auto. apply Z.eqb_eq. exact E.
Qed.

(** A batch only appends to the open transaction. *)
Lemma pending_extends tbl rows : forall txn,
  exists more, pending tbl txn rows = txn ++ more.
Proof.
  induction rows as [| row rows IH]; intros txn; simpl.
  - exists []. symmetry. apply app_nil_r.
  - destruct (stored row) as [q |]; auto.
    destruct (has_id (q_id q) (tbl ++ txn)); auto.
    destruct (IH (txn ++ [q])) as [more E]. rewrite E, <- app_assoc. eauto.
Qed.

Lemma pending_keeps_ids tbl txn rows k :
  has_id k (tbl ++ txn) = true -> has_id k (tbl ++ pending tbl txn rows) = true.
Proof.
  destruct (pending_extends tbl rows txn) as [more ->].
  rewrite app_assoc, (has_id_app k (tbl ++ txn)). intros ->. reflexivity.
Qed.

(** What a batch appends: rows with ids that are new and pairwise
    distinct, at most one for each row of the batch. *)
Lemma pending_fresh tbl rows : forall txn,
  exists more,
    pending tbl txn rows = txn ++ more
    /\ NoDup (ids more)
    /\ (forall k, In k (ids more) -> ~ In k (ids (tbl ++ txn)))
    /\ (List.length more <= List.length rows)%nat.
Proof.
  induction rows as [| row rows IH]; intros txn; cbn [pending].
  - exists []. rewrite app_nil_r. repeat split; [constructor | intros k [] | apply Nat.le_refl].
  - destruct (stored row) as [q |].
    2: { destruct (IH txn) as (more & E & Hn & Hf & Hl). exists more.
         repeat split; auto. cbn [List.length]. lia. }
    destruct (has_id (q_id q) (tbl ++ txn)) eqn:Eh.
    { destruct (IH txn) as (more & E & Hn & Hf & Hl). exists more.
      repeat split; auto. cbn [List.length]. lia. }
    destruct (IH (txn ++ [q])) as (more & E & Hn & Hf & Hl).
    exists (q :: more). rewrite E, <- app_assoc. split; [reflexivity |].
    assert (Hq : ~ In (q_id q) (ids (tbl ++ txn))).
    { intros Hin. apply has_id_In in Hin. congruence. }
    split; [| split].
    + cbn [ids map]. constructor; [| exact Hn].
      intros Hin. apply (Hf _ Hin). unfold ids. rewrite !map_app.
      apply in_or_app. right. apply in_or_app. right. left. reflexivity.
    + intros k [<- | Hin]; [exact Hq |].
      intros Hk. apply (Hf _ Hin). unfold ids in *. rewrite !map_app in *.
      apply in_app_or in Hk. destruct Hk as [Hk | Hk].
      * apply in_or_app. left. exact Hk.
      * apply in_or_app. right. apply in_or_app. left. exact Hk.
    + cbn [List.length]. lia.
Qed.

(** After the batch every id of the batch is visible. *)
Lemma pending_covers tbl rows : forall txn row q,
  In row rows -> stored row = Some q ->
  has_id (q_id q) (tbl ++ pending tbl txn rows) = true.
Proof.
  induction rows as [| r rows IH]; intros txn row q Hin Hs; [contradiction |].
  simpl. destruct Hin as [<- | Hin].
  - rewrite Hs. destruct (has_id (q_id q) (tbl ++ txn)) eqn:E.
    + apply pending_keeps_ids. exact E.
    + apply pending_keeps_ids. rewrite app_assoc, has_id_app.
      simpl. rewrite Z.eqb_refl. simpl. apply orb_true_r.
  - destruct (stored r) as [q' |]; eauto.
    destruct (has_id (q_id q') (tbl ++ txn)); eauto.
Qed.

(** A batch whose ids are all visible adds nothing. *)
Lemma pending_noop tbl txn rows :
  (forall row q, In row rows -> stored row = Some q ->
                 has_id (q_id q) (tbl ++ txn) = true) ->
  pending tbl txn rows = txn.
Proof.
  induction rows as [| r rows IH]; intros H; simpl; auto.
  destruct (stored r) as [q |] eqn:Hs.
  - rewrite (H r q (or_introl eq_refl) Hs). apply IH.
    intros row q' Hin. apply H. right. exact Hin.
  - apply IH. intros row q' Hin. apply H. right. exact Hin.
Qed.

(** The primary key stays a key. *)
Lemma pending_NoDup tbl rows : forall txn,
  NoDup (ids (tbl ++ txn)) -> NoDup (ids (tbl ++ pending tbl txn rows)).
Proof.
  induction rows as [| r rows IH]; intros txn H; simpl; auto.
  destruct (stored r) as [q |]; auto.
  destruct (has_id (q_id q) (tbl ++ txn)) eqn:E; auto.
  apply IH. rewrite app_assoc. unfold ids. rewrite map_app. simpl.
  apply NoDup_app; auto.
  - constructor; [intros [] | constructor].
  - intros a Hin [<- | []]. apply has_id_In in Hin. congruence.
Qed.

Lemma stored_of_id row k :
  keyed row = true -> getitem row "id" = Return (PInt k) ->
  exists q, stored row = Some q /\ q_id q = k.
Proof.
  intros Ha Hid. destruct (keyed_stored row Ha) as (k' & c & a & t & -> & Hs).
  cbn in Hid. injection Hid as <-. eauto.
Qed.

Lemma NoDup_count_one (l : list Z) k :
  NoDup l -> In k l -> count_occ Z.eq_dec l k = 1%nat.
Proof.
  intros Hn Hin. rewrite NoDup_count_occ with (decA := Z.eq_dec) in Hn.
  specialize (Hn k). apply (count_occ_In Z.eq_dec) in Hin. lia.
Qed.

Lemma mild_insert_query id c a t : mild (insert_query id c a t).
Proof.
  intros s s' E. unfold insert_query in E.
  destruct (row_of id c a t) as [q | e]; cbn [obind] in E; try discriminate.
  destruct (has_id (q_id q) (visible s)); injection E as <-; repeat split.
Qed.

Lemma keeps_insert_row row : keeps (insert_row row).
Proof.
  unfold insert_row. apply keeps_bind; [apply keeps_lift |]. intros id.
  destruct (negb (is_None id)); [| apply keeps_ret].
  repeat (apply keeps_bind; [apply keeps_lift | intros ?]).
  apply keeps_execute, mild_insert_query.
Qed.

Lemma keeps_block rows : keeps (block rows).
Proof.
  unfold block.
  apply keeps_bind; [apply keeps_execute; intros s s' E; injection E as <-; repeat split |].
  intros _.
  apply keeps_bind; [apply keeps_execute; intros s s' E; injection E as <-; repeat split |].
  intros _. apply keeps_for_each, keeps_insert_row.
Qed.

Lemma load_body_block rows s :
  load_body rows s = (connect ;; get_cursor ;; block rows ;; commit) s.
Proof.
  unfold load_body, block, bind.
  destruct (connect s) as [[[] | e] s1]; auto.
  destruct (get_cursor s1) as [[[] | e] s2]; auto.
  destruct (execute create_table_query s2) as [[[] | e] s3]; auto.
  destruct (execute alter_table_query s3) as [[[] | e] s4]; auto.
Qed.

(** Every exit of [load_data]: when the connection cannot be opened the
    handler and the [finally] block trip over the unassigned variables;
    otherwise the call returns normally with the connection closed, and
    whatever made the [try] block raise left no row behind. *)
Lemma load_data_outcome rows s :
  empty rows = false ->
  (fst (next_fault (new_frame s)) = true
   /\ fst (load_data (Some rows) (new_frame s)) = Raise UnboundLocalError
   /\ table (snd (load_data (Some rows) (new_frame s))) = table s
   /\ conn (snd (load_data (Some rows) (new_frame s))) = Unbound)
  \/ (fst (next_fault (new_frame s)) = false
      /\ fst (load_data (Some rows) (new_frame s)) = Return tt
      /\ conn (snd (load_data (Some rows) (new_frame s))) = Closed
      /\ cursor (snd (load_data (Some rows) (new_frame s))) = Closed
      /\ (raises (fst (load_body rows (new_frame s))) = true ->
          table (snd (load_data (Some rows) (new_frame s))) = table s)).
Proof.
  intros He.
  pose proof (connected_block _ (block rows) s (keeps_block rows)) as H.
  cbv zeta in H. rewrite <- (load_body_block rows (new_frame s)) in H.
  unfold load_data. rewrite He. unfold try_finally, try_except.
  destruct (load_body rows (new_frame s)) as [o s1].
  cbn [fst snd] in *.
  destruct H as [(Hf & Hr & Hc & Hu & Ht) | (Hf & Hc & Hu & Hr & Hk)].
  - left. destruct o as [| e]; [discriminate |]. cbn [Exception].
    unfold rollback, bind, cursor_close. rewrite Hc. cbn [fst snd]. rewrite Hu.
    cbn [fst snd]. auto.
  - right. destruct o as [[] | e]; cbn [Exception].
    + unfold bind, cursor_close, close. rewrite Hu. cbn. rewrite Hc. cbn.
      repeat split; auto.
    + unfold rollback, bind, cursor_close, close. rewrite Hc.
      cbn. rewrite Hu. cbn. rewrite Hc. cbn. repeat split; auto.
Qed.

End QuotesFacts.


Module HealthcareFacts.
Import Sink Airflow Healthcare SinkFacts.

Lemma mild_insert_page page : mild (insert_page page).
Proof.
  induction page as [| x page IH]; intros s s' E; simpl in E.
  - injection E as <-. repeat split.
  - unfold insert_sql in E. destruct (Nat.eqb (List.length x) 17); try discriminate.
    simpl in E. apply IH in E. destruct E as (a & b & c). repeat split; assumption.
Qed.

Lemma plain_insert_page page : plain (insert_page page).
Proof.
  induction page as [| x page IH]; intros s s' E; simpl in E.
  - injection E as <-. reflexivity.
  - unfold insert_sql in E. destruct (Nat.eqb (List.length x) 17); try discriminate.
    simpl in E. apply IH in E. exact E.
Qed.

Lemma keeps_execute_batch argslist n : keeps (execute_batch argslist n).
Proof.
  unfold execute_batch. apply keeps_for_each. intros page.
  apply keeps_execute, mild_insert_page.
Qed.

Lemma quiet_execute_batch argslist n : quiet (execute_batch argslist n).
Proof.
  unfold execute_batch. apply quiet_for_each. intros page.
  apply quiet_execute, plain_insert_page.
Qed.

Lemma load_body_read kw s :
  load_body kw s =
    match read_tuples (XCom.pull (ti kw) "transform_data" "transformed_data") with
    | Return data_tuples =>
        (connect ;; get_cursor ;; execute_batch data_tuples 100 ;; commit) s
    | Raise e => (Raise e, s)
    end.
Proof.
  unfold load_body. unfold bind at 1. unfold lift.
  destruct (read_tuples _); reflexivity.
Qed.

(** Every exit of [load_to_postgres]: the connection is not held, a raise
    of the [try] block reaches the caller, and nothing is committed then. *)
Lemma load_to_postgres_outcome kw s :
  released (snd (load_to_postgres kw (new_frame s))) = true
  /\ (raises (fst (load_to_postgres kw (new_frame s))) = true ->
      table (snd (load_to_postgres kw (new_frame s))) = table s)
  /\ (raises (fst (load_body kw (new_frame s))) = true ->
      raises (fst (load_to_postgres kw (new_frame s))) = true).
Proof.
  assert (H : let r := load_body kw (new_frame s) in
              (raises (fst r) = true /\ conn (snd r) = Unbound
               /\ cursor (snd r) = Unbound /\ table (snd r) = table s)
              \/ (conn (snd r) = Open /\ cursor (snd r) = Open
                  /\ (raises (fst r) = true -> table (snd r) = table s))).
  { cbv zeta. rewrite load_body_read.
    destruct (read_tuples _) as [data_tuples | e].
    - pose proof (connected_block _ (execute_batch data_tuples 100) s
                    (keeps_execute_batch _ _)) as H.
      cbv zeta in H. destruct H as [(_ & H) | (_ & Hc & Hu & Hr & _)]; auto.
    - left. simpl. auto. }
  cbv zeta in H.
  unfold load_to_postgres, try_finally, try_except.
  destruct (load_body kw (new_frame s)) as [o s1].
  cbn [fst snd] in *.
  destruct H as [(Hr & Hc & Hu & Ht) | (Hc & Hu & Hr)].
  - destruct o as [| e]; [discriminate |]. cbn [Exception].
    unfold rollback, bind, cursor_close, released. rewrite Hc. cbn. rewrite Hu. cbn.
    rewrite Hc. auto.
  - destruct o as [[] | e]; cbn [Exception].
    + unfold bind, cursor_close, close, released. rewrite Hu. cbn. rewrite Hc. cbn.
      repeat split; auto; discriminate.
    + unfold rollback, bind, throw, cursor_close, close, released. rewrite Hc.
      cbn. rewrite Hu. cbn. rewrite Hc. cbn. repeat split; auto.
Qed.

Lemma quiet_load_to_postgres kw : quiet (load_to_postgres kw).
Proof.
  unfold load_to_postgres. apply quiet_try_finally.
  - apply quiet_rethrow.
    + intros e s. unfold bind, rollback, throw. destruct (conn s); reflexivity.
    + unfold load_body. apply quiet_bind; [apply quiet_lift | intros data_tuples].
      apply quiet_bind; [apply quiet_connect | intros _].
      apply quiet_bind; [apply quiet_get_cursor | intros _].
      apply quiet_bind; [apply quiet_execute_batch | intros _].
      apply quiet_commit.
  - apply quiet_bind; [apply quiet_cursor_close | intros _]. apply quiet_close.
Qed.

End HealthcareFacts.


Module CryptoFacts.
Import Sink Airflow Crypto AppendVocabulary SinkFacts.

Lemma keeps_insert_crypto crypto : keeps (insert_crypto crypto).
Proof.
  unfold insert_crypto.
  repeat (apply keeps_bind; [apply keeps_lift | intros ?]).
  apply keeps_execute. intros s s' E. injection E as <-. repeat split.
Qed.

Lemma quiet_insert_crypto crypto : quiet (insert_crypto crypto).
Proof.
  unfold insert_crypto.
  repeat (apply quiet_bind; [apply quiet_lift | intros ?]).
  apply quiet_execute. intros s s' E. injection E as <-. reflexivity.
Qed.

Lemma quiet_insert_into_postgres kw : quiet (insert_into_postgres kw).
Proof.
  unfold insert_into_postgres.
  destruct (negb (truthy (XCom.pull (ti kw) "fetch_crypto_prices" "return_value"))).
  - apply quiet_throw.
  - apply quiet_bind; [apply quiet_connect | intros _].
    apply quiet_bind; [apply quiet_get_cursor | intros _].
    apply quiet_bind; [apply quiet_lift | intros items].
    apply quiet_bind; [apply quiet_for_each, quiet_insert_crypto | intros _].
    apply quiet_bind; [apply quiet_commit | intros _].
    apply quiet_bind; [apply quiet_cursor_close | intros _]. apply quiet_close.
Qed.

Lemma keeps_inserts crypto_data : keeps (inserts crypto_data).
Proof.
  unfold inserts. apply keeps_bind; [apply keeps_lift | intros items].
  apply keeps_for_each, keeps_insert_crypto.
Qed.

Lemma insert_into_postgres_block kw s :
  truthy (XCom.pull (ti kw) "fetch_crypto_prices" "return_value") = true ->
  insert_into_postgres kw s =
    ((connect ;; get_cursor ;;
      inserts (XCom.pull (ti kw) "fetch_crypto_prices" "return_value") ;; commit) ;;
     cursor_close ;; close) s.
Proof.
  intros Ht. unfold insert_into_postgres, inserts. rewrite Ht. cbn [negb].
  unfold bind, lift.
  destruct (connect s) as [[[] | e] s1]; auto.
  destruct (get_cursor s1) as [[[] | e] s2]; auto.
  destruct (iter _) as [items | e]; auto.
  destruct (for_each items insert_crypto s2) as [[[] | e] s3]; auto.
Qed.

(** Every failing exit of [insert_into_postgres]: nothing is committed, and
    the connection, once opened, is still open. *)
Lemma insert_into_postgres_failure kw s :
  raises (fst (insert_into_postgres kw (new_frame s))) = true ->
  table (snd (insert_into_postgres kw (new_frame s))) = table s
  /\ conn (snd (insert_into_postgres kw (new_frame s))) <> Closed
  /\ (truthy (XCom.pull (ti kw) "fetch_crypto_prices" "return_value") = true ->
      fst (next_fault (new_frame s)) = false ->
      conn (snd (insert_into_postgres kw (new_frame s))) = Open).
Proof.
  destruct (truthy (XCom.pull (ti kw) "fetch_crypto_prices" "return_value")) eqn:Et.
  2: { unfold insert_into_postgres. rewrite Et. simpl. intros _.
       repeat split; try discriminate. }
  rewrite (insert_into_postgres_block kw _ Et).
  pose proof (connected_block _ (inserts (XCom.pull (ti kw) "fetch_crypto_prices" "return_value"))
                s (keeps_inserts _)) as H.
  cbv zeta in H.
  set (body := connect ;; get_cursor ;;
               inserts (XCom.pull (ti kw) "fetch_crypto_prices" "return_value") ;; commit) in *.
  destruct (body (new_frame s)) as [o s1] eqn:Eb.
  unfold bind. rewrite Eb. cbn [fst snd] in *.
  destruct H as [(Hf & Hr & Hc & Hu & Ht) | (Hf & Hc & Hu & Hr & Hk)].
  - destruct o as [| e]; [discriminate |]. cbn. intros _.
    rewrite Hc, Hf. repeat split; auto; discriminate.
  - destruct o as [[] | e]; cbn.
    + unfold cursor_close, close. rewrite Hu. cbn. rewrite Hc. cbn. discriminate.
    + intros _. rewrite Hc. repeat split; auto; discriminate.
Qed.

End CryptoFacts.


Module AppendFacts.
Import Sink Airflow Crypto AppendVocabulary SinkFacts.

Lemma price_rows_length now items :
  complete items = true -> List.length (price_rows now items) = List.length items.
Proof.
  induction items as [| c items IH]; simpl; auto.
  destruct (priced c) as [[[a b] c'] |]; simpl; try discriminate.
  intros H. f_equal. auto.
Qed.

Lemma insert_crypto_calm crypto a b c s :
  priced crypto = Some (a, b, c) -> cursor s = Open -> faults s = [] ->
  insert_crypto crypto s =
    (Return tt,
     with_txn (with_sent s (S (sent s))) (txn s ++ [mkPrice a b c (clock s)])).
Proof.
  unfold priced, insert_crypto, bind, lift. intros H Hc Hf.
  destruct (getitem crypto "symbol"); try discriminate.
  destruct (getitem crypto "price_usd"); try discriminate.
  destruct (getitem crypto "change_24h"); try discriminate.
  injection H as -> -> ->.
  unfold execute, next_fault. rewrite Hc. simpl. rewrite Hf. reflexivity.
Qed.

Lemma for_each_insert_crypto_calm items : forall s,
  complete items = true -> cursor s = Open -> faults s = [] ->
  for_each items insert_crypto s =
    (Return tt,
     with_txn (with_sent s (sent s + List.length items)%nat)
       (txn s ++ price_rows (clock s) items)).
Proof.
  induction items as [| crypto items IH]; intros s Ha Hc Hf.
  - simpl. unfold ret. rewrite Nat.add_0_r, app_nil_r. destruct s; reflexivity.
  - simpl in Ha. simpl. unfold bind.
    destruct (priced crypto) as [[[a b] c] |] eqn:Hp; try discriminate.
    rewrite (insert_crypto_calm crypto a b c s Hp Hc Hf).
    rewrite IH by assumption. simpl.
    unfold with_txn, with_sent; simpl.
    rewrite <- app_assoc, Nat.add_succ_r. reflexivity.
Qed.

Lemma insert_into_postgres_calm kw items s :
  XCom.pull (ti kw) "fetch_crypto_prices" "return_value" = PList items ->
  items <> [] -> complete items = true -> faults s = [] ->
  insert_into_postgres kw (new_frame s) =
    (Return tt,
     mk _ (table s ++ price_rows (clock s) items) [] Closed Closed []
       (serial s) (clock s) (sent s + List.length items)%nat).
Proof.
  intros Hx Hne Hc Hf. unfold insert_into_postgres. rewrite Hx.
  destruct items as [| c0 items0]; [contradiction |].
  remember (c0 :: items0) as items eqn:Ei.
  assert (Ht : truthy (PList items) = true) by (rewrite Ei; reflexivity).
  rewrite Ht. cbn [negb iter].
  unfold bind, connect, next_fault, new_frame, lift. cbn [faults]. rewrite Hf.
  cbn [get_cursor conn with_txn with_conn].
  rewrite for_each_insert_crypto_calm by (simpl; auto).
  cbv [commit cursor_close close next_fault with_txn with_conn with_cursor with_table with_sent
       table txn conn cursor faults serial clock sent].
  destruct s as [tbl tx cn cu fl se cl n]. reflexivity.
Qed.

Lemma insert_into_postgres_no_data kw s :
  XCom.pull (ti kw) "fetch_crypto_prices" "return_value" = PList [] ->
  insert_into_postgres kw s =
    (Raise (ValueError "No data received from fetch task"), s).
Proof.
  intros Hx. unfold insert_into_postgres. rewrite Hx. reflexivity.
Qed.

Import SelfConfidence.

Lemma load_to_postgres_calm ti q a t (s : SelfConfidence.db) :
  getitem (XCom.pull ti "fetch_quote" "quote_data") "quote" = Return q ->
  getitem (XCom.pull ti "fetch_quote" "quote_data") "author" = Return a ->
  getitem (XCom.pull ti "fetch_quote" "quote_data") "type" = Return t ->
  faults s = [] ->
  load_to_postgres ti (new_frame s) =
    (Return tt,
     mk _ (table s ++ [mkRow (serial s) q a t]) [] Closed Closed []
       (serial s + 1) (clock s) (sent s + 2)%nat).
Proof.
  intros Hq Ha Ht Hf. unfold load_to_postgres.
  unfold bind, lift. rewrite Hq, Ha, Ht.
  cbv [connect get_cursor execute commit cursor_close close next_fault new_frame
       create_table insert_query
       with_txn with_conn with_cursor with_table with_sent with_serial
       table txn conn cursor faults serial clock sent].
  destruct s as [tbl tx cn cu fl se cl n]. simpl in Hf. subst fl.
  cbn. rewrite Nat.add_comm. reflexivity.
Qed.

End AppendFacts.
(* ===================================================================== *)
(** ** Facts for the further properties *)
(* ===================================================================== *)

Module CommitFacts.
Import Sink SinkFacts.

Section Commit.

Variable R : Type.

(** Neither the handlers nor the [finally] blocks touch the table. *)
Lemma rollback_table (s : Sink.t R) : table (snd (rollback s)) = table s.
Proof. unfold rollback. destruct (conn s); reflexivity. Qed.

Lemma closing_table (s : Sink.t R) :
  table (snd (bind cursor_close (fun _ => close) s)) = table s.
Proof.
  unfold bind, cursor_close, close.
  destruct (cursor s); simpl; try reflexivity; destruct (conn s); reflexivity.
Qed.

(** When a block between [connect], [cursor] and [commit] returns, the
    table has grown by what the block wrote into a transaction that
    started empty. *)
Lemma connected_block_commits (m : M (Sink.t R) unit) s s' :
  keeps m ->
  bind connect (fun _ => bind get_cursor (fun _ => bind m (fun _ => commit)))
    (new_frame s) = (Return tt, s') ->
  exists s0 s1,
    table s0 = table s /\ txn s0 = [] /\ cursor s0 = Open
    /\ clock s0 = clock s /\ serial s0 = serial s
    /\ m s0 = (Return tt, s1)
    /\ table s' = table s ++ txn s1 /\ txn s' = []
    /\ conn s' = Open /\ cursor s' = Open.
Proof.
  intros Hm. unfold bind at 1. unfold connect.
  pose proof (next_fault_stable R (new_frame s)) as Hn.
  assert (Hk : clock (snd (next_fault (new_frame s))) = clock s
               /\ serial (snd (next_fault (new_frame s))) = serial s).
  { unfold next_fault. destruct (faults (new_frame s)); simpl; auto. }
  destruct (next_fault (new_frame s)) as [[] s0']; try discriminate.
  cbn [snd] in *. destruct Hn as (Ht & Hc & Hu). destruct Hk as [Hk1 Hk2].
  unfold bind at 1. unfold get_cursor. cbn [conn with_txn with_conn].
  set (s0 := with_cursor (with_txn (with_conn s0' Open) []) Open).
  unfold bind. pose proof (Hm s0) as Hs.
  destruct (m s0) as [[[] | e] s1] eqn:E; try discriminate.
  cbn [snd] in Hs. destruct Hs as (Ht1 & Hc1 & Hu1).
  unfold commit. rewrite Hc1. cbn [conn s0 with_cursor with_txn with_conn].
  pose proof (next_fault_stable R s1) as Hn1.
  destruct (next_fault s1) as [[] s2] eqn:E2; try discriminate.
  cbn [snd] in Hn1. destruct Hn1 as (Ht2 & Hc2 & Hu2).
  intros H. injection H as <-.
  assert (Hx : txn s2 = txn s1).
  { unfold next_fault in E2.
    destruct (faults s1); [injection E2 as <- | injection E2 as _ <-]; reflexivity. }
  exists s0, s1. cbn [table txn conn cursor with_txn with_table].
  assert (Ht0 : table s0 = table s) by (subst s0; simpl; exact Ht).
  repeat split; auto.
  - rewrite Ht2, Ht1, Hx, Ht0. reflexivity.
  - rewrite Hc2. exact Hc1.
  - rewrite Hu2. exact Hu1.
Qed.

(** A statement that passed was run on the state the call found, up to
    the fault plan and the statement count. *)
Lemma execute_returns (stmt : Sink.t R -> outcome (Sink.t R)) s s' :
  execute stmt s = (Return tt, s') ->
  exists s0,
    table s0 = table s /\ txn s0 = txn s /\ serial s0 = serial s
    /\ clock s0 = clock s /\ cursor s0 = cursor s /\ conn s0 = conn s
    /\ stmt s0 = Return s'.
Proof.
  unfold execute. destruct (cursor s) eqn:Ec; try discriminate.
  destruct (next_fault (with_sent s (S (sent s)))) as [[] s0] eqn:E0; try discriminate.
  destruct (stmt s0) as [s2 |] eqn:E2; try discriminate.
  intros H. injection H as <-. exists s0.
  unfold next_fault in E0. cbn [faults with_sent] in E0.
  destruct (faults s); [injection E0 as <- | injection E0 as _ <-];
    cbn; rewrite ?Ec; repeat split; auto.
Qed.

End Commit.

End CommitFacts.

Module QuotesCommitFacts.
Import Sink Quotes QuotesVocabulary SinkFacts QuotesFacts CommitFacts.

(** A statement that passed left the table alone and wrote the stored
    form of its row, unless the id was there already; a row that passed
    without a statement had a null id. *)
Lemma insert_row_returns row s s' :
  insert_row row s = (Return tt, s') ->
  table s' = table s /\ txn s' = pending (table s) (txn s) [row]
  /\ acceptable row = true.
Proof.
  unfold insert_row, bind, lift, acceptable, null_id, stored. cbn [pending].
  unfold stored.
  destruct (getitem row "id") as [id |]; [| discriminate].
  destruct (is_None id) eqn:En; cbn [negb].
  - destruct id; try discriminate. intros H. injection H as <-.
    destruct (getitem row "content"); [| auto].
    destruct (getitem row "author"); [| auto].
    destruct (getitem row "tags"); auto.
  - destruct (getitem row "content") as [content |]; [| discriminate].
    destruct (getitem row "author") as [author |]; [| discriminate].
    destruct (getitem row "tags") as [tags |]; [| discriminate].
    unfold execute. destruct (cursor s); try discriminate.
    destruct (next_fault (with_sent s (S (sent s)))) as [[] s1] eqn:E1; try discriminate.
    assert (Hs1 : table s1 = table s /\ txn s1 = txn s).
    { unfold next_fault in E1. cbn [faults with_sent] in E1.
      destruct (faults s); [injection E1 as <- | injection E1 as _ <-]; auto. }
    destruct Hs1 as [Ht Hx].
    unfold insert_query.
    destruct (row_of id content author tags) as [q | e]; cbn [obind]; try discriminate.
    unfold visible. rewrite Ht, Hx.
    assert (Hn : match id with PNone => true | _ => false end = false).
    { destruct id; try reflexivity. discriminate En. }
    rewrite Hn. cbn [orb].
    destruct (has_id (q_id q) (table s ++ txn s)) eqn:Eh;
      intros H; injection H as <-; cbn [table txn with_txn];
      rewrite ?Ht, ?Hx; auto.
Qed.

Lemma pending_cons tbl txn row rows :
  pending tbl txn (row :: rows) = pending tbl (pending tbl txn [row]) rows.
Proof.
  simpl. destruct (stored row) as [q |]; auto.
  destruct (has_id (q_id q) (tbl ++ txn)); reflexivity.
Qed.

Lemma for_each_insert_returns rows : forall s s',
  for_each rows insert_row s = (Return tt, s') ->
  table s' = table s /\ txn s' = pending (table s) (txn s) rows
  /\ forallb acceptable rows = true.
Proof.
  induction rows as [| row rows IH]; intros s s' H.
  - injection H as <-. auto.
  - cbn [for_each] in H. unfold bind in H.
    destruct (insert_row row s) as [[[] | e] s1] eqn:E1; try discriminate.
    apply insert_row_returns in E1. destruct E1 as (Ht1 & Hx1 & Ha1).
    apply IH in H. destruct H as (Ht & Hx & Ha).
    rewrite pending_cons, <- Hx1, <- Ht1. cbn [forallb]. rewrite Ha1, Ha. auto.
Qed.

Lemma schema_statement_returns (s s' : Sink.t quote_row) :
  execute (fun s0 => Return s0) s = (Return tt, s') ->
  table s' = table s /\ txn s' = txn s.
Proof.
  unfold execute. destruct (cursor s); try discriminate.
  destruct (next_fault (with_sent s (S (sent s)))) as [[] s1] eqn:E1; try discriminate.
  intros H. injection H as <-.
  unfold next_fault in E1. cbn [faults with_sent] in E1.
  destruct (faults s); [injection E1 as <- | injection E1 as _ <-]; auto.
Qed.

Lemma block_returns rows s s' :
  block rows s = (Return tt, s') ->
  txn s' = pending (table s) (txn s) (Pandas.iterrows rows)
  /\ forallb acceptable (Pandas.iterrows rows) = true.
Proof.
  unfold block, bind, create_table_query, alter_table_query.
  destruct (execute _ s) as [[[] | e] s1] eqn:E1; try discriminate.
  destruct (execute _ s1) as [[[] | e] s2] eqn:E2; try discriminate.
  apply schema_statement_returns in E1, E2.
  destruct E1 as [Ht1 Hx1]. destruct E2 as [Ht2 Hx2].
  intros H. apply for_each_insert_returns in H. destruct H as (_ & Hx & Ha).
  rewrite Hx, Ht2, Hx2, Ht1, Hx1. auto.
Qed.

(** The table after [load_data]: what it was, or what it was followed by
    the new rows of the whole batch. *)
Lemma load_data_all_or_nothing df s :
  table (snd (load_data df (new_frame s))) = table s
  \/ (exists rows, df = Some rows
        /\ forallb acceptable (Pandas.iterrows rows) = true
        /\ fst (load_data df (new_frame s)) = Return tt
        /\ table (snd (load_data df (new_frame s)))
             = table s ++ pending (table s) [] (Pandas.iterrows rows)).
Proof.
  destruct df as [rows |]; [| left; reflexivity].
  unfold load_data. destruct (empty rows) eqn:He; [left; reflexivity |].
  unfold try_finally, try_except.
  pose proof (load_body_block rows (new_frame s)) as Eb.
  pose proof (connected_block _ (block rows) s (keeps_block rows)) as Hb.
  cbv zeta in Hb. rewrite <- Eb in Hb.
  pose proof (connected_block_commits _ (block rows) s) as Hc.
  rewrite <- Eb in Hc.
  destruct (load_body rows (new_frame s)) as [[[] | e] s1]; cbn [fst snd] in *.
  - right. exists rows.
    destruct (Hc s1 (keeps_block rows) eq_refl)
      as (s0 & s2 & Ht0 & Hx0 & Hu0 & _ & _ & Em & Ht & Hx & Hcn & Hcu).
    apply block_returns in Em. destruct Em as [Em Ha].
    rewrite Ht0, Hx0 in Em.
    pose proof (closing_table _ s1) as Hf.
    unfold bind, cursor_close, close in *. rewrite Hcu in *. cbn [fst snd] in *.
    cbn [conn with_cursor] in *. rewrite Hcn in *. cbn [fst snd] in *.
    split; [reflexivity |]. split; [exact Ha |]. split; [reflexivity |].
    rewrite Hf, Ht, Em. reflexivity.
  - left. cbn [Exception].
    assert (Ht : table s1 = table s).
    { destruct Hb as [(_ & _ & _ & _ & Ht) | (_ & _ & _ & Hr & _)]; auto. }
    pose proof (rollback_table _ s1) as Hr.
    destruct (rollback s1) as [o s2]. cbn [snd] in Hr.
    pose proof (closing_table _ s2) as Hf.
    destruct (bind cursor_close (fun _ => close) s2) as [[[] | e'] s3];
      cbn [snd] in *; congruence.
Qed.

End QuotesCommitFacts.

Module HealthcareCommitFacts.
Import Sink Airflow Healthcare HealthcareVocabulary TransformVocabulary.
Import SinkFacts HealthcareFacts CommitFacts TransformFacts.

(** Every record the transformer builds has the seventeen columns of the
    table, in the order of the INSERT. *)
Lemma record_of_columns item record :
  record_of item = Return record ->
  exists d, record = PDict d /\ map fst d = columns.
Proof.
  unfold record_of.
  repeat match goal with
         | |- obind ?o _ = Return _ -> _ =>
             destruct o; cbn [obind]; [| discriminate]
         end.
  intros H. injection H as <-. eexists. split; reflexivity.
Qed.

Lemma kept_columns raw record :
  In record (kept raw) -> exists d, record = PDict d /\ map fst d = columns.
Proof.
  intros H. apply kept_In in H. destruct H as (item & _ & H).
  eapply record_of_columns; eauto.
Qed.

Lemma columns_NoDup : NoDup columns.
Proof.
  unfold columns.
  repeat (constructor;
          [cbn [In]; intros H;
           repeat (destruct H as [H | H]; [discriminate H |]); exact H |]).
  constructor.
Qed.

(** Records with the columns of the table are read back as a frame of
    these columns: one tuple of the statement's width for each record. *)
Lemma data_tuples_of_columns records :
  (forall r, In r records -> exists d, r = PDict d /\ map fst d = columns) ->
  read_tuples (PList records) = Return (data_tuples_of records)
  /\ List.length (data_tuples_of records) = List.length records
  /\ forallb fits (data_tuples_of records) = true.
Proof.
  intros H. split; [| split].
  - unfold read_tuples, read_json.
    replace (forallb Pandas.is_record records) with true; [reflexivity |].
    symmetry. apply forallb_forall. intros r Hr.
    destruct (H r Hr) as (d & -> & _). reflexivity.
  - unfold data_tuples_of. rewrite length_map, length_seq. reflexivity.
  - destruct records as [| r0 rest] eqn:E; [reflexivity |]. rewrite <- E in *.
    assert (Hc : Pandas.columns records = columns).
    { apply PandasFacts.columns_same.
      - apply columns_NoDup.
      - rewrite E. discriminate.
      - intros r Hr. destruct (H r Hr) as (d & -> & Hd). exact Hd. }
    unfold data_tuples_of. rewrite Hc. apply forallb_forall.
    intros x Hx. apply in_map_iff in Hx. destruct Hx as (i & <- & _).
    reflexivity.
Qed.

Lemma data_tuples_of_kept raw :
  read_tuples (PList (kept raw)) = Return (data_tuples_of (kept raw))
  /\ List.length (data_tuples_of (kept raw)) = List.length (kept raw)
  /\ forallb fits (data_tuples_of (kept raw)) = true.
Proof. apply data_tuples_of_columns. intros r. apply kept_columns. Qed.

(** Pages *)

Lemma paginate_aux_concat {A} n : forall fuel (l : list A),
  n <> 0%nat -> (List.length l <= fuel)%nat ->
  List.concat (paginate_aux fuel n l) = l.
Proof.
  induction fuel as [| fuel IH]; intros l Hn Hl.
  - destruct l; [reflexivity | simpl in Hl; lia].
  - destruct l as [| a l]; [reflexivity |].
    cbn [paginate_aux List.concat].
    rewrite IH; [apply firstn_skipn | exact Hn |].
    rewrite length_skipn. cbn [List.length] in *. lia.
Qed.

Lemma paginate_concat {A} n (l : list A) :
  n <> 0%nat -> List.concat (paginate n l) = l.
Proof.
  intros Hn. apply paginate_aux_concat; auto.
Qed.

Lemma insert_page_returns page : forall s s',
  insert_page page s = Return s' ->
  table s' = table s /\ txn s' = txn s ++ page /\ forallb fits page = true.
Proof.
  induction page as [| x page IH]; intros s s' H.
  - injection H as <-. rewrite app_nil_r. auto.
  - cbn [insert_page] in H. unfold insert_sql in H. cbn [forallb]. unfold fits at 1.
    destruct (Nat.eqb (List.length x) 17); [| discriminate].
    cbn [obind] in H. apply IH in H. destruct H as (Ht & Hx & Hf).
    cbn [table txn with_txn] in *. rewrite Hx, <- app_assoc. auto.
Qed.

Lemma pages_return pages : forall s s',
  for_each pages (fun page => execute (insert_page page)) s = (Return tt, s') ->
  table s' = table s /\ txn s' = txn s ++ List.concat pages
  /\ forallb fits (List.concat pages) = true.
Proof.
  induction pages as [| page pages IH]; intros s s' H.
  - injection H as <-. rewrite app_nil_r. auto.
  - cbn [for_each] in H. unfold bind in H.
    destruct (execute (insert_page page) s) as [[[] | e] s1] eqn:E1; try discriminate.
    unfold execute in E1. destruct (cursor s); try discriminate.
    destruct (next_fault (with_sent s (S (sent s)))) as [[] s0] eqn:E0; try discriminate.
    assert (Hs0 : table s0 = table s /\ txn s0 = txn s).
    { unfold next_fault in E0. cbn [faults with_sent] in E0.
      destruct (faults s); [injection E0 as <- | injection E0 as _ <-]; auto. }
    destruct (insert_page page s0) as [s2 |] eqn:E2; try discriminate.
    injection E1 as <-. apply insert_page_returns in E2.
    destruct E2 as (Ht2 & Hx2 & Hf2). destruct Hs0 as [Ht0 Hx0].
    apply IH in H. destruct H as (Ht & Hx & Hf).
    cbn [List.concat]. rewrite forallb_app, Hf2, Hf, Hx, Hx2, Hx0, Ht, Ht2, Ht0, app_assoc.
    auto.
Qed.

Lemma execute_batch_returns argslist s s' :
  execute_batch argslist 100 s = (Return tt, s') ->
  txn s' = txn s ++ argslist /\ forallb fits argslist = true.
Proof.
  unfold execute_batch. intros H. apply pages_return in H.
  rewrite paginate_concat in H by discriminate. tauto.
Qed.

(** The table after [load_to_postgres]: what it was, or what it was
    followed by every row of the batch. *)
Lemma healthcare_load_all_or_nothing kw s :
  table (snd (load_to_postgres kw (new_frame s))) = table s
  \/ (exists data_tuples,
        read_tuples (XCom.pull (ti kw) "transform_data" "transformed_data")
          = Return data_tuples
        /\ forallb fits data_tuples = true
        /\ fst (load_to_postgres kw (new_frame s)) = Return tt
        /\ table (snd (load_to_postgres kw (new_frame s))) = table s ++ data_tuples).
Proof.
  unfold load_to_postgres, try_finally, try_except.
  pose proof (load_body_read kw (new_frame s)) as Eb.
  destruct (read_tuples _) as [data_tuples | e0] eqn:Er.
  2: { rewrite Eb. left. reflexivity. }
  pose proof (connected_block _ (execute_batch data_tuples 100) s
                (keeps_execute_batch _ _)) as Hb.
  cbv zeta in Hb. rewrite <- Eb in Hb.
  pose proof (connected_block_commits _ (execute_batch data_tuples 100) s) as Hc.
  rewrite <- Eb in Hc.
  destruct (load_body kw (new_frame s)) as [[[] | e] s1]; cbn [fst snd] in *.
  - right. exists data_tuples.
    destruct (Hc s1 (keeps_execute_batch _ _) eq_refl)
      as (s0 & s2 & Ht0 & Hx0 & Hu0 & _ & _ & Em & Ht & Hx & Hcn & Hcu).
    apply execute_batch_returns in Em. destruct Em as [Em Hf].
    rewrite Hx0 in Em. cbn [app] in Em.
    pose proof (closing_table _ s1) as Hfin.
    unfold bind, cursor_close, close in *. rewrite Hcu in *. cbn [fst snd] in *.
    cbn [conn with_cursor] in *. rewrite Hcn in *. cbn [fst snd] in *.
    split; [reflexivity |]. split; [exact Hf |]. split; [reflexivity |].
    rewrite Hfin, Ht, Em. reflexivity.
  - left. cbn [Exception].
    assert (Ht : table s1 = table s).
    { destruct Hb as [(_ & _ & _ & _ & Ht) | (_ & _ & _ & Hr & _)]; auto. }
    assert (Hr : table (snd (bind rollback (fun _ => @throw _ unit e) s1)) = table s1).
    { unfold bind, throw. pose proof (rollback_table _ s1) as Hr.
      destruct (rollback s1) as [[[] | e'] s2]; exact Hr. }
    destruct (bind rollback (fun _ => @throw _ unit e) s1) as [o s2]. cbn [snd] in Hr.
    pose proof (closing_table _ s2) as Hf.
    destruct (bind cursor_close (fun _ => close) s2) as [[[] | e''] s3];
      cbn [snd] in *; congruence.
Qed.

(** The tuples that were read are those of the frame of a document that
    is a list of objects. *)
Lemma read_tuples_returns transformed_data data_tuples :
  read_tuples transformed_data = Return data_tuples ->
  exists records,
    transformed_data = PList records
    /\ forallb is_dict records = true
    /\ data_tuples = data_tuples_of records.
Proof.
  unfold read_tuples, read_json.
  destruct transformed_data as [| | | | | records | |]; try discriminate.
  destruct (forallb Pandas.is_record records) eqn:E; [| discriminate].
  cbn [obind]. intros H. injection H as <-. exists records. auto.
Qed.

Lemma read_tuples_objects records :
  forallb is_dict records = true ->
  read_tuples (PList records) = Return (data_tuples_of records).
Proof.
  intros H. unfold read_tuples, read_json.
  change (forallb Pandas.is_record records) with (forallb is_dict records).
  rewrite H. reflexivity.
Qed.

(** The frame is rectangular: every tuple has one cell for each column. *)
Lemma data_tuples_of_width records x :
  In x (data_tuples_of records) ->
  List.length x = List.length (Pandas.columns records).
Proof.
  unfold data_tuples_of. intros H. apply in_map_iff in H.
  destruct H as (i & <- & _). apply length_map.
Qed.

Lemma data_tuples_of_length records :
  List.length (data_tuples_of records) = List.length records.
Proof. unfold data_tuples_of. rewrite length_map, length_seq. reflexivity. Qed.

(** [load_to_postgres] returns normally only after it has read the
    tuples, sent every one of them and committed them. *)
Lemma healthcare_load_returns kw s :
  fst (load_to_postgres kw (new_frame s)) = Return tt ->
  exists data_tuples,
    read_tuples (XCom.pull (ti kw) "transform_data" "transformed_data")
      = Return data_tuples
    /\ forallb fits data_tuples = true
    /\ table (snd (load_to_postgres kw (new_frame s))) = table s ++ data_tuples.
Proof.
  intros H.
  pose proof (proj2 (proj2 (load_to_postgres_outcome kw s))) as Hraise.
  revert H Hraise.
  unfold load_to_postgres, try_finally, try_except.
  pose proof (load_body_read kw (new_frame s)) as Eb.
  destruct (read_tuples _) as [data_tuples | e0] eqn:Er.
  2: { rewrite Eb. cbn. discriminate. }
  pose proof (connected_block_commits _ (execute_batch data_tuples 100) s) as Hc.
  rewrite <- Eb in Hc.
  destruct (load_body kw (new_frame s)) as [[[] | e] s1]; cbn [fst snd] in *.
  - intros _ _. exists data_tuples.
    destruct (Hc s1 (keeps_execute_batch _ _) eq_refl)
      as (s0 & s2 & Ht0 & Hx0 & Hu0 & _ & _ & Em & Ht & Hx & Hcn & Hcu).
    apply execute_batch_returns in Em. destruct Em as [Em Hf].
    rewrite Hx0 in Em. cbn [app] in Em.
    pose proof (closing_table _ s1) as Hfin.
    unfold bind, cursor_close, close in *. rewrite Hcu in *. cbn [fst snd] in *.
    cbn [conn with_cursor] in *. rewrite Hcn in *. cbn [fst snd] in *.
    split; [reflexivity |]. split; [exact Hf |].
    rewrite Hfin, Ht, Em. reflexivity.
  - intros H Hraise. specialize (Hraise eq_refl). rewrite H in Hraise. discriminate.
Qed.

(** Without a connection the handler and the [finally] block trip over the
    unassigned variables. *)
Lemma load_to_postgres_without_connection kw s :
  raises (read_tuples_of kw) = false ->
  fst (next_fault (new_frame s)) = true ->
  fst (load_to_postgres kw (new_frame s)) = Raise UnboundLocalError
  /\ table (snd (load_to_postgres kw (new_frame s))) = table s.
Proof.
  unfold read_tuples_of. intros Hr Hf.
  unfold load_to_postgres, try_finally, try_except.
  pose proof (load_body_read kw (new_frame s)) as Eb.
  destruct (read_tuples _) as [data_tuples | e0]; [| discriminate].
  pose proof (connected_block _ (execute_batch data_tuples 100) s
                (keeps_execute_batch _ _)) as Hb.
  cbv zeta in Hb. rewrite <- Eb in Hb.
  destruct (load_body kw (new_frame s)) as [o s1]; cbn [fst snd] in *.
  destruct Hb as [(_ & Ho & Hc & Hu & Ht) | (Hf' & _)]; [| congruence].
  destruct o as [| e]; [discriminate |]. cbn [Exception].
  unfold bind, rollback, cursor_close. rewrite Hc. cbn. rewrite Hu. cbn. auto.
Qed.

End HealthcareCommitFacts.

Module HealthcareCalmFacts.
Import Sink Airflow Healthcare HealthcareVocabulary TransformVocabulary.
Import SinkFacts HealthcareFacts CommitFacts TransformFacts HealthcareCommitFacts.

Lemma insert_page_calm page : forall s,
  forallb fits page = true ->
  insert_page page s = Return (with_txn s (txn s ++ page)).
Proof.
  induction page as [| x page IH]; intros s H.
  - cbn [insert_page]. rewrite app_nil_r. destruct s; reflexivity.
  - cbn [forallb] in H. apply andb_true_iff in H. destruct H as [Hx H].
    cbn [insert_page]. unfold insert_sql. unfold fits in Hx. rewrite Hx.
    cbn [obind]. rewrite IH by exact H.
    cbn [txn with_txn]. rewrite <- app_assoc. destruct s; reflexivity.
Qed.

Lemma pages_calm pages : forall s,
  forallb fits (List.concat pages) = true -> cursor s = Open -> faults s = [] ->
  for_each pages (fun page => execute (insert_page page)) s =
    (Return tt,
     with_txn (with_sent s (sent s + List.length pages)%nat)
       (txn s ++ List.concat pages)).
Proof.
  induction pages as [| page pages IH]; intros s Hf Hc Hp.
  - cbn. unfold ret. rewrite Nat.add_0_r, app_nil_r. destruct s; reflexivity.
  - cbn [List.concat] in Hf. rewrite forallb_app in Hf.
    apply andb_true_iff in Hf. destruct Hf as [Hf1 Hf2].
    cbn [for_each]. unfold bind, execute at 1, next_fault. rewrite Hc.
    cbn [faults with_sent]. rewrite Hp.
    rewrite insert_page_calm by exact Hf1.
    rewrite IH by (cbn; auto).
    cbn [List.concat List.length]. destruct s as [tb tx cn cu fl se cl n].
    cbn. rewrite <- app_assoc, Nat.add_succ_r. reflexivity.
Qed.

Lemma healthcare_load_calm kw data_tuples s :
  read_tuples (XCom.pull (ti kw) "transform_data" "transformed_data")
    = Return data_tuples ->
  forallb fits data_tuples = true ->
  faults s = [] ->
  load_to_postgres kw (new_frame s) =
    (Return tt,
     mk _ (table s ++ data_tuples) [] Closed Closed [] (serial s) (clock s)
       (sent s + List.length (paginate 100 data_tuples))%nat).
Proof.
  intros Hr Hf Hp. unfold load_to_postgres, try_finally, try_except.
  rewrite load_body_read, Hr.
  unfold bind, connect, next_fault, new_frame. simpl. rewrite Hp. simpl.
  unfold execute_batch.
  rewrite pages_calm by (rewrite ?paginate_concat by discriminate; cbn; auto).
  rewrite paginate_concat by discriminate.
  cbv [commit cursor_close close next_fault with_txn with_conn with_cursor
       with_table with_sent table txn conn cursor faults serial clock sent Exception].
  destruct s as [tb tx cn cu fl se cl n]. reflexivity.
Qed.

End HealthcareCalmFacts.

Module CryptoCommitFacts.
Import Sink Airflow Crypto AppendVocabulary.
Import SinkFacts CryptoFacts CommitFacts AppendFacts.

Lemma insert_crypto_returns crypto s s' :
  insert_crypto crypto s = (Return tt, s') ->
  table s' = table s /\ clock s' = clock s
  /\ txn s' = txn s ++ price_rows (clock s) [crypto]
  /\ complete [crypto] = true.
Proof.
  unfold insert_crypto, bind, lift, complete. cbn [price_rows forallb]. unfold priced.
  destruct (getitem crypto "symbol") as [a |]; [| discriminate].
  destruct (getitem crypto "price_usd") as [b |]; [| discriminate].
  destruct (getitem crypto "change_24h") as [c |]; [| discriminate].
  unfold execute. destruct (cursor s); try discriminate.
  destruct (next_fault (with_sent s (S (sent s)))) as [[] s1] eqn:E1; try discriminate.
  assert (Hs1 : table s1 = table s /\ txn s1 = txn s /\ clock s1 = clock s).
  { unfold next_fault in E1. cbn [faults with_sent] in E1.
    destruct (faults s); [injection E1 as <- | injection E1 as _ <-]; auto. }
  destruct Hs1 as (Ht & Hx & Hk).
  unfold insert_query. intros H. injection H as <-.
  cbn [table txn clock with_txn]. rewrite Ht, Hx, Hk. auto.
Qed.

Lemma for_each_insert_crypto_returns items : forall s s',
  for_each items insert_crypto s = (Return tt, s') ->
  table s' = table s /\ clock s' = clock s
  /\ txn s' = txn s ++ price_rows (clock s) items
  /\ complete items = true.
Proof.
  induction items as [| crypto items IH]; intros s s' H.
  - injection H as <-. rewrite app_nil_r. auto.
  - cbn [for_each] in H. unfold bind in H.
    destruct (insert_crypto crypto s) as [[[] | e] s1] eqn:E1; try discriminate.
    apply insert_crypto_returns in E1. destruct E1 as (Ht1 & Hk1 & Hx1 & Hc1).
    apply IH in H. destruct H as (Ht & Hk & Hx & Hc).
    unfold complete in *. cbn [forallb price_rows] in *.
    destruct (priced crypto) as [[[a b] c] |]; [| discriminate].
    rewrite Hx, Hx1, Hk1, Hk, Ht, Ht1, Hc, <- app_assoc. auto.
Qed.

(** The table after [insert_into_postgres]: what it was, or what it was
    followed by a row for every record of the batch. *)
Lemma insert_into_postgres_all_or_nothing kw s :
  table (snd (insert_into_postgres kw (new_frame s))) = table s
  \/ (exists items,
        iter (XCom.pull (ti kw) "fetch_crypto_prices" "return_value") = Return items
        /\ complete items = true
        /\ fst (insert_into_postgres kw (new_frame s)) = Return tt
        /\ table (snd (insert_into_postgres kw (new_frame s)))
             = table s ++ price_rows (clock s) items).
Proof.
  destruct (truthy (XCom.pull (ti kw) "fetch_crypto_prices" "return_value")) eqn:Et.
  2: { left. unfold insert_into_postgres. rewrite Et. reflexivity. }
  rewrite (insert_into_postgres_block kw _ Et).
  set (data := XCom.pull (ti kw) "fetch_crypto_prices" "return_value") in *.
  pose proof (connected_block _ (inserts data) s (keeps_inserts _)) as Hb.
  pose proof (connected_block_commits _ (inserts data) s) as Hc.
  cbv zeta in Hb.
  set (body := connect ;; get_cursor ;; inserts data ;; commit) in *.
  destruct (body (new_frame s)) as [[[] | e] s1] eqn:Eb;
    unfold bind; rewrite Eb; cbn [fst snd] in *.
  - right.
    destruct (Hc s1 (keeps_inserts _) eq_refl)
      as (s0 & s2 & Ht0 & Hx0 & Hu0 & Hk0 & _ & Em & Ht & Hx & Hcn & Hcu).
    unfold inserts, bind at 1, lift in Em.
    destruct (iter data) as [items |]; [| discriminate].
    apply for_each_insert_crypto_returns in Em. destruct Em as (_ & _ & Em & Hcm).
    rewrite Hx0, Hk0 in Em. cbn [app] in Em.
    exists items.
    pose proof (closing_table _ s1) as Hfin.
    unfold bind, cursor_close, close in *. rewrite Hcu in *. cbn [fst snd] in *.
    cbn [conn with_cursor] in *. rewrite Hcn in *. cbn [fst snd] in *.
    split; [reflexivity |]. split; [exact Hcm |]. split; [reflexivity |].
    rewrite Hfin, Ht, Em. reflexivity.
  - left. destruct Hb as [(_ & _ & _ & _ & Ht) | (_ & _ & _ & Hr & _)]; auto.
Qed.

(** [insert_into_postgres] returns normally only when it was given data,
    could read the three fields of every record, and committed a row for
    each. *)
Lemma insert_into_postgres_returns kw s :
  fst (insert_into_postgres kw (new_frame s)) = Return tt ->
  truthy (XCom.pull (ti kw) "fetch_crypto_prices" "return_value") = true
  /\ exists items,
       iter (XCom.pull (ti kw) "fetch_crypto_prices" "return_value") = Return items
       /\ complete items = true
       /\ table (snd (insert_into_postgres kw (new_frame s)))
            = table s ++ price_rows (clock s) items.
Proof.
  destruct (truthy (XCom.pull (ti kw) "fetch_crypto_prices" "return_value")) eqn:Et.
  2: { unfold insert_into_postgres. rewrite Et. cbn. discriminate. }
  intros H. split; [reflexivity |]. revert H.
  rewrite (insert_into_postgres_block kw _ Et).
  set (data := XCom.pull (ti kw) "fetch_crypto_prices" "return_value") in *.
  pose proof (connected_block_commits _ (inserts data) s) as Hc.
  set (body := connect ;; get_cursor ;; inserts data ;; commit) in *.
  destruct (body (new_frame s)) as [[[] | e] s1] eqn:Eb;
    unfold bind; rewrite Eb; cbn [fst snd] in *; [| discriminate].
  intros _.
  destruct (Hc s1 (keeps_inserts _) eq_refl)
    as (s0 & s2 & Ht0 & Hx0 & Hu0 & Hk0 & _ & Em & Ht & Hx & Hcn & Hcu).
  unfold inserts, bind at 1, lift in Em.
  destruct (iter data) as [items |]; [| discriminate].
  apply for_each_insert_crypto_returns in Em. destruct Em as (_ & _ & Em & Hcm).
  rewrite Hx0, Hk0 in Em. cbn [app] in Em.
  exists items.
  pose proof (closing_table _ s1) as Hfin.
  unfold bind, cursor_close, close in *. rewrite Hcu in *. cbn [fst snd] in *.
  cbn [conn with_cursor] in *. rewrite Hcn in *. cbn [fst snd] in *.
  split; [reflexivity |]. split; [exact Hcm |].
  rewrite Hfin, Ht, Em. reflexivity.
Qed.

End CryptoCommitFacts.

Module SelfConfidenceFacts.
Import Sink SelfConfidence SelfConfidenceVocabulary SinkFacts CommitFacts.

Lemma keeps_statements data : keeps (statements data).
Proof.
  unfold statements.
  apply keeps_bind; [apply keeps_execute; intros s s' E; injection E as <-; repeat split |].
  intros _. repeat (apply keeps_bind; [apply keeps_lift | intros ?]).
  apply keeps_execute. intros s s' E. injection E as <-. repeat split.
Qed.

Lemma confidence_load_block ti s :
  load_to_postgres ti s =
    ((connect ;; get_cursor ;;
      statements (XCom.pull ti "fetch_quote" "quote_data") ;; commit) ;;
     cursor_close ;; close) s.
Proof.
  unfold load_to_postgres, statements, bind, lift.
  destruct (connect s) as [[[] | e] s1]; auto.
  destruct (get_cursor s1) as [[[] | e] s2]; auto.
  destruct (execute create_table s2) as [[[] | e] s3]; auto.
  destruct (getitem _ "quote") as [q |]; auto.
  destruct (getitem _ "author") as [a |]; auto.
  destruct (getitem _ "type") as [t |]; auto.
  destruct (execute (insert_query q a t) s3) as [[[] | e] s4]; auto.
Qed.

Lemma statements_return data s s' :
  statements data s = (Return tt, s') ->
  exists q a t,
    getitem data "quote" = Return q /\ getitem data "author" = Return a
    /\ getitem data "type" = Return t
    /\ txn s' = txn s ++ [mkRow (serial s) q a t].
Proof.
  unfold statements, bind, lift.
  destruct (execute create_table s) as [[[] | e] s1] eqn:E1; try discriminate.
  apply execute_returns in E1.
  destruct E1 as (s0 & Ht0 & Hx0 & Hs0 & _ & _ & _ & E1).
  unfold create_table in E1. injection E1 as <-.
  destruct (getitem data "quote") as [q |]; [| discriminate].
  destruct (getitem data "author") as [a |]; [| discriminate].
  destruct (getitem data "type") as [t |]; [| discriminate].
  intros H. apply execute_returns in H.
  destruct H as (s2 & Ht2 & Hx2 & Hs2 & _ & _ & _ & E2).
  unfold insert_query in E2. injection E2 as <-.
  exists q, a, t. cbn [txn with_txn with_serial]. rewrite Hx2, Hs2, Hx0, Hs0. auto.
Qed.

(** The table after [load_to_postgres]: what it was, or what it was
    followed by one row, whose id is the next value of the sequence. *)
Lemma confidence_load_all_or_nothing ti s :
  table (snd (load_to_postgres ti (new_frame s))) = table s
  \/ (exists q a t,
        getitem (XCom.pull ti "fetch_quote" "quote_data") "quote" = Return q
        /\ getitem (XCom.pull ti "fetch_quote" "quote_data") "author" = Return a
        /\ getitem (XCom.pull ti "fetch_quote" "quote_data") "type" = Return t
        /\ fst (load_to_postgres ti (new_frame s)) = Return tt
        /\ table (snd (load_to_postgres ti (new_frame s)))
             = table s ++ [mkRow (serial s) q a t]).
Proof.
  rewrite confidence_load_block.
  set (data := XCom.pull ti "fetch_quote" "quote_data") in *.
  pose proof (connected_block _ (statements data) s (keeps_statements _)) as Hb.
  pose proof (connected_block_commits _ (statements data) s) as Hc.
  cbv zeta in Hb.
  set (body := connect ;; get_cursor ;; statements data ;; commit) in *.
  destruct (body (new_frame s)) as [[[] | e] s1] eqn:Eb;
    unfold bind; rewrite Eb; cbn [fst snd] in *.
  - right.
    destruct (Hc s1 (keeps_statements _) eq_refl)
      as (s0 & s2 & Ht0 & Hx0 & Hu0 & _ & Hs0 & Em & Ht & Hx & Hcn & Hcu).
    apply statements_return in Em. destruct Em as (q & a & t & Hq & Ha & Hty & Em).
    rewrite Hx0, Hs0 in Em. cbn [app] in Em.
    exists q, a, t.
    pose proof (closing_table _ s1) as Hfin.
    unfold bind, cursor_close, close in *. rewrite Hcu in *. cbn [fst snd] in *.
    cbn [conn with_cursor] in *. rewrite Hcn in *. cbn [fst snd] in *.
    repeat (split; [assumption || reflexivity |]).
    rewrite Hfin, Ht, Em. reflexivity.
  - left. destruct Hb as [(_ & _ & _ & _ & Ht) | (_ & _ & _ & Hr & _)]; auto.
Qed.

(** Every failing exit leaves the connection as the failure found it:
    never closed. *)
Lemma confidence_load_failure ti s :
  raises (fst (load_to_postgres ti (new_frame s))) = true ->
  conn (snd (load_to_postgres ti (new_frame s))) <> Closed
  /\ (fst (next_fault (new_frame s)) = false ->
      conn (snd (load_to_postgres ti (new_frame s))) = Open).
Proof.
  rewrite confidence_load_block.
  set (data := XCom.pull ti "fetch_quote" "quote_data") in *.
  pose proof (connected_block _ (statements data) s (keeps_statements _)) as H.
  cbv zeta in H.
  set (body := connect ;; get_cursor ;; statements data ;; commit) in *.
  destruct (body (new_frame s)) as [o s1] eqn:Eb.
  unfold bind. rewrite Eb. cbn [fst snd] in *.
  destruct H as [(Hf & Hr & Hc & Hu & Ht) | (Hf & Hc & Hu & Hr & Hk)].
  - destruct o as [| e]; [discriminate |]. cbn. intros _.
    rewrite Hc, Hf. split; discriminate.
  - destruct o as [[] | e]; cbn.
    + unfold cursor_close, close. rewrite Hu. cbn. rewrite Hc. cbn. discriminate.
    + intros _. rewrite Hc. split; [discriminate | auto].
Qed.

(** The load returns only if the pulled value has the three fields. *)
Lemma confidence_load_returns ti s :
  fst (load_to_postgres ti (new_frame s)) = Return tt ->
  exists q a t,
    getitem (XCom.pull ti "fetch_quote" "quote_data") "quote" = Return q
    /\ getitem (XCom.pull ti "fetch_quote" "quote_data") "author" = Return a
    /\ getitem (XCom.pull ti "fetch_quote" "quote_data") "type" = Return t.
Proof.
  rewrite confidence_load_block.
  set (data := XCom.pull ti "fetch_quote" "quote_data") in *.
  pose proof (connected_block_commits _ (statements data) s) as Hc.
  set (body := connect ;; get_cursor ;; statements data ;; commit) in *.
  destruct (body (new_frame s)) as [[[] | e] s1] eqn:Eb;
    unfold bind; rewrite Eb; cbn [fst snd] in *; [|discriminate].
  intros _.
  destruct (Hc s1 (keeps_statements _) eq_refl)
    as (s0 & s2 & _ & _ & _ & _ & _ & Em & _).
  apply statements_return in Em. destruct Em as (q & a & t & Hq & Ha & Hty & _).
  exists q, a, t. auto.
Qed.

End SelfConfidenceFacts.

Module PipelineFacts.
Import Requests Airflow Sink.
Import FetchVocabulary TransformVocabulary QuotesVocabulary AppendVocabulary
       HealthcareVocabulary PipelineVocabulary.
Import SinkFacts FetchFacts TransformFacts QuotesFacts AppendFacts.
Import CommitFacts QuotesCommitFacts HealthcareCommitFacts HealthcareCalmFacts
       CryptoCommitFacts.

(** *** quotes.fetch_quote *)

Lemma get_raises v k default e :
  Py.get v k default = Raise e -> e = AttributeError.
Proof. destruct v; simpl; intros H; try discriminate; injection H as <-; reflexivity. Qed.

Lemma all_str_raises l e : all_str l = Raise e -> e = TypeError.
Proof.
  induction l as [| v l IH]; [discriminate |].
  destruct v; simpl; try (intros H; injection H as <-; reflexivity).
  destruct (all_str l); simpl; [discriminate | intros H; injection H as <-; auto].
Qed.

Lemma join_raises sep v e : join sep v = Raise e -> e = TypeError.
Proof.
  unfold join. destruct (iter v) as [l |] eqn:Ei; simpl.
  - destruct (all_str l) eqn:Ea; simpl; [discriminate |].
    intros H. injection H as <-. eapply all_str_raises; eauto.
  - intros H. injection H as <-. destruct v; simpl in Ei; try discriminate;
      injection Ei as <-; reflexivity.
Qed.

(** With a readable body and an accepted status, [fetch_quote] is the
    dict display alone. *)
Lemma fetch_quote_object st d :
  bad_status st = false ->
  Quotes.fetch_quote (Answer st (Some (PDict d))) =
    (let? author := Py.get (originator d) "name" (PStr "Unknown") in
     let? tags := join ", " (list_field "tags" d) in
     Return (quote_of d author tags)).
Proof.
  intros Hs. unfold Quotes.fetch_quote, bad_status in *.
  cbn [Requests.get obind]. unfold raise_for_status. cbn [status_code]. rewrite Hs.
  cbn [obind json body Py.get]. unfold py_or, quote_of, field, originator, list_field.
  destruct (truthy match lookup "id" d with Some x => x | None => PNone end);
    cbn [obind Py.get];
    (destruct (Py.get _ "name" (PStr "Unknown")) as [a | e] eqn:Ea; cbn [obind otry];
     [| rewrite (get_raises _ _ _ _ Ea); reflexivity]);
    (destruct (join ", " _) as [t | e] eqn:Et; cbn [obind otry];
     [reflexivity | rewrite (join_raises _ _ _ Et); reflexivity]).
Qed.

(** What [fetch_quote] lets through: never an exception of the request,
    only the AttributeError and TypeError of the dict display. *)
Lemma fetch_quote_raises net e :
  Quotes.fetch_quote net = Raise e ->
  request_error net = false /\ (e = AttributeError \/ e = TypeError).
Proof.
  intros H. destruct (request_error net) eqn:Er.
  - rewrite (quotes_fetch_request_error net Er) in H. discriminate.
  - split; [reflexivity |].
    destruct net as [| st [data |]]; try discriminate. simpl in Er.
    destruct data as [| | | | | | d |].
    7: { rewrite (fetch_quote_object st d Er) in H.
         destruct (Py.get _ "name" _) as [a | e1] eqn:Ea; cbn [obind] in H.
         - destruct (join ", " _) as [t | e2] eqn:Et; cbn [obind] in H; [discriminate |].
           injection H as <-. right. eapply join_raises; eauto.
         - injection H as <-. left. eapply get_raises; eauto. }
    all: unfold Quotes.fetch_quote, bad_status in *; cbn [Requests.get obind] in H;
      unfold raise_for_status in H; cbn [status_code] in H; rewrite Er in H;
      cbn in H; injection H as <-; auto.
Qed.

Lemma all_str_strings l : raises (all_str l) = negb (forallb is_string l).
Proof.
  induction l as [| v l IH]; [reflexivity |].
  destruct v; try reflexivity. cbn [all_str forallb is_string andb].
  rewrite <- IH. destruct (all_str l); reflexivity.
Qed.

Lemma join_joinable sep v : raises (join sep v) = negb (joinable v).
Proof.
  unfold join. destruct v as [| | | | s | l | d |]; try reflexivity; cbn [iter obind joinable].
  - assert (H : forall cs, exists ss,
               all_str (map (fun c => PStr (String c "")) cs) = Return ss).
    { induction cs as [| c cs [ss E]]; [exists []; reflexivity |].
      cbn [map all_str]. rewrite E. eexists. reflexivity. }
    destruct (H (list_ascii_of_string s)) as [ss ->]. reflexivity.
  - rewrite <- all_str_strings. destruct (all_str l); reflexivity.
  - assert (H : exists ss, all_str (map (fun kv : string * pyval => PStr (fst kv)) d)
                           = Return ss).
    { induction d as [| kv d [ss E]]; [exists []; reflexivity |].
      cbn [map all_str]. rewrite E. eexists. reflexivity. }
    destruct H as [ss ->]. reflexivity.
Qed.

(** With the request through, [fetch_quote] raises exactly on a body that
    has not the expected shape. *)
Lemma fetch_quote_shape st data :
  bad_status st = false ->
  raises (Quotes.fetch_quote (Answer st (Some data))) = negb (shaped data).
Proof.
  intros Hs. destruct data as [| | | | | | d |].
  7: { rewrite (fetch_quote_object st d Hs). unfold shaped, originator, list_field.
       destruct (lookup "originator" d) as [[| | | | | | o |] |]; cbn [Py.get obind];
         try reflexivity;
         (destruct (lookup "tags" d) as [tags |];
          [pose proof (join_joinable ", " tags) as E;
           destruct (join ", " tags), (joinable tags); cbn in E |- *; congruence
          | reflexivity]). }
  all: unfold Quotes.fetch_quote, bad_status in *; cbn [Requests.get obind];
    unfold raise_for_status; cbn [status_code]; rewrite Hs; reflexivity.
Qed.

(** *** quotes: the whole script *)

Lemma fetch_quote_returns net v :
  Quotes.fetch_quote net = Return v ->
  v = PNone \/ exists id content author tags,
                 v = PDict [("id", id); ("content", content);
                            ("author", author); ("tags", PStr tags)].
Proof.
  intros H. destruct (request_error net) eqn:Er.
  - rewrite (quotes_fetch_request_error net Er) in H. injection H as <-. auto.
  - destruct net as [| st [data |]]; try discriminate. simpl in Er.
    destruct data as [| | | | | | d |].
    7: { rewrite (fetch_quote_object st d Er) in H.
         destruct (Py.get _ "name" _) as [a | e1]; cbn [obind] in H; [| discriminate].
         destruct (join ", " _) as [t | e2]; cbn [obind] in H; [| discriminate].
         injection H as <-. right. unfold quote_of. eauto. }
    all: unfold Quotes.fetch_quote, bad_status in *; cbn [Requests.get obind] in H;
      unfold raise_for_status in H; cbn [status_code] in H; rewrite Er in H;
      cbn in H; discriminate.
Qed.

Lemma main_load net s :
  Quotes.main net s =
    match Quotes.fetch_quote net with
    | Raise e => (Raise e, s)
    | Return PNone => (Return tt, s)
    | Return v => Quotes.load_data (Some [v]) s
    end.
Proof.
  unfold Quotes.main, bind, lift.
  destruct (Quotes.fetch_quote net) as [v |] eqn:E; [| reflexivity].
  destruct (fetch_quote_returns net v E) as [-> | (i & c & a & t & ->)]; reflexivity.
Qed.

(** Running the script again *)

Lemma load_data_again v s :
  faults s = [] -> NoDup (ids (table s)) ->
  table (snd (Quotes.load_data (Some [v])
                (new_frame (snd (Quotes.load_data (Some [v]) (new_frame s))))))
    = table (snd (Quotes.load_data (Some [v]) (new_frame s)))
  /\ NoDup (ids (table (snd (Quotes.load_data (Some [v]) (new_frame s))))).
Proof.
  intros Hf Hn. destruct (Quotes.empty [v]) eqn:He.
  { assert (E : forall s0, Quotes.load_data (Some [v]) s0 = (Return tt, s0)).
    { intros s0. unfold Quotes.load_data. rewrite He. reflexivity. }
    rewrite !E. split; [reflexivity | exact Hn]. }
  destruct (forallb acceptable (Pandas.iterrows [v])) eqn:Hall.
  - pose proof (load_data_calm [v] s He Hall Hf) as E1.
    unfold Quotes.dataframe in E1. rewrite E1. cbn [snd].
    match goal with
    | |- context [Quotes.load_data _ (new_frame ?s1)] =>
        pose proof (load_data_calm [v] s1 He Hall eq_refl) as E2
    end.
    unfold Quotes.dataframe in E2. rewrite E2. cbn [snd table].
    set (rows := Pandas.iterrows [v]) in *.
    set (tbl1 := table s ++ pending (table s) [] rows).
    assert (Hno : pending tbl1 [] rows = []).
    { apply pending_noop. intros r q Hin Hs. rewrite app_nil_r.
      apply pending_covers with (row := r); assumption. }
    rewrite Hno, app_nil_r. split; [reflexivity |].
    apply pending_NoDup. rewrite app_nil_r. exact Hn.
  - assert (H1 : forall s0, table (snd (Quotes.load_data (Some [v]) (new_frame s0)))
                            = table s0).
    { intros s0.
      pose proof (load_data_all_or_nothing (Some [v]) s0) as H.
      unfold Quotes.dataframe in H.
      destruct H as [H | (rows & Hr & Hacc & _)]; [exact H |].
      injection Hr as <-. rewrite Hall in Hacc. discriminate. }
    rewrite !H1. auto.
Qed.

Lemma main_again net s :
  faults s = [] -> NoDup (ids (table s)) ->
  table (snd (Quotes.main net (new_frame (snd (Quotes.main net (new_frame s))))))
    = table (snd (Quotes.main net (new_frame s)))
  /\ NoDup (ids (table (snd (Quotes.main net (new_frame s))))).
Proof.
  intros Hf Hn. rewrite !main_load.
  destruct (Quotes.fetch_quote net) as [v | e]; [| auto].
  destruct v; try (apply load_data_again; assumption). auto.
Qed.

(** *** crypto: fetch, then insert *)



(** *** healthcare: fetch, transform, load *)

Lemma fetch_data_list st raw x :
  bad_status st = false ->
  Healthcare.fetch_data (Answer st (Some (PList raw))) x =
    (Return tt, (("fetch_data", "raw_data"), PList raw) :: x).
Proof.
  intros Hs. unfold Healthcare.fetch_data, try_except, bind, lift, bad_status in *.
  cbn. unfold raise_for_status. cbn. rewrite Hs. reflexivity.
Qed.

End PipelineFacts.

Module SchemaFacts.
Import Requests Airflow Sink Healthcare.
Import FetchVocabulary TransformVocabulary HealthcareVocabulary.
Import HealthcareCommitFacts.

(** The records [flatten] returns are those it was given and the records
    of the items. *)
Lemma flatten_records raw : forall acc out,
  flatten raw acc = Return out ->
  forall r, In r out ->
    In r acc \/ exists item, In item raw /\ record_of item = Return r.
Proof.
  induction raw as [|item rest IH]; cbn [flatten]; intros acc out H r Hr.
  - injection H as <-. auto.
  - destruct (record_of item) as [record|e] eqn:E.
    + destruct (IH _ _ H r Hr) as [Hin|(i & Hi & Ei)].
      * apply in_app_or in Hin. destruct Hin as [Hin|[<-|[]]]; auto.
        right. exists item. cbn. auto.
      * right. exists i. cbn. auto.
    + destruct (Py.get item "id" PNone); [|discriminate]. cbn [obind] in H.
      destruct (IH _ _ H r Hr) as [Hin|(i & Hi & Ei)]; auto.
      right. exists i. cbn. auto.
Qed.

(** What [transform_data] pushes when it returns: at least one record,
    and every record has the columns of the table, in the order of the
    INSERT statement. *)
Lemma transform_data_returns kw x x' :
  transform_data kw x = (Return tt, x') ->
  exists records,
    records <> []
    /\ x' = (("transform_data", "transformed_data"), PList records) :: x
    /\ forall r, In r records -> exists d, r = PDict d /\ map fst d = columns.
Proof.
  unfold transform_data, try_except.
  destruct (XCom.pull (ti kw) "fetch_data" "raw_data") as [| | | | |[|item rest]| |];
    try (cbn; discriminate).
  unfold bind, lift.
  destruct (flatten (item :: rest) []) as [[|r0 out]|e] eqn:E;
    try (cbn; discriminate).
  unfold XCom.push. intros [= <-].
  exists (r0 :: out). repeat split; [discriminate|].
  intros r Hr.
  destruct (flatten_records _ _ _ E r Hr) as [[]|(i & _ & Hi)].
  eapply record_of_columns; eauto.
Qed.

(** An item that is no mapping escapes the handler of the inner [try],
    which calls [item.get] itself. *)
Lemma flatten_not_a_dict raw : forall acc,
  forallb is_dict raw = false -> flatten raw acc = Raise AttributeError.
Proof.
  induction raw as [|item rest IH]; cbn [forallb flatten]; intros acc H.
  - discriminate.
  - destruct (is_dict item) eqn:Ed.
    + cbn [andb] in H. destruct item; try discriminate.
      destruct (record_of (PDict d)); [auto|].
      cbn [Py.get obind]. auto.
    + destruct item; try discriminate; reflexivity.
Qed.

End SchemaFacts.

Module PageFacts.
Import Healthcare.

Lemma paginate_aux_length {A} n : forall fuel (l : list A),
  n <> 0%nat -> (List.length l <= fuel)%nat ->
  List.length (paginate_aux fuel n l) = ((List.length l + n - 1) / n)%nat.
Proof.
  induction fuel as [|fuel IH]; intros l Hn Hl.
  - destruct l; [|cbn in Hl; lia]. cbn [paginate_aux List.length].
    symmetry. apply Nat.div_small. lia.
  - destruct l as [|a l].
    + cbn [paginate_aux List.length]. symmetry. apply Nat.div_small. lia.
    + cbn [paginate_aux List.length].
      rewrite IH; [|assumption|].
      2:{ rewrite length_skipn. cbn [List.length] in *. lia. }
      rewrite length_skipn. cbn [List.length].
      destruct (Nat.le_gt_cases n (S (List.length l))) as [Hge|Hlt].
      * replace (S (List.length l) + n - 1)%nat
          with ((S (List.length l) - n + n - 1) + 1 * n)%nat by lia.
        rewrite Nat.div_add by assumption. lia.
      * replace (S (List.length l) - n)%nat with 0%nat by lia.
        rewrite (Nat.div_small (0 + n - 1)) by lia.
        replace (S (List.length l) + n - 1)%nat
          with (List.length l + 1 * n)%nat by lia.
        rewrite Nat.div_add by assumption.
        rewrite (Nat.div_small (List.length l)) by lia. reflexivity.
Qed.

(** A batch goes to the server in pages of [page_size] rows, the last one
    shorter. *)
Lemma paginate_length {A} n (l : list A) :
  n <> 0%nat ->
  List.length (paginate n l) = ((List.length l + n - 1) / n)%nat.
Proof. intros Hn. apply paginate_aux_length; auto. Qed.

End PageFacts.

Module OrderFacts.
Import Airflow Graph OrderVocabulary.

Lemma state_eq_dec (a b : state) : {a = b} + {a <> b}.
Proof. decide equality. Qed.

Lemma upd_same (rs : run_state) id i : upd rs id i id = i.
Proof. unfold upd. now rewrite String.eqb_refl. Qed.

Lemma upd_other (rs : run_state) id i x : x <> id -> upd rs id i x = rs x.
Proof.
  intros H. unfold upd. destruct (String.eqb x id) eqn:E; auto.
  apply String.eqb_eq in E. contradiction.
Qed.

Lemma same_task d t t2 :
  NoDup (ids d) -> In t d -> In t2 d -> task_id t2 = task_id t -> t2 = t.
Proof.
  unfold ids. induction d as [|a d IH]; cbn [map In]; intros N H1 H2 E.
  - contradiction.
  - inversion N as [|? ? Hn N']; subst.
    destruct H1 as [->|H1], H2 as [->|H2]; auto.
    + exfalso. apply Hn. rewrite <- E. now apply in_map.
    + exfalso. apply Hn. rewrite E. now apply in_map.
Qed.

Lemma is_downstream_task d g x :
  is_downstream d g x = true ->
  exists t, In t d /\ task_id t = x /\ In g (upstream t).
Proof.
  unfold is_downstream. intros H.
  apply existsb_exists in H. destruct H as (t & Ht & H).
  apply andb_true_iff in H. destruct H as [H1 H2].
  apply String.eqb_eq in H1.
  apply existsb_exists in H2. destruct H2 as (u & Hu & H2).
  apply String.eqb_eq in H2. subst u.
  exists t. auto.
Qed.

(** A step that starts nothing and changes the state only of tasks that
    had not succeeded keeps the order. *)
Lemma ordered_change d (rs rs' : run_state) :
  ordered d rs ->
  (forall x, tries (rs' x) = tries (rs x)
             /\ (st (rs' x) = st (rs x)
                 \/ (st (rs x) <> Succeeded
                     /\ (ran (st (rs' x)) = true -> started (rs x))))) ->
  ordered d rs'.
Proof.
  intros [O1 O2] H. split.
  - intros t Ht Hs u Hu.
    unfold started in *. rewrite (proj1 (H (task_id t))) in Hs.
    pose proof (O1 t Ht Hs u Hu) as Hup.
    destruct (H u) as [_ [E|[E _]]]; congruence.
  - intros x Hx. unfold started in *.
    destruct (H x) as [Et [E|[_ E]]].
    + rewrite Et. apply O2. now rewrite <- E.
    + rewrite Et. auto.
Qed.

Lemma set_state_change (rs : run_state) id s x :
  tries (set_state rs id s x) = tries (rs x)
  /\ (x <> id -> set_state rs id s x = rs x)
  /\ (x = id -> st (set_state rs id s x) = s).
Proof.
  unfold set_state, upd. destruct (String.eqb x id) eqn:E.
  - apply String.eqb_eq in E. subst. cbn. repeat split; auto. congruence.
  - apply String.eqb_neq in E. repeat split; auto. congruence.
Qed.

Lemma ordered_set_state d (rs : run_state) id s :
  ordered d rs ->
  st (rs id) <> Succeeded ->
  (ran s = true -> started (rs id)) ->
  ordered d (set_state rs id s).
Proof.
  intros O Hn Hr. apply (ordered_change d rs); auto.
  intros x. destruct (set_state_change rs id s x) as (Et & Eo & Es).
  split; auto.
  destruct (string_dec x id) as [->|Hx].
  - right. rewrite Es by reflexivity. auto.
  - left. now rewrite Eo.
Qed.

Lemma ordered_step d kw rs rs' :
  NoDup (ids d) -> ordered d rs -> step d kw rs rs' -> ordered d rs'.
Proof.
  intros N O S. pose proof O as [O1 O2].
  destruct S as [t rs Ht Hp Hup | t rs Ht _ Hr | t f w rs Ht _ Hr _
                | t f w rs Ht _ Hr _ | t rs Ht Hr _ | t rs Ht Hr _
                | t u rs Ht Hp _ _].
  - (* start *)
    split.
    + intros t2 Ht2 Hs u Hu.
      assert (Hu' : st (rs u) = Succeeded).
      { destruct (string_dec (task_id t2) (task_id t)) as [E|E].
        - apply (same_task d t t2 N Ht Ht2) in E. subst t2. auto.
        - rewrite upd_other in Hs by exact E. eauto. }
      rewrite upd_other; auto.
      intros ->. congruence.
    + intros x Hx. unfold started.
      destruct (string_dec x (task_id t)) as [->|E].
      * rewrite upd_same. cbn. lia.
      * rewrite upd_other in * by exact E. now apply O2.
  - apply ordered_set_state; auto; try congruence.
    intros _. apply O2. now rewrite Hr.
  - apply ordered_set_state; auto; try congruence.
    intros _. apply O2. now rewrite Hr.
  - (* the gate is closed *)
    apply (ordered_change d rs); auto. intros x.
    unfold skip_downstream.
    destruct (set_state_change rs (task_id t) Succeeded x) as (Et & Eo & Es).
    destruct (is_downstream d (task_id t) x) eqn:Ed.
    + cbn [tries st]. split; auto.
      right. split; [|discriminate].
      intros Hx. apply is_downstream_task in Ed.
      destruct Ed as (t' & Ht' & <- & Hg).
      assert (Hst : started (rs (task_id t'))) by (apply O2; now rewrite Hx).
      pose proof (O1 t' Ht' Hst _ Hg). congruence.
    + split; auto.
      destruct (string_dec x (task_id t)) as [->|Hx].
      * right. split; [congruence|]. intros _. apply O2. now rewrite Hr.
      * left. now rewrite Eo.
  - apply ordered_set_state; auto; try congruence. discriminate.
  - apply ordered_set_state; auto; try congruence.
    intros _. apply O2. now rewrite Hr.
  - apply ordered_set_state; auto; try congruence. discriminate.
Qed.

Lemma ordered_init d : ordered d init.
Proof.
  split.
  - unfold started, init. cbn. lia.
  - unfold init. cbn. discriminate.
Qed.

Lemma reachable_ordered d kw rs :
  NoDup (ids d) -> reachable d kw rs -> ordered d rs.
Proof.
  intros N R. induction R as [|rs rs' _ IH S].
  - apply ordered_init.
  - eapply ordered_step; eauto.
Qed.

(** A task that is or was executing has all its upstream tasks
    succeeded. *)
Lemma ran_after_upstream d kw rs t u :
  NoDup (ids d) -> reachable d kw rs ->
  In t d -> ran (st (rs (task_id t))) = true -> In u (upstream t) ->
  st (rs u) = Succeeded.
Proof.
  intros N R Ht Hr Hu.
  destruct (reachable_ordered d kw rs N R) as [O1 O2].
  eapply O1; eauto.
Qed.

Lemma bounded_change d (rs rs' : run_state) :
  bounded d rs ->
  (forall x, tries (rs' x) = tries (rs x)
             /\ (st (rs' x) = Pending -> st (rs x) = Pending)) ->
  bounded d rs'.
Proof.
  intros B H t Ht. destruct (B t Ht) as [B1 B2].
  destruct (H (task_id t)) as [Et Es]. rewrite Et. auto.
Qed.

Lemma bounded_set_state d (rs : run_state) id s :
  bounded d rs -> s <> Pending -> bounded d (set_state rs id s).
Proof.
  intros B Hs. apply (bounded_change d rs); auto.
  intros x. destruct (set_state_change rs id s x) as (Et & Eo & Es).
  split; auto.
  destruct (string_dec x id) as [->|Hx].
  - rewrite Es by reflexivity. congruence.
  - now rewrite Eo.
Qed.

Lemma bounded_step d kw rs rs' :
  NoDup (ids d) -> bounded d rs -> step d kw rs rs' -> bounded d rs'.
Proof.
  intros N B S.
  destruct S as [t rs Ht Hp Hup | t rs Ht _ Hr | t f w rs Ht _ Hr _
                | t f w rs Ht _ Hr _ | t rs Ht Hr Hle | t rs Ht Hr _
                | t u rs Ht Hp _ _].
  - intros t2 Ht2.
    destruct (string_dec (task_id t2) (task_id t)) as [E|E].
    + apply (same_task d t t2 N Ht Ht2) in E. subst t2.
      rewrite upd_same. cbn [tries st].
      destruct (B t Ht) as [_ B2]. split; [|discriminate].
      apply le_n_S. auto.
    + rewrite upd_other by exact E. auto.
  - apply bounded_set_state; auto. discriminate.
  - apply bounded_set_state; auto. discriminate.
  - apply (bounded_change d rs); auto. intros x.
    unfold skip_downstream.
    destruct (set_state_change rs (task_id t) Succeeded x) as (Et & Eo & Es).
    destruct (is_downstream d (task_id t) x).
    + cbn [tries st]. split; auto. discriminate.
    + split; auto.
      destruct (string_dec x (task_id t)) as [->|Hx].
      * rewrite Es by reflexivity. discriminate.
      * now rewrite Eo.
  - intros t2 Ht2.
    destruct (set_state_change rs (task_id t) Pending (task_id t2))
      as (Et & Eo & Es).
    destruct (string_dec (task_id t2) (task_id t)) as [E|E].
    + pose proof (same_task d t t2 N Ht Ht2 E). subst t2.
      rewrite Et. split; [lia | auto].
    + rewrite Eo by exact E. auto.
  - apply bounded_set_state; auto. discriminate.
  - apply bounded_set_state; auto. discriminate.
Qed.

Lemma reachable_bounded d kw rs :
  NoDup (ids d) -> reachable d kw rs -> bounded d rs.
Proof.
  intros N R. induction R as [|rs rs' _ IH S].
  - intros t _. unfold init. cbn. split; intros; lia.
  - eapply bounded_step; eauto.
Qed.

(** A reason stays one when the step leaves a task that ended without a
    result as it is or skips it, and leaves a gate that succeeded as it
    is or skips it. *)
Lemma excused_change d (rs rs' : run_state) :
  excused d rs ->
  (forall x, st (rs' x) = st (rs x) \/ st (rs' x) = Skipped
             \/ (st (rs x) = Running /\ st (rs' x) <> Skipped)
             \/ (st (rs x) = Pending /\ st (rs' x) <> Skipped)) ->
  (forall t, In t d -> st (rs' (task_id t)) = Skipped ->
     st (rs (task_id t)) <> Skipped ->
     exists u, In u (upstream t)
       /\ (ended_without_result (st (rs' u)) = true
           \/ (st (rs' u) = Succeeded /\ is_gate d u))) ->
  excused d rs'.
Proof.
  intros X H Hnew t Ht Hs.
  destruct (state_eq_dec (st (rs (task_id t))) Skipped) as [E|E];
    [|apply Hnew; auto].
  destruct (X t Ht E) as (u & Hu & Hr).
  exists u. split; [exact Hu|].
  destruct (H u) as [Eu | [Eu | [[Eu _] | [Eu _]]]].
  - rewrite Eu. exact Hr.
  - left. rewrite Eu. reflexivity.
  - rewrite Eu in Hr. destruct Hr as [Hr | [Hr _]]; discriminate.
  - rewrite Eu in Hr. destruct Hr as [Hr | [Hr _]]; discriminate.
Qed.

Lemma excused_set_state d (rs : run_state) id s :
  excused d rs ->
  (st (rs id) = Running \/ st (rs id) = Pending) ->
  (s = Skipped ->
   forall t, In t d -> task_id t = id ->
     exists u, In u (upstream t) /\ u <> id
       /\ ended_without_result (st (rs u)) = true) ->
  excused d (set_state rs id s).
Proof.
  intros X Hid Hs. apply (excused_change d rs); auto.
  - intros x. destruct (set_state_change rs id s x) as (_ & Eo & Es).
    destruct (string_dec x id) as [->|Hx].
    + rewrite Es by reflexivity.
      destruct (state_eq_dec s Skipped) as [->|Hn]; auto.
      destruct Hid as [Hid|Hid]; rewrite Hid; auto.
    + left. now rewrite Eo.
  - intros t Ht Hsk Hn.
    destruct (set_state_change rs id s (task_id t)) as (_ & Eo & Es).
    destruct (string_dec (task_id t) id) as [E|E].
    + rewrite Es in Hsk by exact E.
      destruct (Hs Hsk t Ht E) as (u & Hu & Hne & Hr).
      exists u. split; [exact Hu|]. left.
      destruct (set_state_change rs id s u) as (_ & Eo' & _).
      now rewrite Eo'.
    + rewrite Eo in Hsk by exact E. contradiction.
Qed.

Lemma excused_step d kw rs rs' :
  NoDup (ids d) -> excused d rs -> step d kw rs rs' -> excused d rs'.
Proof.
  intros N X S.
  destruct S as [t rs Ht Hp Hup | t rs Ht _ Hr | t f w rs Ht _ Hr _
                | t f w rs Ht Hop Hr _ | t rs Ht Hr _ | t rs Ht Hr _
                | t u rs Ht Hp Hu He].
  - (* start *)
    apply (excused_change d rs); auto.
    + intros x. destruct (string_dec x (task_id t)) as [->|E].
      * rewrite upd_same. cbn [st]. right. right. right. split; [exact Hp | discriminate].
      * left. now rewrite upd_other.
    + intros t2 Ht2 Hs Hn.
      destruct (string_dec (task_id t2) (task_id t)) as [E|E].
      * rewrite E, upd_same in Hs. discriminate.
      * rewrite upd_other in Hs by exact E. contradiction.
  - apply excused_set_state; auto. discriminate.
  - apply excused_set_state; auto. discriminate.
  - (* the gate is closed *)
    apply (excused_change d rs); auto.
    + intros x. unfold skip_downstream.
      destruct (is_downstream d (task_id t) x); [cbn [st]; auto|].
      destruct (set_state_change rs (task_id t) Succeeded x) as (_ & Eo & Es).
      destruct (string_dec x (task_id t)) as [->|E].
      * rewrite Es by reflexivity. right. right. left. split; [exact Hr | discriminate].
      * left. now rewrite Eo.
    + intros t2 Ht2 Hs Hn. unfold skip_downstream in Hs.
      destruct (is_downstream d (task_id t) (task_id t2)) eqn:Ed.
      * apply is_downstream_task in Ed. destruct Ed as (t' & Ht' & E' & Hg).
        apply (same_task d t2 t' N Ht2 Ht') in E'. subst t'.
        exists (task_id t). split; [exact Hg|].
        unfold skip_downstream.
        destruct (is_downstream d (task_id t) (task_id t)); [left; reflexivity|].
        right. split.
        -- destruct (set_state_change rs (task_id t) Succeeded (task_id t)) as (_ & _ & Es).
           now apply Es.
        -- exists t, f. auto.
      * destruct (set_state_change rs (task_id t) Succeeded (task_id t2)) as (_ & Eo & Es).
        destruct (string_dec (task_id t2) (task_id t)) as [E|E].
        -- rewrite Es in Hs by exact E. discriminate.
        -- rewrite Eo in Hs by exact E. contradiction.
  - apply excused_set_state; auto. discriminate.
  - apply excused_set_state; auto. discriminate.
  - (* skip *)
    apply excused_set_state; auto.
    intros _ t2 Ht2 E. apply (same_task d t t2 N Ht Ht2) in E. subst t2.
    exists u. repeat split; auto.
    intros ->. rewrite Hp in He. discriminate.
Qed.

Lemma reachable_excused d kw rs :
  NoDup (ids d) -> reachable d kw rs -> excused d rs.
Proof.
  intros N R. induction R as [|rs rs' _ IH S].
  - intros t _ H. discriminate.
  - eapply excused_step; eauto.
Qed.

Lemma NoDup_crypto : NoDup (ids Crypto.dag).
Proof.
  cbn. repeat constructor; cbn; intros H;
    repeat (destruct H as [H|H]; [discriminate|]); exact H.
Qed.

Lemma NoDup_healthcare : NoDup (ids HealthcareDag.dag).
Proof.
  cbn. repeat constructor; cbn; intros H;
    repeat (destruct H as [H|H]; [discriminate|]); exact H.
Qed.

Lemma NoDup_self_confidence : NoDup (ids SelfConfidenceDag.dag).
Proof.
  cbn. repeat constructor; cbn; intros H;
    repeat (destruct H as [H|H]; [discriminate|]); exact H.
Qed.

End OrderFacts.

Module MailFacts.
Import Airflow Smtplib MailVocabulary.
Local Open Scope mail_scope.

Lemma app_one_neq {A} (l : list A) (x : A) : l ++ [x] <> l.
Proof.
  intros H. apply (f_equal (@List.length A)) in H.
  rewrite length_app in H. cbn in H. lia.
Qed.

(** Nothing was called. *)
Lemma protocol_nil ssl wrap env e s : protocol ssl wrap env (Fail e) s s [].
Proof.
  unfold protocol. rewrite app_nil_r.
  repeat split; auto; try discriminate.
  - exists 0%nat. reflexivity.
  - intros H. symmetry in H. contradiction (app_one_neq _ _ H).
  - intros e0 H. contradiction H. reflexivity.
Qed.

Ltac close_protocol :=
  unfold protocol;
  cbn [calls outbox faults map kind_of session logged_in List.length Nat.sub
       skipn firstn forallb went andb nth_error];
  split; [reflexivity|];
  split; [ first [ exists 0%nat; reflexivity | exists 1%nat; reflexivity
                 | exists 2%nat; reflexivity | exists 3%nat; reflexivity
                 | exists 4%nat; reflexivity | exists 5%nat; reflexivity ] |];
  split; [ first [ reflexivity | discriminate ] |];
  split; [ first [ left; reflexivity | right; reflexivity ] |];
  split; [ first [ discriminate | reflexivity ] |];
  split; [ first [ intros H; symmetry in H; contradiction (app_one_neq _ _ H)
                 | intros _ H; contradiction H; reflexivity
                 | intros _ _;
                   first [ exists []; reflexivity | eexists [_]; reflexivity
                         | eexists [_; _]; reflexivity | eexists [_; _; _]; reflexivity
                         | eexists [_; _; _; _]; reflexivity ] ] |];
  split; [ first [ reflexivity | destruct_plan ] |];
  split; [ reflexivity |];
  split; [ intros ? _ H;
           first [ discriminate H
                 | injection H as <-; reflexivity
                 | exfalso; revert H; clear; destruct_nth ] |];
  split; [ first [ discriminate | reflexivity ] |];
  first [ discriminate
        | intros _ H; contradiction H; reflexivity
        | intros _ _; right; split; [reflexivity | eexists; reflexivity] ]
with destruct_plan :=
  match goal with
  | |- ?fs = skipn _ ?fs' => is_var fs; reflexivity
  | |- _ => reflexivity
  end
with destruct_nth :=
  match goal with
  | |- context [nth_error ?fs _] => destruct fs; discriminate
  end.

Ltac run_session :=
  repeat match goal with
  | |- context [hd None ?fs] =>
      is_var fs; destruct fs as [|[?|] fs];
      cbn [hd tl fst snd calls outbox faults]
  end;
  rewrite <- ?app_assoc; cbn [app];
  (eexists; split; [close_protocol | discriminate]).

(** The session of crypto_prices.py. *)
Lemma upgraded_session h p u pw (o : outcome string) f to :
  exists env, forall s, exists l,
    protocol false (fun e => e) env
      (fst ((SMTP h p ;; starttls ;; login u pw ;;
             text <- lift o ;; sendmail f to text ;; quit) s))
      s
      (snd ((SMTP h p ;; starttls ;; login u pw ;;
             text <- lift o ;; sendmail f to text ;; quit) s))
      l
    /\ l <> [].
Proof.
  destruct o as [text|e];
    [exists (mkEnvelope f to text) | exists no_envelope];
    intros [c ob fs];
    unfold sendmail, SMTP, starttls, login, quit, request, lift, bind;
    cbn [calls outbox faults hd tl fst snd];
    run_session.
Qed.

(** The session of self_confidence.py. *)
Lemma session_of_port port h u pw (o : outcome string) f to :
  exists env, forall s, exists l,
    protocol (SelfConfidenceEmail.eq_int port 465) (fun e => e) env
      (fst (((if SelfConfidenceEmail.eq_int port 465
              then SMTP_SSL h port
              else (SMTP h port ;; starttls)) ;;
             login u pw ;;
             text <- lift o ;; sendmail f to text ;; quit) s))
      s
      (snd (((if SelfConfidenceEmail.eq_int port 465
              then SMTP_SSL h port
              else (SMTP h port ;; starttls)) ;;
             login u pw ;;
             text <- lift o ;; sendmail f to text ;; quit) s))
      l
    /\ l <> [].
Proof.
  destruct o as [text|e];
    [exists (mkEnvelope f to text) | exists no_envelope];
    intros [c ob fs];
    destruct (SelfConfidenceEmail.eq_int port 465);
    unfold sendmail, SMTP, SMTP_SSL, starttls, login, quit, request, lift, bind;
    cbn [calls outbox faults hd tl fst snd];
    run_session.
Qed.

(** The handler of crypto_prices.py wraps what the session raised. *)
Lemma protocol_wrapped ssl env e s s' p :
  protocol ssl (fun e => e) env (Fail e) s s' p ->
  protocol ssl Failed env (Fail (Failed e)) s s' p.
Proof.
  unfold protocol.
  intros (H1 & H2 & _ & H4 & _ & H6 & H7 & H8 & H9 & _ & H11).
  repeat split; auto; try discriminate.
  - intros Hn _. apply H6; auto. discriminate.
  - intros e0 Hp Hn. f_equal. specialize (H9 e0 Hp Hn). injection H9 as ->. reflexivity.
  - intros Hw _. destruct (H11 Hw) as [Hp | (Hk & b & Hb)]; [discriminate | auto |].
    right. split; [exact Hk |]. exists b. injection Hb as ->. reflexivity.
Qed.

Lemma protocol_returned ssl env s s' p :
  protocol ssl (fun e => e) env (Done tt) s s' p ->
  protocol ssl Failed env (Done tt) s s' p.
Proof.
  unfold protocol.
  intros (H1 & H2 & H3 & H4 & H5 & H6 & H7 & H8 & H9 & H10 & H11).
  repeat split; auto.
  - intros e0 Hp Hn. specialize (H9 e0 Hp Hn). discriminate H9.
  - intros _ H. contradiction H. reflexivity.
Qed.

(** A call that raised after its message was accepted, followed by a
    call that returns: the message is in the outbox twice. *)
Lemma protocol_retry ssl wrap env r1 r2 s s1 s2 p1 p2 :
  protocol ssl wrap env r1 s s1 p1 ->
  protocol ssl wrap env r2 s1 s2 p2 ->
  r1 <> Done tt -> outbox s1 <> outbox s -> r2 = Done tt ->
  outbox s2 = outbox s ++ [env; env]
  /\ exists q, calls s1 = calls s ++ q ++ [Quit].
Proof.
  intros (C1 & _ & _ & O1 & _ & Q1 & _) (_ & _ & _ & _ & O2 & _) Hr Ho Hd.
  destruct O1 as [O1|O1]; [contradiction|].
  split.
  - rewrite (O2 Hd), O1, <- app_assoc. reflexivity.
  - destruct (Q1 O1 Hr) as [q ->]. exists q. exact C1.
Qed.

Lemma bind_lift {S A B} (o : outcome A) (k : A -> E S B) s :
  (x <- lift o ;; k x) s
  = match o with
    | Return a => k a s
    | Raise e => (Fail (Builtin e), s)
    end.
Proof. unfold bind, lift. now destruct o. Qed.

(** A step of pure code before the session: when it raises, the client
    was not touched. *)
Lemma lift_step {X A} (x0 : X) (o : outcome A) (k : A -> E Smtplib.t unit)
    (Q : X -> Smtplib.t -> result unit * Smtplib.t -> Prop) :
  (forall e s, Q x0 s (Fail (Builtin e), s)) ->
  (forall a, o = Return a -> exists x, forall s, Q x s (k a s)) ->
  exists x, forall s, Q x s ((a <- lift o ;; k a) s).
Proof.
  intros H1 H2. destruct o as [a|e].
  - destruct (H2 a eq_refl) as [x H]. exists x. intros s.
    rewrite bind_lift. apply H.
  - exists x0. intros s. rewrite bind_lift. apply H1.
Qed.

Lemma send_email_post_builtin e s :
  send_email_post no_envelope s (Fail (Builtin e), s).
Proof.
  exists []. split; [apply protocol_nil|].
  cbn. intros ? [= <-]. cbn. eauto.
Qed.

Lemma generate_post_builtin ssl e s :
  generate_post ssl no_envelope s (Fail (Builtin e), s).
Proof.
  exists []. split; [apply protocol_nil|]. cbn. eauto.
Qed.

Section Crypto.
Variable str : pyval -> string.
Variable fixed2 : Q -> string.
Variable int_of_string : string -> outcome Z.
Variable as_string : message -> outcome string.

Abbreviation send_email :=
  (CryptoEmail.send_email str fixed2 int_of_string as_string).

(** The message of a call depends on its inputs only, not on the state
    of the client. *)
Lemma send_email_session vars kw :
  exists env, forall s, send_email_post env s (send_email vars kw s).
Proof.
  unfold CryptoEmail.send_email.
  destruct (negb _).
  { exists no_envelope. intros s. apply send_email_post_builtin. }
  repeat (apply (lift_step no_envelope); [apply send_email_post_builtin|];
          intros ? _).
  match goal with
  | |- context [try_except ?b _] =>
      assert (H : exists env, forall s, exists l,
                 protocol false (fun e => e) env (fst (b s)) s (snd (b s)) l
                 /\ l <> [])
        by apply upgraded_session
  end.
  destruct H as [env H]. exists env. intros s.
  destruct (H s) as (l & P & Hl). exists l. unfold try_except.
  match goal with
  | |- context [match ?b s with _ => _ end] => destruct (b s) as [[[]|e] s']
  end; cbn [fst snd] in *.
  - split; [exact (protocol_returned _ _ _ _ _ P) | discriminate].
  - split; [exact (protocol_wrapped _ _ _ _ _ _ P)|].
    unfold fail. cbn. intros ? [= <-]. exact Hl.
Qed.

End Crypto.

Section SelfConfidence.
Variable writerow : list pyval -> string.
Variable json_loads : string -> outcome pyval.
Variable as_string : message -> outcome string.

Abbreviation generate_csv_and_send_email :=
  (SelfConfidenceEmail.generate_csv_and_send_email writerow json_loads as_string).
Abbreviation get_json := (SelfConfidenceEmail.get_json json_loads).

(** The kind of session is chosen by the configured port, and the message
    of a call depends on its inputs only. *)
Lemma generate_session vars kw :
  exists env, forall s,
    generate_post (port_465 json_loads vars) env s
      (generate_csv_and_send_email vars kw s).
Proof.
  unfold SelfConfidenceEmail.generate_csv_and_send_email.
  repeat (apply (lift_step no_envelope); [apply generate_post_builtin|];
          intros ? ?).
  match goal with
  | |- context [try_except (bind (if SelfConfidenceEmail.eq_int ?port 465 then _ else _) _) _] =>
      rename port into smtp_port
  end.
  assert (Hp : port_465 json_loads vars = SelfConfidenceEmail.eq_int smtp_port 465).
  { unfold port_465.
    repeat match goal with
           | H : ?l = Return _ |- context [?l] => rewrite H
           end.
    reflexivity. }
  rewrite Hp.
  match goal with
  | |- context [try_except ?b _] =>
      assert (H' : exists env, forall s, exists l,
                 protocol (SelfConfidenceEmail.eq_int smtp_port 465) (fun e => e) env
                   (fst (b s)) s (snd (b s)) l /\ l <> [])
        by apply session_of_port
  end.
  destruct H' as [env H']. exists env. intros s.
  destruct (H' s) as (l & P & Hl). exists l. unfold try_except.
  match goal with
  | |- context [match ?b s with _ => _ end] => destruct (b s) as [[[]|e] s']
  end; cbn [fst snd] in *.
  - split; [exact P|]. intros ->. contradiction Hl. reflexivity.
  - unfold fail. cbn [fst snd].
    split; [exact P|]. intros ->. contradiction Hl. reflexivity.
Qed.

End SelfConfidence.

End MailFacts.


(* ===================================================================== *)
(** ** The claims of the specification *)
(* ===================================================================== *)

Module Spec.
Import Requests Airflow Sink Graph.
Import GraphVocabulary FetchVocabulary TransformVocabulary QuotesVocabulary
       AppendVocabulary Samples.
Import SinkFacts GraphFacts FetchFacts TransformFacts QuotesFacts
       HealthcareFacts CryptoFacts AppendFacts.
Import HealthcareVocabulary HealthcareCommitFacts CryptoCommitFacts.

(** *** Loader *)

(** C1.  When the second insert of a three-record batch is refused,
    [Crypto.insert_into_postgres] raises and commits no row of the batch,
    but it leaves through the raise without closing the connection: the
    connection is not released on this exit path. *)
Theorem insert_into_postgres_leaks_connection :
  fst (Crypto.insert_into_postgres prices_kw (new_frame second_insert_refused))
    = Raise DatabaseError
  /\ table (snd (Crypto.insert_into_postgres prices_kw (new_frame second_insert_refused)))
       = table second_insert_refused
  /\ conn (snd (Crypto.insert_into_postgres prices_kw (new_frame second_insert_refused)))
       = Open
  /\ released (snd (Crypto.insert_into_postgres prices_kw (new_frame second_insert_refused)))
       = false.
Proof. repeat split. Qed.

(** The loaders of quotes.py and of the healthcare pipeline do release the
    connection on every exit, and commit nothing when their [try] block
    raises. *)
Remark try_finally_loaders_release
    (rows : Quotes.dataframe) (sq : Quotes.db) (kw : kwargs) (sh : Healthcare.db) :
  released (snd (Quotes.load_data (Some rows) (new_frame sq))) = true
  /\ released (snd (Healthcare.load_to_postgres kw (new_frame sh))) = true
  /\ (raises (fst (Healthcare.load_to_postgres kw (new_frame sh))) = true ->
      table (snd (Healthcare.load_to_postgres kw (new_frame sh))) = table sh).
Proof.
  split; [| split; apply load_to_postgres_outcome].
  destruct (Quotes.empty rows) eqn:He.
  - unfold Quotes.load_data. rewrite He. reflexivity.
  - unfold released.
    destruct (load_data_outcome rows sq He) as [(_ & _ & _ & ->) | (_ & _ & -> & _)];
      reflexivity.
Qed.

(** C2.  Loading a keyed batch twice.  For a batch of records as
    [fetch_quote] builds them, each with an integer id that fits the key
    column and text in its other fields, on a table whose ids are
    pairwise distinct and a server that refuses nothing: neither load is
    an error, the second one leaves the table as the first one left it,
    the ids of the table stay pairwise distinct, and every id of the
    batch is stored exactly once. *)
Theorem keyed_load_twice (rows : Quotes.dataframe) (s : Quotes.db) :
  forallb keyed rows = true ->
  faults s = [] ->
  NoDup (ids (table s)) ->
  let r1 := Quotes.load_data (Some rows) (new_frame s) in
  let r2 := Quotes.load_data (Some rows) (new_frame (snd r1)) in
  fst r1 = Return tt
  /\ fst r2 = Return tt
  /\ table (snd r2) = table (snd r1)
  /\ NoDup (ids (table (snd r2)))
  /\ (forall row k, In row rows -> getitem row "id" = Return (PInt k) ->
        count_occ Z.eq_dec (ids (table (snd r2))) k = 1%nat).
Proof.
  intros Hk Hf Hn. cbv zeta.
  destruct rows as [| row rows].
  - simpl. repeat split; auto. intros ? ? [].
  - assert (He : Quotes.empty (row :: rows) = false).
    { apply keyed_not_empty. simpl in Hk. apply andb_true_iff in Hk. tauto. }
    remember (row :: rows) as batch eqn:Eb.
    assert (Hi : Pandas.iterrows batch = batch) by (apply iterrows_keyed; exact Hk).
    assert (Ha : forallb acceptable (Pandas.iterrows batch) = true).
    { rewrite Hi. apply keyed_acceptable. exact Hk. }
    rewrite (load_data_calm _ s He Ha Hf). cbn [fst snd].
    rewrite Hi.
    set (tbl1 := table s ++ pending (table s) [] batch).
    rewrite load_data_calm by (auto; reflexivity).
    cbn [fst snd table]. rewrite Hi.
    assert (Hno : pending tbl1 [] batch = []).
    { apply pending_noop. intros r q Hin Hs. rewrite app_nil_r.
      apply pending_covers with (row := r); assumption. }
    rewrite Hno, app_nil_r.
    assert (Hn1 : NoDup (ids tbl1)).
    { apply pending_NoDup. rewrite app_nil_r. exact Hn. }
    repeat split; auto.
    intros r k Hin Hid.
    apply NoDup_count_one; auto.
    assert (Hr : keyed r = true).
    { rewrite forallb_forall in Hk. apply Hk. exact Hin. }
    destruct (stored_of_id r k Hr Hid) as (q & Hs & <-).
    apply has_id_In. apply pending_covers with (row := r); assumption.
Qed.

Lemma keyed_load_twice_witness :
  let rows := [quote (PInt 42) "Be yourself"; quote (PInt 42) "Be yourself";
               quote (PInt 7) "Carry on"] in
  let r1 := Quotes.load_data (Some rows) (new_frame no_quotes) in
  let r2 := Quotes.load_data (Some rows) (new_frame (snd r1)) in
  forallb keyed rows = true
  /\ faults no_quotes = []
  /\ NoDup (ids (table no_quotes))
  /\ fst r2 = Return tt
  /\ table (snd r2) = table (snd r1)
  /\ count_occ Z.eq_dec (ids (table (snd r2))) 42 = 1%nat.
Proof.
  pose proof (keyed_load_twice
                [quote (PInt 42) "Be yourself"; quote (PInt 42) "Be yourself";
                 quote (PInt 7) "Carry on"]
                no_quotes eq_refl eq_refl (NoDup_nil Z)) as H.
  cbv zeta in H. destruct H as (_ & H2 & H3 & _ & H5).
  split; [reflexivity |]. split; [reflexivity |]. split; [apply NoDup_nil |].
  split; [exact H2 |]. split; [exact H3 |].
  apply (H5 (quote (PInt 42) "Be yourself") 42); [left; reflexivity | reflexivity].
Defined.

(** C10.  The guard [row["id"] is not None] does not keep a null id
    away from the INSERT when another record of the batch has an integer
    id.  pandas then makes the column of ids one of floats, in which the
    null id is NaN and 42 is 42.0; NaN is not None, so the statement is
    sent for the record without an id, the server refuses it, and the
    handler rolls the batch back: nothing is committed, the record with
    id 42 is not stored, and [load_data] still returns normally.  Alone
    in its frame the same record is skipped, and the record with id 42
    alone is stored. *)
Theorem null_id_is_sent_next_to_an_integer_id :
  let rows := [quote PNone "No id"; quote (PInt 42) "Be yourself"] in
  map (fun row => getitem row "id") (Pandas.iterrows rows)
    = [Return PNaN; Return (PFloat (inject_Z 42))]
  /\ fst (Quotes.load_body rows (new_frame no_quotes)) = Raise DataError
  /\ sent (snd (Quotes.load_body rows (new_frame no_quotes))) = 3%nat
  /\ fst (Quotes.load_data (Some rows) (new_frame no_quotes)) = Return tt
  /\ table (snd (Quotes.load_data (Some rows) (new_frame no_quotes))) = []
  /\ sent (snd (Quotes.load_data (Some [quote PNone "No id"]) (new_frame no_quotes)))
       = 2%nat
  /\ table (snd (Quotes.load_data (Some [quote PNone "No id"]) (new_frame no_quotes)))
       = []
  /\ ids (table (snd (Quotes.load_data (Some [quote (PInt 42) "Be yourself"])
                        (new_frame no_quotes))))
       = [42].
Proof. cbv zeta. repeat split; vm_compute; reflexivity. Qed.

(** C9.  The two append-only loaders insert again when they are given the
    same data again and the server refuses nothing: after two loads of a
    batch of n price records the table has grown by the n rows of the
    first load and the n rows of the second, 2 * n in all; after two loads
    of the same self-confidence quote it has grown by two rows, which
    differ in their serial id only. *)
Theorem append_only_loads_twice
    (kw : kwargs) (items : list pyval) (s : Crypto.db) (later : Z)
    (quote_ti : XCom.store) (q a t : pyval) (s' : SelfConfidence.db) :
  XCom.pull (ti kw) "fetch_crypto_prices" "return_value" = PList items ->
  complete items = true ->
  faults s = [] ->
  getitem (XCom.pull quote_ti "fetch_quote" "quote_data") "quote" = Return q ->
  getitem (XCom.pull quote_ti "fetch_quote" "quote_data") "author" = Return a ->
  getitem (XCom.pull quote_ti "fetch_quote" "quote_data") "type" = Return t ->
  faults s' = [] ->
  let s1 := snd (Crypto.insert_into_postgres kw (new_frame s)) in
  let s2 := snd (Crypto.insert_into_postgres kw (new_frame (with_clock s1 later))) in
  let s1' := snd (SelfConfidence.load_to_postgres quote_ti (new_frame s')) in
  let s2' := snd (SelfConfidence.load_to_postgres quote_ti (new_frame s1')) in
  table s2 = table s ++ price_rows (clock s) items ++ price_rows later items
  /\ List.length (table s2) = (List.length (table s) + 2 * List.length items)%nat
  /\ table s2' = table s' ++ [SelfConfidence.mkRow (serial s') q a t;
                              SelfConfidence.mkRow (serial s' + 1) q a t]
  /\ List.length (table s2') = (List.length (table s') + 2 * 1)%nat.
Proof.
  intros Hx Hc Hf Hq Ha Ht Hf'. cbv zeta.
  assert (E : table (snd (Crypto.insert_into_postgres kw
                 (new_frame (with_clock
                    (snd (Crypto.insert_into_postgres kw (new_frame s))) later))))
              = table s ++ price_rows (clock s) items ++ price_rows later items).
  { destruct items as [| c0 items0].
    - rewrite !(insert_into_postgres_no_data kw _ Hx). simpl.
      rewrite app_nil_r. reflexivity.
    - rewrite (insert_into_postgres_calm kw _ s Hx) by (auto; discriminate).
      cbn [snd].
      rewrite (insert_into_postgres_calm kw _ _ Hx) by (auto; discriminate).
      cbn [snd table clock with_clock]. rewrite <- app_assoc. reflexivity. }
  assert (E' : table (snd (SelfConfidence.load_to_postgres quote_ti
                 (new_frame (snd (SelfConfidence.load_to_postgres quote_ti (new_frame s'))))))
               = table s' ++ [SelfConfidence.mkRow (serial s') q a t;
                              SelfConfidence.mkRow (serial s' + 1) q a t]).
  { rewrite (load_to_postgres_calm quote_ti q a t s' Hq Ha Ht Hf'). cbn [snd].
    rewrite (load_to_postgres_calm quote_ti q a t _ Hq Ha Ht) by reflexivity.
    cbn [snd table serial]. rewrite <- app_assoc. reflexivity. }
  rewrite E, E'. repeat split.
  - rewrite !length_app, !price_rows_length by exact Hc. lia.
  - rewrite length_app. simpl. lia.
Qed.

Lemma append_only_loads_twice_witness :
  let s1 := snd (Crypto.insert_into_postgres prices_kw (new_frame no_prices)) in
  let s2 := snd (Crypto.insert_into_postgres prices_kw (new_frame (with_clock s1 4600))) in
  let s1' := snd (SelfConfidence.load_to_postgres confidence_ti (new_frame no_confidence)) in
  let s2' := snd (SelfConfidence.load_to_postgres confidence_ti (new_frame s1')) in
  XCom.pull (ti prices_kw) "fetch_crypto_prices" "return_value" = PList three_prices
  /\ complete three_prices = true
  /\ faults no_prices = []
  /\ getitem (XCom.pull confidence_ti "fetch_quote" "quote_data") "quote"
       = Return (PStr "You can")
  /\ faults no_confidence = []
  /\ List.length (table s2) = 6%nat
  /\ List.length (table s2') = 2%nat.
Proof.
  pose proof (append_only_loads_twice prices_kw three_prices no_prices 4600
                confidence_ti (PStr "You can") (PStr "B") (PStr "selfconfidence")
                no_confidence eq_refl eq_refl eq_refl eq_refl eq_refl eq_refl eq_refl)
    as H.
  cbv zeta in H. destruct H as (_ & H2 & _ & H4).
  cbv zeta. do 5 (split; [reflexivity |]). split; [exact H2 | exact H4].
Defined.

(** C7, as the claim states it, fails in quotes.py: a request that gets no
    answer makes [fetch_quote] return None, and an insert the server
    refuses makes the [try] block of [load_data] raise while [load_data]
    itself returns normally. *)
Lemma quotes_errors_do_not_reach_the_caller :
  Requests.get NoAnswer = Raise ConnectionError
  /\ Quotes.fetch_quote NoAnswer = Return PNone
  /\ fst (Quotes.load_body [quote (PInt 42) "Be yourself"] (new_frame insert_refused))
       = Raise DatabaseError
  /\ fst (Quotes.load_data (Some [quote (PInt 42) "Be yourself"]) (new_frame insert_refused))
       = Return tt.
Proof. repeat split. Qed.

(** C7, amended.  In the crypto and healthcare pipelines every error of
    a fetch or a load reaches the caller, that is, the operation returns
    normally only when none occurred.  [Crypto.fetch_crypto_prices]
    returns only if the request was answered with a status that is not
    4xx or 5xx and a JSON body that has the keys of the three coins;
    [Healthcare.fetch_data] only if the request was answered likewise
    with a body that has a length.  [Crypto.insert_into_postgres] returns
    only if it was given data, every record has its three fields, no
    call to the server failed, and a row for every record is committed;
    [Healthcare.load_to_postgres] only if the document could be read,
    every tuple has the width of the statement, no call to the server
    failed, and every tuple is committed; a raise of its [try] block is
    raised again.  In quotes.py a failed request makes [fetch_quote]
    return None, and once the connection is open [load_data] returns
    normally whatever happens, after rolling back what a failed [try]
    block had written. *)
Theorem errors_reach_the_caller_except_in_quotes
    (net : reply) (x : XCom.store) (kw : kwargs)
    (sc : Crypto.db) (sh : Healthcare.db)
    (rows : Quotes.dataframe) (sq : Quotes.db) :
  (raises (Crypto.fetch_crypto_prices net) = false ->
     exists st data, net = Answer st (Some data) /\ bad_status st = false
                     /\ has_prices data = true)
  /\ (raises (fst (Healthcare.fetch_data net x)) = false ->
     exists st data, net = Answer st (Some data) /\ bad_status st = false
                     /\ sized data = true)
  /\ (raises (fst (Crypto.insert_into_postgres kw (new_frame sc))) = false ->
      truthy (XCom.pull (ti kw) "fetch_crypto_prices" "return_value") = true
      /\ (exists items,
            iter (XCom.pull (ti kw) "fetch_crypto_prices" "return_value") = Return items
            /\ complete items = true
            /\ table (snd (Crypto.insert_into_postgres kw (new_frame sc)))
                 = table sc ++ price_rows (clock sc) items)
      /\ (exists n, faults sc
                    = repeat false n
                      ++ faults (snd (Crypto.insert_into_postgres kw (new_frame sc)))))
  /\ (raises (fst (Healthcare.load_to_postgres kw (new_frame sh))) = false ->
      (exists data_tuples,
         read_tuples_of kw = Return data_tuples
         /\ forallb fits data_tuples = true
         /\ table (snd (Healthcare.load_to_postgres kw (new_frame sh)))
              = table sh ++ data_tuples)
      /\ (exists n, faults sh
                    = repeat false n
                      ++ faults (snd (Healthcare.load_to_postgres kw (new_frame sh)))))
  /\ (raises (fst (Healthcare.load_body kw (new_frame sh))) = true ->
      raises (fst (Healthcare.load_to_postgres kw (new_frame sh))) = true)
  /\ (request_error net = true -> Quotes.fetch_quote net = Return PNone)
  /\ (Quotes.empty rows = false ->
      fst (next_fault (new_frame sq)) = false ->
      fst (Quotes.load_data (Some rows) (new_frame sq)) = Return tt
      /\ (raises (fst (Quotes.load_body rows (new_frame sq))) = true ->
          table (snd (Quotes.load_data (Some rows) (new_frame sq))) = table sq)).
Proof.
  split.
  { destruct (Crypto.fetch_crypto_prices net) as [v |] eqn:E; [| discriminate].
    intros _. destruct (crypto_fetch_returns net v E) as (Hr & (st & data & -> & Hp) & _).
    exists st, data. auto. }
  split; [apply healthcare_fetch_returns |].
  split.
  { destruct (Crypto.insert_into_postgres kw (new_frame sc)) as [[[] | e] s1] eqn:E;
      [| discriminate].
    intros _.
    pose proof (insert_into_postgres_returns kw sc) as H. rewrite E in H.
    destruct (H eq_refl) as (Ht & Hi). split; [exact Ht |]. split; [exact Hi |].
    exact (quiet_insert_into_postgres kw _ _ _ E). }
  split.
  { destruct (Healthcare.load_to_postgres kw (new_frame sh)) as [[[] | e] s1] eqn:E;
      [| discriminate].
    intros _.
    pose proof (healthcare_load_returns kw sh) as H. rewrite E in H.
    split; [exact (H eq_refl) |].
    exact (quiet_load_to_postgres kw _ _ _ E). }
  split; [apply load_to_postgres_outcome |].
  split; [apply quotes_fetch_request_error |].
  intros He Hc.
  destruct (load_data_outcome rows sq He) as [(Hf & _) | (_ & Hr & _ & _ & Ht)].
  - rewrite Hf in Hc. discriminate.
  - split; assumption.
Qed.

Lemma errors_reach_the_caller_except_in_quotes_witness :
  let short := PDict [("bitcoin", PDict [("usd", PInt 1); ("usd_24h_change", PInt 0)]);
                      ("ethereum", PDict [("usd", PInt 1); ("usd_24h_change", PInt 0)]);
                      ("binancecoin", PDict [("usd", PInt 1)])] in
  let no_change := mkKwargs eight
                     [(("fetch_crypto_prices", "return_value"),
                       PList [PDict [("symbol", PStr "BTC"); ("price_usd", PInt 1)]])] in
  has_prices short = false
  /\ raises (Crypto.fetch_crypto_prices (Answer 200 (Some short))) = true
  /\ sized (PInt 5) = false
  /\ raises (fst (Healthcare.fetch_data (Answer 200 (Some (PInt 5))) [])) = true
  /\ raises (fst (Crypto.insert_into_postgres (mkKwargs eight []) (new_frame no_prices)))
     = true
  /\ raises (fst (Crypto.insert_into_postgres no_change (new_frame no_prices))) = true
  /\ raises (fst (Crypto.insert_into_postgres prices_kw (new_frame second_insert_refused)))
     = true
  /\ raises (fst (Healthcare.load_to_postgres (mkKwargs eight [])
                    (new_frame (mk _ [] [] Unbound Unbound [] 1 0 0)))) = true
  /\ Quotes.fetch_quote (Answer 503 None) = Return PNone
  /\ fst (Quotes.load_data (Some [quote (PInt 42) "Be yourself"]) (new_frame insert_refused))
       = Return tt
  /\ table (snd (Quotes.load_data (Some [quote (PInt 42) "Be yourself"])
                   (new_frame insert_refused))) = [].
Proof.
  cbv zeta.
  set (short := PDict [("bitcoin", PDict [("usd", PInt 1); ("usd_24h_change", PInt 0)]);
                       ("ethereum", PDict [("usd", PInt 1); ("usd_24h_change", PInt 0)]);
                       ("binancecoin", PDict [("usd", PInt 1)])]).
  set (no_change := mkKwargs eight
                      [(("fetch_crypto_prices", "return_value"),
                        PList [PDict [("symbol", PStr "BTC"); ("price_usd", PInt 1)]])]).
  pose proof (errors_reach_the_caller_except_in_quotes
                (Answer 200 (Some short)) [] no_change no_prices
                (mk _ [] [] Unbound Unbound [] 1 0 0)
                [quote (PInt 42) "Be yourself"] insert_refused)
    as (H1 & _ & H3 & _).
  pose proof (errors_reach_the_caller_except_in_quotes
                (Answer 200 (Some (PInt 5))) [] (mkKwargs eight []) no_prices
                (mk _ [] [] Unbound Unbound [] 1 0 0)
                [quote (PInt 42) "Be yourself"] insert_refused)
    as (_ & G2 & G3 & G4 & _).
  pose proof (errors_reach_the_caller_except_in_quotes
                (Answer 503 None) [] prices_kw second_insert_refused
                (mk _ [] [] Unbound Unbound [] 1 0 0)
                [quote (PInt 42) "Be yourself"] insert_refused)
    as (_ & _ & K3 & _ & _ & K6 & K7).
  split; [reflexivity |].
  split.
  { apply Bool.not_false_iff_true. intros E.
    destruct (H1 E) as (st & data & Hn & _ & Hp).
    injection Hn as _ <-. discriminate Hp. }
  split; [reflexivity |].
  split.
  { apply Bool.not_false_iff_true. intros E.
    destruct (G2 E) as (st & data & Hn & _ & Hp).
    injection Hn as _ <-. discriminate Hp. }
  split.
  { apply Bool.not_false_iff_true. intros E.
    destruct (G3 E) as (Ht & _). discriminate Ht. }
  split.
  { apply Bool.not_false_iff_true. intros E.
    destruct (H3 E) as (_ & (items & Hi & Hc & _) & _).
    injection Hi as <-. discriminate Hc. }
  split.
  { apply Bool.not_false_iff_true. intros E.
    destruct (K3 E) as (_ & _ & (n & Hn)).
    exfalso. revert Hn. vm_compute.
    destruct n as [| [| [| n]]]; discriminate. }
  split.
  { apply Bool.not_false_iff_true. intros E.
    destruct (G4 E) as ((data_tuples & Hr & _) & _). discriminate Hr. }
  split; [exact (K6 eq_refl) |].
  destruct (K7 eq_refl eq_refl) as [K8 K9].
  split; [exact K8 | exact (K9 eq_refl)].
Defined.

(** *** Fetcher *)

(** C3, as the claim states it, fails for [Quotes.fetch_quote]: without an
    answer, or with a 503 status, it returns None, and from a body without
    any of the keys it returns a record of nulls and defaults. *)
Lemma fetch_quote_returns_without_a_batch :
  Quotes.fetch_quote NoAnswer = Return PNone
  /\ Quotes.fetch_quote (Answer 503 (Some (PDict []))) = Return PNone
  /\ Quotes.fetch_quote (Answer 200 (Some (PDict []))) = Return blank_quote.
Proof. repeat split. Qed.

(** C3, amended.  [Crypto.fetch_crypto_prices] returns a batch of three
    records or raises.  The keys it requires of the JSON body are
    [bitcoin], [ethereum] and [binancecoin], each a mapping with [usd]
    and [usd_24h_change]: it returns only if the request got an answer
    whose status is not 4xx or 5xx and whose body has these keys, it does
    return the three records then, and it raises when the request fails
    or when one of the keys is missing.  [Quotes.fetch_quote] returns
    None when the request fails, and the record of nulls and defaults
    when the body has none of its keys. *)
Theorem fetch_outcomes (net : reply) :
  (forall v, Crypto.fetch_crypto_prices net = Return v ->
     request_error net = false
     /\ (exists st data, net = Answer st (Some data) /\ has_prices data = true)
     /\ (exists btc eth bnb, v = PList [btc; eth; bnb]))
  /\ (request_error net = true ->
      raises (Crypto.fetch_crypto_prices net) = true
      /\ Quotes.fetch_quote net = Return PNone)
  /\ (forall st data, net = Answer st (Some data) -> has_prices data = false ->
      raises (Crypto.fetch_crypto_prices net) = true)
  /\ (forall st data coin field,
        net = Answer st (Some data) ->
        coin = "bitcoin" \/ coin = "ethereum" \/ coin = "binancecoin" ->
        field = "usd" \/ field = "usd_24h_change" ->
        (forall d, data = PDict d -> forall c, lookup coin d = Some c ->
                   has_key field c = false) ->
        raises (Crypto.fetch_crypto_prices net) = true)
  /\ (forall st data, net = Answer st (Some data) -> bad_status st = false ->
      has_prices data = true ->
      exists btc eth bnb,
        Crypto.coin data "BTC" "bitcoin" = Return btc
        /\ Crypto.coin data "ETH" "ethereum" = Return eth
        /\ Crypto.coin data "BNB" "binancecoin" = Return bnb
        /\ Crypto.fetch_crypto_prices net = Return (PList [btc; eth; bnb]))
  /\ (forall st d, net = Answer st (Some (PDict d)) -> bad_status st = false ->
      lookup "id" d = None -> lookup "quoteId" d = None ->
      lookup "content" d = None -> lookup "originator" d = None ->
      lookup "tags" d = None ->
      Quotes.fetch_quote net = Return blank_quote).
Proof.
  split; [intros v; apply crypto_fetch_returns |].
  split.
  { intros Hn. rewrite (crypto_fetch_request_error net Hn).
    split; [reflexivity | apply quotes_fetch_request_error; exact Hn]. }
  split.
  { intros st data -> Hp. apply crypto_fetch_missing_key. exact Hp. }
  split.
  { intros st data coin field -> Hc Hf Hm. apply crypto_fetch_missing_key.
    assert (Hk : has_coin coin data = false).
    { unfold has_coin. destruct data as [| | | | | | d |]; try reflexivity.
      destruct (lookup coin d) as [c |] eqn:El; [| reflexivity].
      pose proof (Hm d eq_refl c El) as Hk.
      destruct Hf as [-> | ->]; rewrite Hk; [reflexivity | apply andb_false_r]. }
    unfold has_prices.
    destruct Hc as [-> | [-> | ->]]; rewrite Hk, ?andb_false_r; reflexivity. }
  split.
  { intros st data -> Hs Hp. apply crypto_fetch_batch; assumption. }
  intros st d -> Hs. apply quotes_fetch_missing_keys. exact Hs.
Qed.

Lemma fetch_outcomes_witness :
  let coin := PDict [("usd", PInt 1); ("usd_24h_change", PInt 0)] in
  let short := PDict [("bitcoin", coin); ("ethereum", coin);
                      ("binancecoin", PDict [("usd", PInt 1)])] in
  let full := PDict [("bitcoin", coin); ("ethereum", coin); ("binancecoin", coin)] in
  raises (Crypto.fetch_crypto_prices (Answer 404 None)) = true
  /\ Quotes.fetch_quote (Answer 404 None) = Return PNone
  /\ has_prices short = false
  /\ raises (Crypto.fetch_crypto_prices (Answer 200 (Some short))) = true
  /\ raises (Crypto.fetch_crypto_prices (Answer 200 (Some (PDict [])))) = true
  /\ bad_status 200 = false
  /\ has_prices full = true
  /\ raises (Crypto.fetch_crypto_prices (Answer 200 (Some full))) = false
  /\ Quotes.fetch_quote (Answer 200 (Some (PDict []))) = Return blank_quote.
Proof.
  cbv zeta.
  set (coin := PDict [("usd", PInt 1); ("usd_24h_change", PInt 0)]).
  set (short := PDict [("bitcoin", coin); ("ethereum", coin);
                       ("binancecoin", PDict [("usd", PInt 1)])]).
  set (full := PDict [("bitcoin", coin); ("ethereum", coin); ("binancecoin", coin)]).
  destruct (fetch_outcomes (Answer 404 None)) as (_ & H2 & _).
  destruct (fetch_outcomes (Answer 200 (Some short))) as (_ & _ & _ & S4 & _).
  destruct (fetch_outcomes (Answer 200 (Some (PDict [])))) as (_ & _ & H3 & _ & _ & H4).
  destruct (fetch_outcomes (Answer 200 (Some full))) as (_ & _ & _ & _ & F5 & _).
  destruct (H2 eq_refl) as [Ha Hb].
  split; [exact Ha |]. split; [exact Hb |].
  split; [reflexivity |].
  split.
  { apply (S4 200 short "binancecoin" "usd_24h_change" eq_refl); auto.
    intros d Hd c Hc. injection Hd as <-. injection Hc as <-. reflexivity. }
  split; [exact (H3 200 (PDict []) eq_refl eq_refl) |].
  split; [reflexivity |]. split; [reflexivity |].
  split.
  { destruct (F5 200 full eq_refl eq_refl eq_refl) as (btc & eth & bnb & _ & _ & _ & E).
    rewrite E. reflexivity. }
  exact (H4 200 [] eq_refl eq_refl eq_refl eq_refl eq_refl eq_refl eq_refl).
Defined.

(** [SelfConfidence.fetch_quote] raises when the request gets no answer
    or the body is not JSON; it does not look at the status. *)
Remark self_confidence_fetch (x : XCom.store) (st : Z) (data : pyval) :
  SelfConfidence.fetch_quote NoAnswer x = (Raise ConnectionError, x)
  /\ SelfConfidence.fetch_quote (Answer st None) x = (Raise JSONDecodeError, x)
  /\ SelfConfidence.fetch_quote (Answer st (Some data)) x
     = (Return tt, (("fetch_quote", "quote_data"), data) :: x).
Proof. repeat split. Qed.

(** *** Transformer *)

(** C4, as the claim states it, fails for [Quotes.transform_data]: given
    no data it returns None and raises nothing. *)
Lemma quotes_transform_of_nothing_returns :
  Quotes.transform_data PNone = Return None.
Proof. reflexivity. Qed.

(** C4, amended.  On a list of mappings [Healthcare.transform_data] never
    raises because of a malformed record: it pushes the records of the
    others, in their order.  It raises, with a ValueError, exactly when no
    record is left, that is when the list is empty or every record is
    malformed.  [Quotes.transform_data] never raises: without data it
    returns None. *)
Theorem transform_keeps_the_well_formed
    (kw : kwargs) (x : XCom.store) (raw : list pyval) :
  XCom.pull (ti kw) "fetch_data" "raw_data" = PList raw ->
  forallb is_dict raw = true ->
  (kept raw <> [] ->
     Healthcare.transform_data kw x =
       (Return tt, (("transform_data", "transformed_data"), PList (kept raw)) :: x))
  /\ (kept raw = [] ->
      exists msg, Healthcare.transform_data kw x = (Raise (ValueError msg), x))
  /\ (kept raw = [] <-> forallb malformed raw = true)
  /\ (forall record, In record (kept raw) <->
        exists item, In item raw /\ Healthcare.record_of item = Return record)
  /\ (forall quote_data,
        Quotes.transform_data quote_data =
          Return (if truthy quote_data then Some [quote_data] else None)).
Proof.
  intros Hx Hd. rewrite (transform_data_dicts kw x raw Hx Hd).
  split.
  { intros Hk. destruct raw as [| item rest]; [contradiction Hk; reflexivity |].
    destruct (kept (item :: rest)); [contradiction Hk; reflexivity | reflexivity]. }
  split.
  { intros Hk. unfold Healthcare.empty_input, Healthcare.no_valid_records.
    destruct raw; [| rewrite Hk]; eexists; reflexivity. }
  split; [apply kept_nil_iff |].
  split; [intros record; apply kept_In |].
  intros quote_data. unfold Quotes.transform_data.
  destruct (truthy quote_data); reflexivity.
Qed.

Lemma transform_keeps_the_well_formed_witness :
  forallb is_dict [job_without_address; job_without_locations] = true
  /\ kept [job_without_address; job_without_locations] <> []
  /\ kept [job_without_address] = []
  /\ Healthcare.transform_data
    (raw_kw (PList [job_without_address; job_without_locations])) []
  = (Return tt,
     [(("transform_data", "transformed_data"),
       PList (kept [job_without_locations]))])
  /\ exists msg,
       Healthcare.transform_data (raw_kw (PList [job_without_address])) []
       = (Raise (ValueError msg), []).
Proof.
  destruct (transform_keeps_the_well_formed
              (raw_kw (PList [job_without_address; job_without_locations])) []
              [job_without_address; job_without_locations] eq_refl eq_refl)
    as (H1 & _).
  destruct (transform_keeps_the_well_formed
              (raw_kw (PList [job_without_address])) []
              [job_without_address] eq_refl eq_refl)
    as (_ & H2 & _).
  split; [reflexivity |]. split; [discriminate |]. split; [reflexivity |].
  split; [apply H1; discriminate | apply H2; reflexivity].
Defined.

(** The handler of the inner [try] block calls [item.get] itself: an item
    that is not a mapping escapes it and fails the whole batch. *)
Remark item_without_get_fails_the_batch :
  Healthcare.transform_data (raw_kw (PList [PNone; job_without_locations])) []
  = (Raise AttributeError, []).
Proof. reflexivity. Qed.

(** C8, as the claim states it, fails for a missing nested address: the
    record of a listing whose first location has no address cannot be
    built, and the listing is left out of the output. *)
Lemma missing_address_excludes_the_record :
  Healthcare.record_of job_without_address = Raise KeyError
  /\ Healthcare.transform_data
       (raw_kw (PList [job_without_address; job_without_locations])) []
     = (Return tt,
        [(("transform_data", "transformed_data"),
          PList [flat_record [("id", PInt 3); ("title", PStr "Healthcare Assistant")]
                   PNone PNone PNone PNone "" ""])]).
Proof. split; reflexivity. Qed.

(** C8, amended.  For a listing that is a mapping whose two list fields
    can be joined: when [locations_raw] is missing, null or empty, the
    record is kept and its four location fields are null; when the first
    location has an address with country and locality, the record is kept
    and a missing latitude or longitude is null; when the first location
    has no address, or a null one, or an address without
    [addressCountry], or one with the country and without
    [addressLocality], the record cannot be built and is left out. *)
Theorem missing_location_paths
    (d : list (string * pyval)) (et ol : string) :
  join ", " (list_field "employment_type" d) = Return et ->
  join ", " (list_field "linkedin_org_locations" d) = Return ol ->
  (truthy (field "locations_raw" d) = false ->
     Healthcare.record_of (PDict d)
       = Return (flat_record d PNone PNone PNone PNone et ol))
  /\ (forall loc rest address country locality,
        lookup "locations_raw" d = Some (PList (PDict loc :: rest)) ->
        lookup "address" loc = Some (PDict address) ->
        lookup "addressCountry" address = Some country ->
        lookup "addressLocality" address = Some locality ->
        Healthcare.record_of (PDict d)
          = Return (flat_record d country locality
                      (field "latitude" loc) (field "longitude" loc) et ol))
  /\ (forall loc rest others,
        lookup "locations_raw" d = Some (PList (PDict loc :: rest)) ->
        lookup "address" loc = None ->
        Healthcare.record_of (PDict d) = Raise KeyError
        /\ kept (PDict d :: others) = kept others)
  /\ (forall loc rest others,
        lookup "locations_raw" d = Some (PList (PDict loc :: rest)) ->
        lookup "address" loc = Some PNone ->
        Healthcare.record_of (PDict d) = Raise TypeError
        /\ kept (PDict d :: others) = kept others)
  /\ (forall loc rest address others,
        lookup "locations_raw" d = Some (PList (PDict loc :: rest)) ->
        lookup "address" loc = Some (PDict address) ->
        lookup "addressCountry" address = None ->
        Healthcare.record_of (PDict d) = Raise KeyError
        /\ kept (PDict d :: others) = kept others)
  /\ (forall loc rest address country others,
        lookup "locations_raw" d = Some (PList (PDict loc :: rest)) ->
        lookup "address" loc = Some (PDict address) ->
        lookup "addressCountry" address = Some country ->
        lookup "addressLocality" address = None ->
        Healthcare.record_of (PDict d) = Raise KeyError
        /\ kept (PDict d :: others) = kept others).
Proof.
  intros He Ho. split; [| split; [| split; [| split; [| split]]]].
  - intros Hf. apply record_of_dict; auto using first_location_absent.
  - intros loc rest address country locality Hl Ha Hc Hy.
    apply record_of_dict; auto;
      rewrite (first_location_first d _ rest _ Hl);
      unfold Healthcare.address_field, field; simpl; rewrite ?Ha; simpl;
      rewrite ?Hc, ?Hy; reflexivity.
  - intros loc rest others Hl Ha.
    pose proof (record_of_no_address d loc rest Hl Ha) as E.
    split; [exact E |]. simpl. rewrite E. reflexivity.
  - intros loc rest others Hl Ha.
    assert (E : Healthcare.record_of (PDict d) = Raise TypeError).
    { unfold Healthcare.record_of. cbn [get obind].
      rewrite (first_location_first d _ rest _ Hl).
      unfold Healthcare.address_field. simpl. rewrite Ha. reflexivity. }
    split; [exact E |]. simpl. rewrite E. reflexivity.
  - intros loc rest address others Hl Ha Hc.
    assert (E : Healthcare.record_of (PDict d) = Raise KeyError).
    { unfold Healthcare.record_of. cbn [get obind].
      rewrite (first_location_first d _ rest _ Hl).
      unfold Healthcare.address_field. simpl. rewrite Ha. simpl. rewrite Hc.
      reflexivity. }
    split; [exact E |]. simpl. rewrite E. reflexivity.
  - intros loc rest address country others Hl Ha Hc Hy.
    assert (E : Healthcare.record_of (PDict d) = Raise KeyError).
    { unfold Healthcare.record_of. cbn [get obind].
      rewrite !(first_location_first d _ rest _ Hl).
      unfold Healthcare.address_field. simpl. rewrite Ha. simpl. rewrite Hc, Hy.
      reflexivity. }
    split; [exact E |]. simpl. rewrite E. reflexivity.
Qed.

Lemma missing_location_paths_witness :
  join ", " (list_field "employment_type" [("id", PInt 3)]) = Return ""
  /\ truthy (field "locations_raw" [("id", PInt 3); ("title", PStr "Healthcare Assistant")])
       = false
  /\ Healthcare.record_of job_without_locations
    = Return (flat_record [("id", PInt 3); ("title", PStr "Healthcare Assistant")]
                PNone PNone PNone PNone "" "")
  /\ (exists r, Healthcare.record_of job_without_coordinates = Return (PDict r)
        /\ lookup "location_country" r = Some (PStr "GB")
        /\ lookup "latitude" r = Some PNone
        /\ lookup "longitude" r = Some PNone)
  /\ Healthcare.record_of job_without_address = Raise KeyError
  /\ Healthcare.record_of job_without_locality = Raise KeyError
  /\ kept [job_without_locality; job_without_locations] = kept [job_without_locations].
Proof.
  destruct (missing_location_paths
              [("id", PInt 3); ("title", PStr "Healthcare Assistant")] "" ""
              eq_refl eq_refl) as (H1 & _ & _).
  destruct (missing_location_paths
              [("id", PInt 4);
               ("locations_raw",
                PList [PDict [("address",
                               PDict [("addressCountry", PStr "GB");
                                      ("addressLocality", PStr "Leeds")])]])]
              "" "" eq_refl eq_refl) as (_ & H2 & _).
  destruct (missing_location_paths
              [("id", PInt 2); ("locations_raw", PList [PDict []])] "" ""
              eq_refl eq_refl) as (_ & _ & H3 & _).
  destruct (missing_location_paths
              [("id", PInt 5);
               ("locations_raw",
                PList [PDict [("address", PDict [("addressCountry", PStr "GB")])]])]
              "" "" eq_refl eq_refl) as (_ & _ & _ & _ & _ & H6).
  split; [reflexivity |]. split; [reflexivity |].
  split; [exact (H1 eq_refl) |]. split.
  - eexists. split; [exact (H2 _ _ _ _ _ eq_refl eq_refl eq_refl eq_refl) |].
    repeat split.
  - split; [exact (proj1 (H3 [] [] [] eq_refl eq_refl)) |].
    exact (H6 _ [] _ (PStr "GB") [job_without_locations] eq_refl eq_refl eq_refl eq_refl).
Defined.

(** *** Gate *)

(** C5.  The gate reads the logical date of the run and nothing else: two
    evaluations for the same logical date agree, whatever the wall clock
    of the worker and whatever else the context holds; the result is
    whether the logical hour is 8. *)
Theorem check_send_time_deterministic
    (w1 w2 : worker) (t : datetime) (x1 x2 : XCom.store) :
  Crypto.check_send_time w1 (mkKwargs t x1) = Crypto.check_send_time w2 (mkKwargs t x2)
  /\ Crypto.check_send_time w1 (mkKwargs t x1) = Return (hour t =? 8).
Proof. split; reflexivity. Qed.


(** C6.  In a run whose logical hour is not 8 the task [send_email] is
    never running, never succeeded, never failed and never started, it is
    skipped once the gate has run, and such a run exists. *)
Theorem closed_gate_skips_send_email (kw : kwargs) :
  hour (logical_date kw) <> 8 ->
  (forall rs, reachable Crypto.dag kw rs ->
     st (rs "send_email") <> Running
     /\ st (rs "send_email") <> Succeeded
     /\ st (rs "send_email") <> Failed
     /\ tries (rs "send_email") = 0%nat
     /\ (st (rs "check_send_time") = Succeeded -> st (rs "send_email") = Skipped))
  /\ (exists rs, reachable Crypto.dag kw rs
        /\ st (rs "check_send_time") = Succeeded
        /\ st (rs "send_email") = Skipped).
Proof.
  intros Hh. split.
  - intros rs Hr. destruct (gate_inv_reachable kw rs Hh Hr) as (Hs & Ht & Hg).
    repeat split; auto; intros E; destruct Hs as [Hs | Hs]; rewrite Hs in E; discriminate.
  - exists gated_run. split; [apply gated_run_reachable; exact Hh |].
    split; reflexivity.
Qed.


Lemma closed_gate_skips_send_email_witness :
  hour (logical_date prices_kw) <> 8
  /\ (forall rs, reachable Crypto.dag prices_kw rs ->
        st (rs "send_email") <> Running
        /\ st (rs "send_email") <> Succeeded
        /\ st (rs "send_email") <> Failed
        /\ tries (rs "send_email") = 0%nat
        /\ (st (rs "check_send_time") = Succeeded -> st (rs "send_email") = Skipped))
  /\ (exists rs, reachable Crypto.dag prices_kw rs
        /\ st (rs "check_send_time") = Succeeded
        /\ st (rs "send_email") = Skipped).
Proof.
  assert (H : hour (logical_date prices_kw) <> 8) by (simpl; lia).
  split; [exact H |].
  exact (closed_gate_skips_send_email prices_kw H).
Defined.

End Spec.
(* ===================================================================== *)
(** ** Further properties of the code *)
(* ===================================================================== *)

Module Extra.
Import Requests Airflow Sink.
Import OrderVocabulary MailVocabulary FurtherSamples.
Import FetchVocabulary TransformVocabulary QuotesVocabulary AppendVocabulary
       HealthcareVocabulary PipelineVocabulary Samples.
Import SinkFacts FetchFacts TransformFacts QuotesFacts HealthcareFacts
       CryptoFacts AppendFacts.
Import CommitFacts QuotesCommitFacts HealthcareCommitFacts HealthcareCalmFacts
       CryptoCommitFacts SelfConfidenceFacts PipelineFacts SchemaFacts PageFacts.
Import GraphFacts OrderFacts MailFacts.

(** *** Loaders *)

(** X1.  [Quotes.load_data] is all or nothing, whatever the frame holds and
    whenever the server fails: it never leaves with the connection open,
    and the table is afterwards either what it was, or what it was
    followed by rows the batch has added, and then the call returned
    normally.  The added rows have ids that were not in the table and
    that differ from one another, and there is at most one of them for
    each row of the frame. *)
Theorem quotes_load_is_all_or_nothing (df : option Quotes.dataframe) (s : Quotes.db) :
  released (snd (Quotes.load_data df (new_frame s))) = true
  /\ (table (snd (Quotes.load_data df (new_frame s))) = table s
      \/ (exists rows new,
            df = Some rows
            /\ fst (Quotes.load_data df (new_frame s)) = Return tt
            /\ table (snd (Quotes.load_data df (new_frame s))) = table s ++ new
            /\ NoDup (ids new)
            /\ (forall k, In k (ids new) -> ~ In k (ids (table s)))
            /\ (List.length new <= List.length rows)%nat)).
Proof.
  split.
  - destruct df as [rows |]; [| reflexivity].
    destruct (Quotes.empty rows) eqn:He.
    + unfold Quotes.load_data. rewrite He. reflexivity.
    + unfold released.
      destruct (load_data_outcome rows s He) as [(_ & _ & _ & ->) | (_ & _ & -> & _)];
        reflexivity.
  - destruct (load_data_all_or_nothing df s) as [H | (rows & -> & _ & Hr & Ht)];
      [left; exact H | right].
    destruct (pending_fresh (table s) (Pandas.iterrows rows) [])
      as (new & E & Hn & Hf & Hl).
    exists rows, new. rewrite Ht, E. cbn [app].
    repeat split; auto.
    + intros k Hk. rewrite <- (app_nil_r (table s)). apply Hf. exact Hk.
    + assert (El : List.length (Pandas.iterrows rows) = List.length rows).
      { unfold Pandas.iterrows.
        destruct (forallb Pandas.is_record rows); apply length_map. }
      lia.
Qed.

(** X2.  When the connection cannot be opened, neither of the two loaders
    with a [try] block reports that error: the handler calls [rollback] on
    a variable that was never assigned, and the call raises
    UnboundLocalError, with the table untouched. *)
Theorem failed_connect_is_masked
    (rows : Quotes.dataframe) (sq : Quotes.db) (kw : kwargs) (sh : Healthcare.db) :
  Quotes.empty rows = false ->
  fst (next_fault (new_frame sq)) = true ->
  fst (next_fault (new_frame sh)) = true ->
  raises (read_tuples_of kw) = false ->
  (fst (Quotes.load_data (Some rows) (new_frame sq)) = Raise UnboundLocalError
   /\ table (snd (Quotes.load_data (Some rows) (new_frame sq))) = table sq)
  /\ (fst (Healthcare.load_to_postgres kw (new_frame sh)) = Raise UnboundLocalError
      /\ table (snd (Healthcare.load_to_postgres kw (new_frame sh))) = table sh).
Proof.
  intros He Hq Hh Hr. split.
  - destruct (load_data_outcome rows sq He) as [(_ & H1 & H2 & _) | (Hf & _)].
    + auto.
    + rewrite Hf in Hq. discriminate.
  - apply load_to_postgres_without_connection; assumption.
Qed.

Lemma failed_connect_is_masked_witness :
  let rows := [quote (PInt 42) "Be yourself"] in
  let sq := with_faults no_quotes [true] in
  let kw := mkKwargs eight
              [(("transform_data", "transformed_data"),
                PList (kept [job_without_locations]))] in
  let sh : Healthcare.db := mk _ [] [] Unbound Unbound [true] 1 1000 0 in
  Quotes.empty rows = false
  /\ fst (next_fault (new_frame sq)) = true
  /\ fst (next_fault (new_frame sh)) = true
  /\ raises (read_tuples_of kw) = false
  /\ fst (Quotes.load_data (Some rows) (new_frame sq)) = Raise UnboundLocalError
  /\ fst (Healthcare.load_to_postgres kw (new_frame sh)) = Raise UnboundLocalError.
Proof.
  pose proof (failed_connect_is_masked
                [quote (PInt 42) "Be yourself"]
                (with_faults no_quotes [true])
                (mkKwargs eight
                   [(("transform_data", "transformed_data"),
                     PList (kept [job_without_locations]))])
                (mk _ [] [] Unbound Unbound [true] 1 1000 0)
                eq_refl eq_refl eq_refl eq_refl) as H.
  destruct H as [[H1 _] [H2 _]].
  cbv zeta. do 4 (split; [reflexivity |]). split; [exact H1 | exact H2].
Defined.

(** X3.  [Healthcare.load_to_postgres] is all or nothing, whenever the
    server fails, on every document that is a list of objects, which is
    what [to_json(orient='records')] writes: it never leaves with the
    connection open, and the table is afterwards either what it was, or
    what it was followed by one tuple for every record of the document,
    and then the call returned normally.  The tuples are the rows of one
    frame: each has a cell for every key that occurs in some record, and
    when tuples were stored these keys are seventeen. *)
Theorem healthcare_load_is_all_or_nothing
    (kw : kwargs) (records : list pyval) (s : Healthcare.db) :
  XCom.pull (ti kw) "transform_data" "transformed_data" = PList records ->
  forallb is_dict records = true ->
  released (snd (Healthcare.load_to_postgres kw (new_frame s))) = true
  /\ (table (snd (Healthcare.load_to_postgres kw (new_frame s))) = table s
      \/ (fst (Healthcare.load_to_postgres kw (new_frame s)) = Return tt
          /\ table (snd (Healthcare.load_to_postgres kw (new_frame s)))
               = table s ++ Healthcare.data_tuples_of records
          /\ List.length (Healthcare.data_tuples_of records) = List.length records
          /\ (forall x, In x (Healthcare.data_tuples_of records) ->
                List.length x = List.length (Pandas.columns records)
                /\ List.length x = 17%nat))).
Proof.
  intros Hp Hd. split.
  - apply load_to_postgres_outcome.
  - destruct (healthcare_load_all_or_nothing kw s)
      as [H | (data_tuples & Hr & Hf & Ho & Ht)]; [left; exact H | right].
    rewrite Hp, (read_tuples_objects records Hd) in Hr. injection Hr as <-.
    split; [exact Ho |]. split; [exact Ht |].
    split; [apply data_tuples_of_length |].
    intros x Hx. split; [apply data_tuples_of_width; exact Hx |].
    rewrite forallb_forall in Hf. apply Nat.eqb_eq. exact (Hf x Hx).
Qed.

Lemma healthcare_load_is_all_or_nothing_witness :
  let uneven := [PDict [("id", PInt 1); ("title", PStr "Carer")];
                 PDict [("id", PNone); ("url", PStr "u")]] in
  let kw := mkKwargs eight [(("transform_data", "transformed_data"), PList uneven)] in
  let s : Healthcare.db := mk _ [] [] Unbound Unbound [] 1 1000 0 in
  XCom.pull (ti kw) "transform_data" "transformed_data" = PList uneven
  /\ forallb is_dict uneven = true
  /\ Pandas.columns uneven = ["id"; "title"; "url"]
  /\ map (@List.length _) (Healthcare.data_tuples_of uneven) = [3; 3]%nat
  /\ released (snd (Healthcare.load_to_postgres kw (new_frame s))) = true
  /\ table (snd (Healthcare.load_to_postgres kw (new_frame s))) = table s.
Proof.
  cbv zeta.
  destruct (healthcare_load_is_all_or_nothing
              (mkKwargs eight
                 [(("transform_data", "transformed_data"),
                   PList [PDict [("id", PInt 1); ("title", PStr "Carer")];
                          PDict [("id", PNone); ("url", PStr "u")]])])
              [PDict [("id", PInt 1); ("title", PStr "Carer")];
               PDict [("id", PNone); ("url", PStr "u")]]
              (mk _ [] [] Unbound Unbound [] 1 1000 0)
              eq_refl eq_refl) as [H1 _].
  do 4 (split; [reflexivity |]). split; [exact H1 | reflexivity].
Defined.

(** X4.  When the server refuses nothing, [Healthcare.load_to_postgres]
    commits the tuples it read, in their order, releases the connection,
    and has sent them in pages of a hundred: one statement batch for
    every hundred tuples begun.  The tuples are the rows of the frame of
    the document, one for each record, each with a cell for every column
    of the frame; the width that has to be that of the statement is the
    number of these columns. *)
Theorem healthcare_load_sends_pages
    (kw : kwargs) (data_tuples : list Healthcare.job_row) (s : Healthcare.db) :
  read_tuples_of kw = Return data_tuples ->
  forallb fits data_tuples = true ->
  faults s = [] ->
  fst (Healthcare.load_to_postgres kw (new_frame s)) = Return tt
  /\ table (snd (Healthcare.load_to_postgres kw (new_frame s)))
       = table s ++ data_tuples
  /\ released (snd (Healthcare.load_to_postgres kw (new_frame s))) = true
  /\ sent (snd (Healthcare.load_to_postgres kw (new_frame s)))
       = (sent s + (List.length data_tuples + 99) / 100)%nat
  /\ exists records,
       XCom.pull (ti kw) "transform_data" "transformed_data" = PList records
       /\ forallb is_dict records = true
       /\ data_tuples = Healthcare.data_tuples_of records
       /\ List.length data_tuples = List.length records
       /\ (records <> [] -> List.length (Pandas.columns records) = 17%nat).
Proof.
  intros Hr Hf Hs.
  rewrite (healthcare_load_calm kw data_tuples s Hr Hf Hs).
  cbn [fst snd table sent]. repeat split.
  - rewrite paginate_length by discriminate.
    replace (List.length data_tuples + 100 - 1)%nat
      with (List.length data_tuples + 99)%nat by lia.
    reflexivity.
  - destruct (read_tuples_returns _ _ Hr) as (records & Hp & Hd & ->).
    exists records. repeat split; auto using data_tuples_of_length.
    intros Hne. destruct records as [| r rest] eqn:E; [contradiction |].
    rewrite <- E in *.
    assert (Hin : exists x, In x (Healthcare.data_tuples_of records)).
    { unfold Healthcare.data_tuples_of. rewrite E. cbn [List.length seq map].
      eexists. left. reflexivity. }
    destruct Hin as [x Hx]. rewrite <- (data_tuples_of_width records x Hx).
    rewrite forallb_forall in Hf. apply Nat.eqb_eq. exact (Hf x Hx).
Qed.

Lemma healthcare_load_sends_pages_witness :
  let kw := mkKwargs eight
              [(("transform_data", "transformed_data"),
                PList (kept [job_without_locations; job_without_coordinates]))] in
  let s : Healthcare.db := mk _ [] [] Unbound Unbound [] 1 1000 0 in
  faults s = []
  /\ fst (Healthcare.load_to_postgres kw (new_frame s)) = Return tt
  /\ List.length (table (snd (Healthcare.load_to_postgres kw (new_frame s)))) = 2%nat
  /\ sent (snd (Healthcare.load_to_postgres kw (new_frame s))) = 1%nat.
Proof.
  pose proof (healthcare_load_sends_pages
                (mkKwargs eight
                   [(("transform_data", "transformed_data"),
                     PList (kept [job_without_locations; job_without_coordinates]))])
                (Healthcare.data_tuples_of
                   (kept [job_without_locations; job_without_coordinates]))
                (mk _ [] [] Unbound Unbound [] 1 1000 0)
                eq_refl eq_refl eq_refl) as H.
  destruct H as (H1 & H2 & _ & H4 & _).
  cbv zeta. split; [reflexivity |]. split; [exact H1 |].
  split; [exact (eq_trans (f_equal (@List.length _) H2) eq_refl) | exact H4].
Defined.

(** X5.  [Crypto.insert_into_postgres] commits all rows of the batch or
    none, whenever the server fails: the table is afterwards either what
    it was, or what it was followed by one row for every item, stamped
    with the time of the call, and then the call returned normally.  When
    it raises, nothing is committed and the connection is not closed. *)
Theorem crypto_insert_is_all_or_nothing (kw : kwargs) (s : Crypto.db) :
  (table (snd (Crypto.insert_into_postgres kw (new_frame s))) = table s
   \/ (exists items,
         iter (XCom.pull (ti kw) "fetch_crypto_prices" "return_value") = Return items
         /\ complete items = true
         /\ fst (Crypto.insert_into_postgres kw (new_frame s)) = Return tt
         /\ table (snd (Crypto.insert_into_postgres kw (new_frame s)))
              = table s ++ price_rows (clock s) items))
  /\ (raises (fst (Crypto.insert_into_postgres kw (new_frame s))) = true ->
      table (snd (Crypto.insert_into_postgres kw (new_frame s))) = table s
      /\ conn (snd (Crypto.insert_into_postgres kw (new_frame s))) <> Closed).
Proof.
  split.
  - apply insert_into_postgres_all_or_nothing.
  - intros H. destruct (insert_into_postgres_failure kw s H) as (H1 & H2 & _). auto.
Qed.

(** X6.  [SelfConfidence.load_to_postgres] commits its one row or
    nothing, whenever the server fails: the table is afterwards either
    what it was, or what it was followed by the row of the three fields
    under the next serial id, and then the call returned normally.  When
    it raises, the connection is not closed, and it is left open if it
    had been opened. *)
Theorem confidence_load_is_all_or_nothing (x : XCom.store) (s : SelfConfidence.db) :
  (table (snd (SelfConfidence.load_to_postgres x (new_frame s))) = table s
   \/ (exists q a t,
         getitem (XCom.pull x "fetch_quote" "quote_data") "quote" = Return q
         /\ getitem (XCom.pull x "fetch_quote" "quote_data") "author" = Return a
         /\ getitem (XCom.pull x "fetch_quote" "quote_data") "type" = Return t
         /\ fst (SelfConfidence.load_to_postgres x (new_frame s)) = Return tt
         /\ table (snd (SelfConfidence.load_to_postgres x (new_frame s)))
              = table s ++ [SelfConfidence.mkRow (serial s) q a t]))
  /\ (raises (fst (SelfConfidence.load_to_postgres x (new_frame s))) = true ->
      conn (snd (SelfConfidence.load_to_postgres x (new_frame s))) <> Closed
      /\ (fst (next_fault (new_frame s)) = false ->
          conn (snd (SelfConfidence.load_to_postgres x (new_frame s))) = Open)).
Proof.
  split.
  - apply confidence_load_all_or_nothing.
  - apply confidence_load_failure.
Qed.

(** *** Tasks that hand data on *)

(** X7.  Whatever [Healthcare.transform_data] pushes when it returns is
    what the loader needs: at least one record, every record with the
    seventeen columns of the table in the order of the INSERT statement,
    so that the loader reads one tuple of the statement's width for each
    of them. *)
Theorem transformed_records_fit_the_table (kw : kwargs) (x x' : XCom.store) :
  Healthcare.transform_data kw x = (Return tt, x') ->
  exists records,
    records <> []
    /\ x' = (("transform_data", "transformed_data"), PList records) :: x
    /\ (forall r, In r records ->
          exists d, r = PDict d /\ map fst d = HealthcareVocabulary.columns)
    /\ exists data_tuples,
         Healthcare.read_tuples (XCom.pull x' "transform_data" "transformed_data")
           = Return data_tuples
         /\ List.length data_tuples = List.length records
         /\ forallb fits data_tuples = true.
Proof.
  intros H. destruct (transform_data_returns kw x x' H) as (records & Hn & -> & Hc).
  exists records. repeat split; auto.
  destruct (data_tuples_of_columns records Hc) as (E & L & F).
  exists (Healthcare.data_tuples_of records). cbn [XCom.pull XCom.same_key fst snd].
  cbn [String.eqb Ascii.eqb Bool.eqb andb].
  split; [exact E|]. split; [exact L | exact F].
Qed.

Lemma transformed_records_fit_the_table_witness :
  let kw := raw_kw (PList [job_without_address; job_without_locations]) in
  let x' := snd (Healthcare.transform_data kw []) in
  Healthcare.transform_data kw [] = (Return tt, x')
  /\ exists records,
       x' = [(("transform_data", "transformed_data"), PList records)]
       /\ List.length records = 1%nat.
Proof.
  cbv zeta. split; [reflexivity |].
  destruct (transformed_records_fit_the_table
              (raw_kw (PList [job_without_address; job_without_locations])) []
              (snd (Healthcare.transform_data
                      (raw_kw (PList [job_without_address; job_without_locations])) []))
              eq_refl) as (records & _ & E & _).
  exists records. split; [exact E |].
  injection E as E. rewrite <- E. reflexivity.
Defined.

(** X8.  The three tasks of the healthcare pipeline agree on what they
    hand on: when the request returns a list of mappings of which some
    record can be built, and the server refuses nothing, running fetch,
    transform and load one after the other commits one row of seventeen
    cells for every record that can be built, and releases the
    connection. *)
Theorem healthcare_tasks_compose
    (st : Z) (raw : list pyval) (date : datetime) (x : XCom.store)
    (s : Healthcare.db) :
  bad_status st = false ->
  forallb is_dict raw = true ->
  kept raw <> [] ->
  faults s = [] ->
  fst (healthcare_run (Answer st (Some (PList raw))) date x s) = Return tt
  /\ released (snd (healthcare_run (Answer st (Some (PList raw))) date x s)) = true
  /\ exists rows,
       table (snd (healthcare_run (Answer st (Some (PList raw))) date x s))
         = table s ++ rows
       /\ List.length rows = List.length (kept raw)
       /\ forallb fits rows = true.
Proof.
  intros Hs Hd Hk Hf. unfold healthcare_run.
  rewrite (fetch_data_list st raw x Hs). cbn [snd].
  match goal with
  | |- context [Healthcare.transform_data ?kw ?x1] =>
      rewrite (transform_data_dicts kw x1 raw eq_refl Hd)
  end.
  destruct raw as [|item rest]; [contradiction Hk; reflexivity|].
  destruct (kept (item :: rest)) as [|r l] eqn:Ek; [contradiction Hk; reflexivity|].
  cbn [snd]. rewrite <- Ek.
  destruct (data_tuples_of_kept (item :: rest)) as (E & L & F).
  rewrite (healthcare_load_calm _ (Healthcare.data_tuples_of (kept (item :: rest))) s);
    auto.
  cbn [fst snd table]. repeat split.
  exists (Healthcare.data_tuples_of (kept (item :: rest))). repeat split; auto.
Qed.

Lemma healthcare_tasks_compose_witness :
  let raw := [job_without_address; job_without_locations; job_without_coordinates] in
  let s : Healthcare.db := mk _ [] [] Unbound Unbound [] 1 1000 0 in
  bad_status 200 = false
  /\ forallb is_dict raw = true
  /\ kept raw <> []
  /\ faults s = []
  /\ fst (healthcare_run (Answer 200 (Some (PList raw))) eight [] s) = Return tt
  /\ List.length (table (snd (healthcare_run (Answer 200 (Some (PList raw))) eight [] s)))
       = 2%nat.
Proof.
  assert (Hk : kept [job_without_address; job_without_locations; job_without_coordinates]
               <> []) by discriminate.
  pose proof (healthcare_tasks_compose 200
                [job_without_address; job_without_locations; job_without_coordinates]
                eight [] (mk _ [] [] Unbound Unbound [] 1 1000 0)
                eq_refl eq_refl Hk eq_refl) as H.
  destruct H as (H1 & _ & rows & H3 & H4 & _).
  cbv zeta. do 2 (split; [reflexivity |]). split; [exact Hk |].
  split; [reflexivity |]. split; [exact H1 |].
  rewrite H3. cbn [table List.length app]. exact H4.
Defined.



(** *** Fetchers *)

(** X10.  [Healthcare.fetch_data] pushes the body before it counts it: a
    failed request raises and pushes nothing; otherwise the body is
    pushed, whatever it is, and the task returns if the body has a
    length and raises TypeError, with the body already pushed, if it
    has none. *)
Theorem healthcare_fetch_pushes_before_counting (net : reply) (x : XCom.store) :
  (request_error net = true
   /\ raises (fst (Healthcare.fetch_data net x)) = true
   /\ snd (Healthcare.fetch_data net x) = x)
  \/ (exists st data,
        net = Answer st (Some data) /\ bad_status st = false
        /\ snd (Healthcare.fetch_data net x) = (("fetch_data", "raw_data"), data) :: x
        /\ fst (Healthcare.fetch_data net x)
           = if raises (Healthcare.len data) then Raise TypeError else Return tt).
Proof.
  destruct net as [|st [data|]].
  - left. cbn. auto.
  - destruct (bad_status st) eqn:Eb.
    + left. unfold Healthcare.fetch_data, try_except, bind, lift, throw. cbn.
      unfold raise_for_status. unfold bad_status in Eb. cbn. rewrite Eb. cbn. auto.
    + right. exists st, data. repeat split; auto.
      * unfold Healthcare.fetch_data, try_except, bind, lift, throw. cbn.
        unfold raise_for_status. unfold bad_status in Eb. cbn. rewrite Eb. cbn.
        destruct data; reflexivity.
      * unfold Healthcare.fetch_data, try_except, bind, lift, throw. cbn.
        unfold raise_for_status. unfold bad_status in Eb. cbn. rewrite Eb. cbn.
        destruct data; reflexivity.
  - left. unfold Healthcare.fetch_data, try_except, bind, lift, throw. cbn.
    unfold raise_for_status. cbn.
    destruct ((400 <=? st) && (st <? 600)); cbn; auto.
Qed.

(** X11.  [Quotes.fetch_quote] has three outcomes: it returns None, it
    returns a record with exactly the four fields the loader reads, or it
    raises AttributeError or TypeError.  A failed request never makes it
    raise, and with the request through it raises on a body of an
    unexpected shape and on no other: the body is expected to be a
    mapping whose [originator], when there is one, is a mapping, and
    whose [tags], when there are any, are a list of strings, a string or
    a mapping. *)
Theorem fetch_quote_outcomes (net : reply) :
  (forall v, Quotes.fetch_quote net = Return v ->
     v = PNone
     \/ exists id content author tags,
          v = PDict [("id", id); ("content", content);
                     ("author", author); ("tags", PStr tags)])
  /\ (forall e, Quotes.fetch_quote net = Raise e ->
        request_error net = false /\ (e = AttributeError \/ e = TypeError))
  /\ (forall st data, net = Answer st (Some data) -> bad_status st = false ->
        raises (Quotes.fetch_quote net) = negb (shaped data))
  /\ (raises (Quotes.fetch_quote net) = true ->
        exists st data, net = Answer st (Some data) /\ bad_status st = false
                        /\ shaped data = false).
Proof.
  split; [apply fetch_quote_returns |].
  split; [apply fetch_quote_raises |].
  split.
  - intros st data -> Hs. apply fetch_quote_shape. exact Hs.
  - intros H. destruct (Quotes.fetch_quote net) as [v | e] eqn:E; [discriminate |].
    destruct (fetch_quote_raises net e E) as [Hr _].
    destruct net as [| st [data |]]; try discriminate.
    exists st, data. split; [reflexivity |]. split; [exact Hr |].
    pose proof (fetch_quote_shape st data Hr) as Hsh. rewrite E in Hsh.
    destruct (shaped data); [discriminate | reflexivity].
Qed.

Lemma fetch_quote_outcomes_witness :
  let no_name := PDict [("id", PInt 1); ("originator", PNone)] in
  let numbers := PDict [("id", PInt 1); ("tags", PList [PInt 1])] in
  Quotes.fetch_quote (Answer 200 (Some (PList []))) = Raise AttributeError
  /\ request_error (Answer 200 (Some (PList []))) = false
  /\ shaped no_name = false
  /\ raises (Quotes.fetch_quote (Answer 200 (Some no_name))) = true
  /\ shaped numbers = false
  /\ Quotes.fetch_quote (Answer 200 (Some numbers)) = Raise TypeError
  /\ shaped (PDict [("id", PInt 1); ("tags", PStr "a")]) = true
  /\ raises (Quotes.fetch_quote (Answer 200 (Some (PDict [("id", PInt 1); ("tags", PStr "a")]))))
     = false.
Proof.
  cbv zeta.
  destruct (fetch_quote_outcomes (Answer 200 (Some (PList [])))) as (_ & H & _).
  destruct (H AttributeError eq_refl) as [H1 _].
  destruct (fetch_quote_outcomes
              (Answer 200 (Some (PDict [("id", PInt 1); ("originator", PNone)]))))
    as (_ & _ & H3 & _).
  destruct (fetch_quote_outcomes
              (Answer 200 (Some (PDict [("id", PInt 1); ("tags", PStr "a")]))))
    as (_ & _ & H4 & _).
  split; [reflexivity |]. split; [exact H1 |]. split; [reflexivity |].
  split; [exact (H3 200 _ eq_refl eq_refl) |].
  split; [reflexivity |]. split; [reflexivity |]. split; [reflexivity |].
  exact (H4 200 _ eq_refl eq_refl).
Defined.

(** *** The script of quotes.py *)

(** X12.  The script of quotes.py does nothing to the database when the
    request fails, and it can end with an exception of three classes
    only: AttributeError or TypeError from a body of an unexpected
    shape, and UnboundLocalError from a connection that could not be
    opened ([rollback] and the two [close] calls being calls that do not
    fail on an open connection).  It never leaves with the connection
    open. *)
Theorem main_outcomes (net : reply) (s : Quotes.db) :
  (request_error net = true -> Quotes.main net (new_frame s) = (Return tt, new_frame s))
  /\ (forall e, fst (Quotes.main net (new_frame s)) = Raise e ->
        e = AttributeError \/ e = TypeError \/ e = UnboundLocalError)
  /\ released (snd (Quotes.main net (new_frame s))) = true.
Proof.
  rewrite main_load. repeat split.
  - intros H. rewrite (quotes_fetch_request_error net H). reflexivity.
  - intros e. destruct (Quotes.fetch_quote net) as [v|e0] eqn:E.
    + destruct (fetch_quote_returns net v E) as [-> | (i & c & a & t & ->)];
        [discriminate|].
      destruct (load_data_outcome [PDict [("id", i); ("content", c); ("author", a);
                                          ("tags", PStr t)]] s eq_refl)
        as [(_ & H & _) | (_ & H & _)];
        unfold Quotes.dataframe in H; rewrite H; intros [= <-]; auto.
    + cbn. intros [= <-].
      destruct (fetch_quote_raises net e0 E) as [_ [-> | ->]]; auto.
  - destruct (Quotes.fetch_quote net) as [v|e0] eqn:E; [|reflexivity].
    destruct (fetch_quote_returns net v E) as [-> | (i & c & a & t & ->)];
      [reflexivity|].
    unfold released.
    destruct (load_data_outcome [PDict [("id", i); ("content", c); ("author", a);
                                        ("tags", PStr t)]] s eq_refl)
      as [(_ & _ & _ & H) | (_ & _ & H & _)];
      unfold Quotes.dataframe in H; rewrite H; reflexivity.
Qed.

Lemma main_outcomes_witness :
  request_error NoAnswer = true
  /\ Quotes.main NoAnswer (new_frame no_quotes) = (Return tt, new_frame no_quotes).
Proof.
  destruct (main_outcomes NoAnswer no_quotes) as [H _].
  split; [reflexivity | exact (H eq_refl)].
Defined.

(** X13.  Running the script of quotes.py a second time on the same
    answer changes nothing, when the server refuses nothing: the table
    after the second run is the table after the first, and its ids stay
    pairwise distinct. *)
Theorem main_is_idempotent (net : reply) (s : Quotes.db) :
  faults s = [] ->
  NoDup (ids (table s)) ->
  table (snd (Quotes.main net (new_frame (snd (Quotes.main net (new_frame s))))))
    = table (snd (Quotes.main net (new_frame s)))
  /\ NoDup (ids (table (snd (Quotes.main net (new_frame s))))).
Proof. apply main_again. Qed.

Lemma main_is_idempotent_witness :
  let net := Answer 200 (Some (PDict [("id", PInt 42); ("content", PStr "Be yourself")])) in
  faults no_quotes = []
  /\ NoDup (ids (table no_quotes))
  /\ ids (table (snd (Quotes.main net (new_frame no_quotes)))) = [42]
  /\ table (snd (Quotes.main net (new_frame (snd (Quotes.main net (new_frame no_quotes))))))
     = table (snd (Quotes.main net (new_frame no_quotes))).
Proof.
  pose proof (main_is_idempotent
                (Answer 200 (Some (PDict [("id", PInt 42); ("content", PStr "Be yourself")])))
                no_quotes eq_refl (NoDup_nil Z)) as H.
  destruct H as [H1 _].
  cbv zeta. split; [reflexivity |]. split; [apply NoDup_nil |].
  split; [reflexivity | exact H1].
Defined.

(** X14.  A run of the script of quotes.py adds at most one row to the
    table, and never a row whose id the table already has, whatever the
    answer and whenever the server fails. *)
Theorem main_stores_at_most_one_row (net : reply) (s : Quotes.db) :
  table (snd (Quotes.main net (new_frame s))) = table s
  \/ exists row,
       table (snd (Quotes.main net (new_frame s))) = table s ++ [row]
       /\ ~ In (Quotes.q_id row) (ids (table s)).
Proof.
  rewrite main_load.
  destruct (Quotes.fetch_quote net) as [v|e] eqn:E; [|left; reflexivity].
  destruct (fetch_quote_returns net v E) as [-> | (i & c & a & t & ->)];
    [left; reflexivity|].
  match goal with
  | |- context [Quotes.load_data (Some [?v]) _] =>
      pose proof (load_data_all_or_nothing (Some [v]) s) as H; set (row := v) in *
  end.
  unfold Quotes.dataframe in H.
  destruct H as [H | (rows & [= <-] & _ & _ & H)]; [left; exact H|].
  assert (Hi : Pandas.iterrows [row] = [row]) by (unfold row; apply iterrows_quote).
  rewrite H, Hi. cbn [pending].
  destruct (stored row) as [q|]; [|left; apply app_nil_r].
  rewrite app_nil_r.
  destruct (Quotes.has_id (Quotes.q_id q) (table s)) eqn:Eh; [left; apply app_nil_r|].
  right. exists q. split; [reflexivity|].
  intros Hin. apply has_id_In in Hin. congruence.
Qed.

(** X15.  A quote the table cannot take is dropped without a trace: when
    the body has no usable id (the id is missing, null or 0 and there is
    no quoteId) or no content, the script of quotes.py stores nothing,
    and it returns normally whenever the record could be built and the
    connection could be opened. *)
Theorem unusable_quote_is_dropped
    (st : Z) (d : list (string * pyval)) (s : Quotes.db) :
  bad_status st = false ->
  (truthy (field "id" d) = false /\ field "quoteId" d = PNone)
  \/ field "content" d = PNone ->
  table (snd (Quotes.main (Answer st (Some (PDict d))) (new_frame s))) = table s
  /\ (raises (Quotes.fetch_quote (Answer st (Some (PDict d)))) = false ->
      fst (next_fault (new_frame s)) = false ->
      fst (Quotes.main (Answer st (Some (PDict d))) (new_frame s)) = Return tt).
Proof.
  intros Hs Hd. rewrite main_load, (fetch_quote_object st d Hs).
  destruct (Py.get (originator d) "name" (PStr "Unknown")) as [author|e];
    [|split; [reflexivity | discriminate]].
  destruct (join ", " (list_field "tags" d)) as [tags|e];
    [|split; [reflexivity | discriminate]].
  cbn [obind]. unfold quote_of at 1 3.
  set (row := quote_of d author tags).
  assert (Hst : stored row = None).
  { unfold stored, row, quote_of. cbn [getitem lookup String.eqb Ascii.eqb Bool.eqb].
    destruct Hd as [[Hi Hq] | Hc].
    - rewrite Hi, Hq. reflexivity.
    - rewrite Hc.
      destruct (Quotes.is_None _); [reflexivity |].
      match goal with
      | |- context [Quotes.row_of ?i PNone ?a ?t] =>
          pose proof (row_of_no_content i a t) as Hr;
          destruct (Quotes.row_of i PNone a t); [discriminate Hr | reflexivity]
      end. }
  split.
  - pose proof (load_data_all_or_nothing (Some [row]) s) as H.
    unfold Quotes.dataframe in H.
    destruct H as [H | (rows & [= <-] & _ & _ & H)]; [exact H|].
    assert (Hi : Pandas.iterrows [row] = [row])
      by (unfold row, quote_of; apply iterrows_quote).
    rewrite H, Hi. cbn [pending]. rewrite Hst. apply app_nil_r.
  - intros _ Hf.
    destruct (load_data_outcome [row] s eq_refl) as [(Hf' & _) | (_ & H & _)].
    + rewrite Hf in Hf'. discriminate.
    + exact H.
Qed.

Lemma unusable_quote_is_dropped_witness :
  let d := [("id", PInt 0); ("content", PStr "Be yourself")] in
  bad_status 200 = false
  /\ truthy (field "id" d) = false
  /\ field "quoteId" d = PNone
  /\ Quotes.main (Answer 200 (Some (PDict d))) (new_frame no_quotes)
     = (Return tt, snd (Quotes.main (Answer 200 (Some (PDict d))) (new_frame no_quotes)))
  /\ table (snd (Quotes.main (Answer 200 (Some (PDict d))) (new_frame no_quotes))) = [].
Proof.
  pose proof (unusable_quote_is_dropped 200
                [("id", PInt 0); ("content", PStr "Be yourself")] no_quotes
                eq_refl (or_introl (conj eq_refl eq_refl))) as H.
  destruct H as [H _].
  cbv zeta. do 4 (split; [reflexivity |]). exact H.
Defined.

(** *** Bodies of an unexpected shape *)

(** X16.  One item that is no mapping fails the whole healthcare batch:
    the handler that skips a malformed record calls [item.get] itself, so
    on a list with such an item [Healthcare.transform_data] raises
    AttributeError and pushes nothing, whatever the other items are. *)
Theorem item_that_is_no_mapping_fails_the_batch
    (kw : kwargs) (x : XCom.store) (raw : list pyval) :
  XCom.pull (ti kw) "fetch_data" "raw_data" = PList raw ->
  forallb is_dict raw = false ->
  Healthcare.transform_data kw x = (Raise AttributeError, x).
Proof.
  intros Hx Hd. unfold Healthcare.transform_data, try_except. rewrite Hx.
  destruct raw as [|item rest]; [discriminate|].
  unfold bind, lift. rewrite (flatten_not_a_dict _ _ Hd). reflexivity.
Qed.

Lemma item_that_is_no_mapping_fails_the_batch_witness :
  let raw := [job_without_locations; PStr "error"; job_without_coordinates] in
  XCom.pull (ti (raw_kw (PList raw))) "fetch_data" "raw_data" = PList raw
  /\ forallb is_dict raw = false
  /\ Healthcare.transform_data (raw_kw (PList raw)) [] = (Raise AttributeError, []).
Proof.
  cbv zeta. do 2 (split; [reflexivity |]).
  exact (item_that_is_no_mapping_fails_the_batch
           (raw_kw (PList [job_without_locations; PStr "error"; job_without_coordinates]))
           [] [job_without_locations; PStr "error"; job_without_coordinates]
           eq_refl eq_refl).
Defined.

(** X17.  [SelfConfidence.fetch_quote] pushes any JSON body, whatever the
    status of the answer; when the body lacks one of the three fields,
    the load task that pulls it raises, stores nothing and does not
    close the connection. *)
Theorem body_without_the_fields_fails_in_the_loader
    (st : Z) (data : pyval) (x : XCom.store) (s : SelfConfidence.db) :
  raises (getitem data "quote") || raises (getitem data "author")
    || raises (getitem data "type") = true ->
  fst (SelfConfidence.fetch_quote (Answer st (Some data)) x) = Return tt
  /\ raises (fst (SelfConfidence.load_to_postgres
                    (snd (SelfConfidence.fetch_quote (Answer st (Some data)) x))
                    (new_frame s))) = true
  /\ table (snd (SelfConfidence.load_to_postgres
                   (snd (SelfConfidence.fetch_quote (Answer st (Some data)) x))
                   (new_frame s))) = table s
  /\ conn (snd (SelfConfidence.load_to_postgres
                  (snd (SelfConfidence.fetch_quote (Answer st (Some data)) x))
                  (new_frame s))) <> Closed.
Proof.
  intros H.
  assert (Hx : XCom.pull (snd (SelfConfidence.fetch_quote (Answer st (Some data)) x))
                 "fetch_quote" "quote_data" = data) by reflexivity.
  set (x' := snd (SelfConfidence.fetch_quote (Answer st (Some data)) x)) in *.
  split; [reflexivity|].
  assert (Hr : raises (fst (SelfConfidence.load_to_postgres x' (new_frame s))) = true).
  { destruct (fst (SelfConfidence.load_to_postgres x' (new_frame s))) as [[]|e] eqn:E;
      [|reflexivity].
    destruct (confidence_load_returns x' s E) as (q & a & t & Hq & Ha & Ht).
    rewrite Hx in Hq, Ha, Ht. rewrite Hq, Ha, Ht in H. discriminate. }
  split; [exact Hr|]. split.
  - destruct (confidence_load_all_or_nothing x' s) as [Ht | (q & a & t & _ & _ & _ & E & _)];
      [exact Ht|].
    rewrite E in Hr. discriminate.
  - apply (confidence_load_failure x' s Hr).
Qed.

Lemma body_without_the_fields_fails_in_the_loader_witness :
  let data := PDict [("message", PStr "Too many requests")] in
  let x' := snd (SelfConfidence.fetch_quote (Answer 429 (Some data)) []) in
  raises (getitem data "quote") || raises (getitem data "author")
    || raises (getitem data "type") = true
  /\ fst (SelfConfidence.load_to_postgres x' (new_frame no_confidence)) = Raise KeyError
  /\ conn (snd (SelfConfidence.load_to_postgres x' (new_frame no_confidence))) <> Closed.
Proof.
  pose proof (body_without_the_fields_fails_in_the_loader 429
                (PDict [("message", PStr "Too many requests")]) [] no_confidence
                eq_refl) as H.
  destruct H as (_ & _ & _ & H).
  cbv zeta. split; [reflexivity |]. split; [reflexivity | exact H].
Defined.

(** X18.  The two tasks that pull the self-confidence quote treat a body
    without the fields differently: where the loader raises,
    [generate_csv_and_send_email] goes on as if the three fields were
    empty strings, so that a body without them is mailed as a row of
    blanks. *)
Theorem missing_fields_are_mailed_as_blanks
    (writerow : list pyval -> string) (json_loads : string -> outcome pyval)
    (as_string : Smtplib.message -> outcome string)
    (vars : Variables.store) (date : datetime) (d : list (string * pyval))
    (s : Smtplib.t) :
  lookup "quote" d = None ->
  lookup "author" d = None ->
  lookup "type" d = None ->
  SelfConfidenceEmail.generate_csv_and_send_email writerow json_loads as_string vars
    (mkKwargs date [(("fetch_quote", "quote_data"), PDict d)]) s
  = SelfConfidenceEmail.generate_csv_and_send_email writerow json_loads as_string vars
      (mkKwargs date
         [(("fetch_quote", "quote_data"),
           PDict [("quote", PStr ""); ("author", PStr ""); ("type", PStr "")])]) s.
Proof.
  intros Hq Ha Ht. unfold SelfConfidenceEmail.generate_csv_and_send_email.
  cbn [ti XCom.pull XCom.same_key fst snd String.eqb Ascii.eqb Bool.eqb andb].
  unfold Py.get. rewrite Hq, Ha, Ht. reflexivity.
Qed.

Lemma missing_fields_are_mailed_as_blanks_witness :
  let d := [("message", PStr "Too many requests")] in
  lookup "quote" d = None
  /\ fst (SelfConfidenceEmail.generate_csv_and_send_email FurtherSamples.writerow
            FurtherSamples.json_loads FurtherSamples.as_string FurtherSamples.config
            (mkKwargs eight [(("fetch_quote", "quote_data"), PDict d)])
            (Smtplib.mk [] [] []))
     = Smtplib.Done tt
  /\ SelfConfidenceEmail.generate_csv_and_send_email FurtherSamples.writerow
       FurtherSamples.json_loads FurtherSamples.as_string FurtherSamples.config
       (mkKwargs eight [(("fetch_quote", "quote_data"), PDict d)])
       (Smtplib.mk [] [] [])
     = SelfConfidenceEmail.generate_csv_and_send_email FurtherSamples.writerow
         FurtherSamples.json_loads FurtherSamples.as_string FurtherSamples.config
         (mkKwargs eight
            [(("fetch_quote", "quote_data"),
              PDict [("quote", PStr ""); ("author", PStr ""); ("type", PStr "")])])
         (Smtplib.mk [] [] []).
Proof.
  cbv zeta. do 2 (split; [reflexivity |]).
  exact (missing_fields_are_mailed_as_blanks FurtherSamples.writerow
           FurtherSamples.json_loads FurtherSamples.as_string FurtherSamples.config
           eight [("message", PStr "Too many requests")] (Smtplib.mk [] [] [])
           eq_refl eq_refl eq_refl).
Defined.

(** *** Task graphs *)

(** X19.  In the state machine of the pipeline graph, in every state of a
    run of each of the three graphs as the files wire them, a task that
    is running, succeeded or failed has all its upstream tasks
    succeeded: nothing is inserted before the fetch succeeded, no mail is
    sent before the gate and the insert succeeded, the healthcare load
    follows the transform and the transform the fetch. *)
Theorem tasks_start_after_their_upstream
    (d : list task) (kw : kwargs) (rs : Graph.run_state) (t : task) (u : string) :
  d = Crypto.dag \/ d = HealthcareDag.dag \/ d = SelfConfidenceDag.dag ->
  Graph.reachable d kw rs ->
  In t d ->
  ran (Graph.st (rs (task_id t))) = true ->
  In u (upstream t) ->
  Graph.st (rs u) = Graph.Succeeded.
Proof.
  intros Hd. apply ran_after_upstream.
  destruct Hd as [-> | [-> | ->]];
    [apply NoDup_crypto | apply NoDup_healthcare | apply NoDup_self_confidence].
Qed.

Lemma tasks_start_after_their_upstream_witness :
  Graph.reachable Crypto.dag prices_kw GraphVocabulary.gated_run
  /\ In Crypto.check_time_task Crypto.dag
  /\ ran (Graph.st (GraphVocabulary.gated_run (task_id Crypto.check_time_task))) = true
  /\ In "insert_into_postgres" (upstream Crypto.check_time_task)
  /\ Graph.st (GraphVocabulary.gated_run "insert_into_postgres") = Graph.Succeeded.
Proof.
  assert (Hh : hour (logical_date prices_kw) <> 8) by discriminate.
  assert (Ht : In Crypto.check_time_task Crypto.dag) by (cbn; auto).
  assert (Hu : In "insert_into_postgres" (upstream Crypto.check_time_task))
    by (cbn; auto).
  pose proof (tasks_start_after_their_upstream Crypto.dag prices_kw
                GraphVocabulary.gated_run Crypto.check_time_task
                "insert_into_postgres" (or_introl eq_refl)
                (gated_run_reachable prices_kw Hh) Ht eq_refl Hu) as H.
  split; [exact (gated_run_reachable prices_kw Hh) |].
  split; [exact Ht |]. split; [reflexivity |]. split; [exact Hu | exact H].
Defined.

(** X20.  In the state machine of the pipeline graph, no task of the
    three graphs is started more often than once plus its retries: at
    most twice in the crypto and self-confidence graphs, whose
    [default_args] give one retry, and once in the healthcare graph,
    whose [default_args] give none. *)
Theorem tasks_start_within_retries
    (d : list task) (kw : kwargs) (rs : Graph.run_state) (t : task) :
  d = Crypto.dag \/ d = HealthcareDag.dag \/ d = SelfConfidenceDag.dag ->
  Graph.reachable d kw rs ->
  In t d ->
  (Graph.tries (rs (task_id t)) <= S (retries t))%nat
  /\ (Graph.tries (rs (task_id t)) <= 2)%nat
  /\ (d = HealthcareDag.dag -> (Graph.tries (rs (task_id t)) <= 1)%nat).
Proof.
  intros Hd Hr Ht.
  assert (N : NoDup (OrderVocabulary.ids d)).
  { destruct Hd as [-> | [-> | ->]];
      [apply NoDup_crypto | apply NoDup_healthcare | apply NoDup_self_confidence]. }
  destruct (reachable_bounded d kw rs N Hr t Ht) as [B _].
  split; [exact B|]. split.
  - destruct Hd as [-> | [-> | ->]]; cbn in Ht;
      repeat (destruct Ht as [<- | Ht]; [cbn in B |- *; lia |]); contradiction.
  - intros ->. cbn in Ht.
    repeat (destruct Ht as [<- | Ht]; [cbn in B |- *; lia |]); contradiction.
Qed.

Lemma tasks_start_within_retries_witness :
  Graph.reachable Crypto.dag prices_kw GraphVocabulary.gated_run
  /\ In Crypto.insert_task Crypto.dag
  /\ (Graph.tries (GraphVocabulary.gated_run "insert_into_postgres") <= 2)%nat.
Proof.
  assert (Hh : hour (logical_date prices_kw) <> 8) by discriminate.
  assert (Ht : In Crypto.insert_task Crypto.dag) by (cbn; auto).
  pose proof (tasks_start_within_retries Crypto.dag prices_kw
                GraphVocabulary.gated_run Crypto.insert_task (or_introl eq_refl)
                (gated_run_reachable prices_kw Hh) Ht) as H.
  destruct H as (_ & H & _).
  split; [exact (gated_run_reachable prices_kw Hh) |]. split; [exact Ht | exact H].
Defined.

(** X21.  In the state machine of the pipeline graph, a run of the crypto
    graph whose logical hour is 8 can go through: the run in which
    fetch, insert, gate and mail each start once and succeed, in this
    order, is a run of the graph. *)
Theorem open_gate_lets_the_mail_run (kw : kwargs) :
  hour (logical_date kw) = 8 ->
  Graph.reachable Crypto.dag kw mailed_run
  /\ (forall t, In t Crypto.dag ->
        Graph.st (mailed_run (task_id t)) = Graph.Succeeded
        /\ Graph.tries (mailed_run (task_id t)) = 1%nat).
Proof.
  intros Hh. split.
  - unfold mailed_run.
    eapply Graph.reach_step.
    2: { apply (Graph.step_success _ _ Crypto.send_email_task); simpl; auto. }
    eapply Graph.reach_step.
    2: { apply (Graph.step_start _ _ Crypto.send_email_task); simpl; auto.
         intros u [<- | []]; reflexivity. }
    eapply Graph.reach_step.
    2: { eapply (Graph.step_gate_open _ _ Crypto.check_time_task Crypto.check_send_time
                   (mkWorker (logical_date kw))).
         - simpl; auto.
         - reflexivity.
         - reflexivity.
         - unfold Crypto.check_send_time. f_equal. apply Z.eqb_eq. exact Hh. }
    eapply Graph.reach_step.
    2: { apply (Graph.step_start _ _ Crypto.check_time_task); simpl; auto.
         intros u [<- | [<- | []]]; reflexivity. }
    eapply Graph.reach_step.
    2: { apply (Graph.step_success _ _ Crypto.insert_task); simpl; auto. }
    eapply Graph.reach_step.
    2: { apply (Graph.step_start _ _ Crypto.insert_task); simpl; auto.
         intros u [<- | []]; reflexivity. }
    eapply Graph.reach_step.
    2: { apply (Graph.step_success _ _ Crypto.fetch_task); simpl; auto. }
    eapply Graph.reach_step.
    2: { apply (Graph.step_start _ _ Crypto.fetch_task); simpl; auto.
         intros u []. }
    apply Graph.reach_init.
  - intros t Ht. cbn in Ht.
    repeat (destruct Ht as [<- | Ht]; [split; reflexivity |]). contradiction.
Qed.

Lemma open_gate_lets_the_mail_run_witness :
  hour (logical_date (mkKwargs eight [])) = 8
  /\ Graph.reachable Crypto.dag (mkKwargs eight []) mailed_run
  /\ Graph.st (mailed_run "send_email") = Graph.Succeeded.
Proof.
  destruct (open_gate_lets_the_mail_run (mkKwargs eight []) eq_refl) as [H _].
  split; [reflexivity |]. split; [exact H | reflexivity].
Defined.

(** X22.  In the state machine of the pipeline graph, no task of the
    three graphs is skipped without a reason: in every state of a run, a
    skipped task has an upstream task that failed or was skipped, or, in
    the crypto graph, it is downstream of the gate, which succeeded.  In
    the self-confidence graph this leaves one reason: a task is skipped
    only when [fetch_quote] failed, so that a failing mail task does not
    keep the quote from being loaded, nor a failing load the mail from
    being sent. *)
Theorem tasks_are_skipped_for_a_reason
    (d : list task) (kw : kwargs) (rs : Graph.run_state) (t : task) :
  d = Crypto.dag \/ d = HealthcareDag.dag \/ d = SelfConfidenceDag.dag ->
  Graph.reachable d kw rs ->
  In t d ->
  Graph.st (rs (task_id t)) = Graph.Skipped ->
  (exists u, In u (upstream t)
     /\ (Graph.st (rs u) = Graph.Failed \/ Graph.st (rs u) = Graph.Skipped
         \/ (d = Crypto.dag /\ u = "check_send_time"
             /\ Graph.st (rs u) = Graph.Succeeded)))
  /\ (d = SelfConfidenceDag.dag -> Graph.st (rs "fetch_quote") = Graph.Failed).
Proof.
  intros Hd Hr Ht Hs.
  assert (N : NoDup (OrderVocabulary.ids d)).
  { destruct Hd as [-> | [-> | ->]];
      [apply NoDup_crypto | apply NoDup_healthcare | apply NoDup_self_confidence]. }
  pose proof (reachable_excused d kw rs N Hr) as X.
  assert (G : forall u, is_gate d u -> d = Crypto.dag /\ u = "check_send_time").
  { intros u (g & f & Hg & <- & Hop).
    destruct Hd as [-> | [-> | ->]]; cbn in Hg;
      repeat (destruct Hg as [<- | Hg];
              [first [discriminate Hop | split; reflexivity] |]);
      contradiction. }
  assert (R : forall t0, In t0 d -> Graph.st (rs (task_id t0)) = Graph.Skipped ->
              exists u, In u (upstream t0)
                /\ (Graph.st (rs u) = Graph.Failed \/ Graph.st (rs u) = Graph.Skipped
                    \/ (d = Crypto.dag /\ u = "check_send_time"
                        /\ Graph.st (rs u) = Graph.Succeeded))).
  { intros t0 Ht0 Hs0. destruct (X t0 Ht0 Hs0) as (u & Hu & Hc).
    exists u. split; [exact Hu|].
    destruct Hc as [Hc | [Hc Hg]].
    - destruct (Graph.st (rs u)); try discriminate; auto.
    - destruct (G u Hg) as [-> ->]. auto. }
  split; [apply R; assumption|].
  intros ->. clear Hd G.
  assert (F : Graph.st (rs "fetch_quote") <> Graph.Skipped).
  { intros Hf.
    destruct (R SelfConfidenceDag.fetch_task (or_introl eq_refl) Hf) as (u & [] & _). }
  destruct (R t Ht Hs) as (u & Hu & Hc).
  cbn in Ht. destruct Ht as [<- | [<- | [<- | []]]]; cbn in Hu;
    try contradiction;
    destruct Hu as [<- | []];
    destruct Hc as [Hc | [Hc | (Hc & _)]];
    first [exact Hc | contradiction | discriminate Hc].
Qed.

Lemma tasks_are_skipped_for_a_reason_witness :
  Graph.reachable Crypto.dag prices_kw GraphVocabulary.gated_run
  /\ In Crypto.send_email_task Crypto.dag
  /\ Graph.st (GraphVocabulary.gated_run (task_id Crypto.send_email_task)) = Graph.Skipped
  /\ exists u, In u (upstream Crypto.send_email_task)
       /\ (Graph.st (GraphVocabulary.gated_run u) = Graph.Failed
           \/ Graph.st (GraphVocabulary.gated_run u) = Graph.Skipped
           \/ (Crypto.dag = Crypto.dag /\ u = "check_send_time"
               /\ Graph.st (GraphVocabulary.gated_run u) = Graph.Succeeded)).
Proof.
  assert (Hh : hour (logical_date prices_kw) <> 8) by discriminate.
  assert (Ht : In Crypto.send_email_task Crypto.dag) by (cbn; auto 6).
  pose proof (tasks_are_skipped_for_a_reason Crypto.dag prices_kw
                GraphVocabulary.gated_run Crypto.send_email_task (or_introl eq_refl)
                (gated_run_reachable prices_kw Hh) Ht eq_refl) as H.
  destruct H as [H _].
  split; [exact (gated_run_reachable prices_kw Hh) |].
  split; [exact Ht |]. split; [reflexivity | exact H].
Defined.

(** *** Mail *)

(** X23.  Whatever the mail server does, [send_email] of crypto_prices.py
    calls the client in the order connect, starttls, login, sendmail,
    quit, and stops at the first call that raises: every call takes one
    entry of the server's plan, all calls before the last one went
    through, and when the last one raised, the function raises the
    wrapping [Exception] of that error.  It returns only after all five
    went through; when all calls went through and it raises all the
    same, the calls stop after login and it was the rendering of the
    message that failed.  The message depends on the pulled data and the
    Variables only; the server accepts it at most once in a call.  A
    failure before the session (no data, an item without a key or with a
    price that is no number, a missing Variable) is a builtin error and
    the client is not called; a failure in the session is raised as the
    wrapping [Exception]. *)
Theorem send_email_follows_the_session
    (str : pyval -> string) (fixed2 : Q -> string)
    (int_of_string : string -> outcome Z)
    (as_string : Smtplib.message -> outcome string)
    (vars : Variables.store) (kw : kwargs) :
  exists env, forall s,
    send_email_post env s
      (CryptoEmail.send_email str fixed2 int_of_string as_string vars kw s).
Proof. apply send_email_session. Qed.

Lemma send_email_follows_the_session_witness :
  let send :=
    CryptoEmail.send_email FurtherSamples.str FurtherSamples.fixed2
      FurtherSamples.int_of_string FurtherSamples.as_string FurtherSamples.settings
      prices_kw in
  fst (send refused_second) = Smtplib.Fail (Smtplib.Failed Smtplib.OSError)
  /\ map kind_of (Smtplib.calls (snd (send refused_second)))
     = [KConnect false; KStarttls]
  /\ Smtplib.outbox (snd (send refused_second)) = []
  /\ exists env p,
       protocol false Smtplib.Failed env (fst (send refused_second)) refused_second
         (snd (send refused_second)) p
       /\ List.length p = 2%nat.
Proof.
  cbv zeta.
  destruct (send_email_follows_the_session FurtherSamples.str FurtherSamples.fixed2
              FurtherSamples.int_of_string FurtherSamples.as_string
              FurtherSamples.settings prices_kw) as [env H].
  destruct (H refused_second) as (p & P & _).
  do 3 (split; [reflexivity |]).
  exists env, p. split; [exact P |].
  destruct P as (C & _). apply (f_equal (@List.length _)) in C. exact (eq_sym C).
Defined.

(** X24.  Whatever the mail server does, [generate_csv_and_send_email]
    calls the client in the order of a session and stops at the first
    call that raises: connect over TLS, login, sendmail, quit when the
    configured port is 465, and connect, starttls, login, sendmail, quit
    otherwise.  Every call takes one entry of the server's plan, all
    calls before the last one went through, and when the last one
    raised, the function raises that error; it returns only after the
    whole session went through, and when all calls went through and it
    raises all the same, the calls stop after login and it was the
    rendering of the message that failed.  The server accepts the
    message at most once in a call, and a failure before the session is
    a builtin error and the client is not called. *)
Theorem generate_csv_and_send_email_follows_the_session
    (writerow : list pyval -> string) (json_loads : string -> outcome pyval)
    (as_string : Smtplib.message -> outcome string)
    (vars : Variables.store) (kw : kwargs) :
  exists env, forall s,
    generate_post (port_465 json_loads vars) env s
      (SelfConfidenceEmail.generate_csv_and_send_email
         writerow json_loads as_string vars kw s).
Proof. apply generate_session. Qed.

Lemma generate_csv_and_send_email_follows_the_session_witness :
  let send :=
    SelfConfidenceEmail.generate_csv_and_send_email FurtherSamples.writerow
      FurtherSamples.json_loads FurtherSamples.as_string FurtherSamples.config
      (mkKwargs eight confidence_ti) in
  port_465 FurtherSamples.json_loads FurtherSamples.config = true
  /\ fst (send refused_second) = Smtplib.Fail Smtplib.OSError
  /\ map kind_of (Smtplib.calls (snd (send refused_second)))
     = [KConnect true; KLogin]
  /\ Smtplib.outbox (snd (send refused_second)) = []
  /\ exists env p,
       protocol true (fun e => e) env (fst (send refused_second)) refused_second
         (snd (send refused_second)) p
       /\ List.length p = 2%nat.
Proof.
  cbv zeta.
  destruct (generate_csv_and_send_email_follows_the_session FurtherSamples.writerow
              FurtherSamples.json_loads FurtherSamples.as_string FurtherSamples.config
              (mkKwargs eight confidence_ti)) as [env H].
  destruct (H refused_second) as (p & P & _).
  do 4 (split; [reflexivity |]).
  exists env, p. split; [exact P |].
  destruct P as (C & _). apply (f_equal (@List.length _)) in C. exact (eq_sym C).
Defined.

(** X25.  A call of [send_email] can raise after the server accepted the
    report, and then it was [quit] that failed; when the task is then
    run again, as its one retry does, and returns, the server has
    accepted the same report twice. *)
Theorem retried_report_is_sent_twice
    (str : pyval -> string) (fixed2 : Q -> string)
    (int_of_string : string -> outcome Z)
    (as_string : Smtplib.message -> outcome string)
    (vars : Variables.store) (kw : kwargs) (s : Smtplib.t) (e : Smtplib.error) :
  let send_email := CryptoEmail.send_email str fixed2 int_of_string as_string vars kw in
  fst (send_email s) = Smtplib.Fail e ->
  Smtplib.outbox (snd (send_email s)) <> Smtplib.outbox s ->
  fst (send_email (snd (send_email s))) = Smtplib.Done tt ->
  (exists env,
     Smtplib.outbox (snd (send_email (snd (send_email s))))
       = Smtplib.outbox s ++ [env; env])
  /\ (exists q, Smtplib.calls (snd (send_email s))
                = Smtplib.calls s ++ q ++ [Smtplib.Quit]).
Proof.
  intros send_email H1 Ho H2.
  destruct (send_email_session str fixed2 int_of_string as_string vars kw) as [env H].
  destruct (H s) as (p1 & P1 & _).
  destruct (H (snd (send_email s))) as (p2 & P2 & _).
  fold send_email in P1, P2.
  assert (Hn : fst (send_email s) <> Smtplib.Done tt) by (rewrite H1; discriminate).
  destruct (protocol_retry _ _ _ _ _ _ _ _ _ _ P1 P2 Hn Ho H2) as [E Q].
  split; [exists env; exact E | exact Q].
Qed.

Lemma retried_report_is_sent_twice_witness :
  let send_email :=
    CryptoEmail.send_email FurtherSamples.str FurtherSamples.fixed2
      FurtherSamples.int_of_string FurtherSamples.as_string FurtherSamples.settings prices_kw in
  fst (send_email gone_at_quit) = Smtplib.Fail (Smtplib.Failed Smtplib.OSError)
  /\ Smtplib.outbox (snd (send_email gone_at_quit)) <> Smtplib.outbox gone_at_quit
  /\ fst (send_email (snd (send_email gone_at_quit))) = Smtplib.Done tt
  /\ exists env,
       Smtplib.outbox (snd (send_email (snd (send_email gone_at_quit)))) = [env; env].
Proof.
  assert (Ho : Smtplib.outbox
                 (snd (CryptoEmail.send_email FurtherSamples.str FurtherSamples.fixed2
                         FurtherSamples.int_of_string FurtherSamples.as_string
                         FurtherSamples.settings prices_kw gone_at_quit))
               <> Smtplib.outbox gone_at_quit) by discriminate.
  pose proof (retried_report_is_sent_twice FurtherSamples.str FurtherSamples.fixed2
                FurtherSamples.int_of_string FurtherSamples.as_string FurtherSamples.settings
                prices_kw gone_at_quit (Smtplib.Failed Smtplib.OSError)
                eq_refl Ho eq_refl) as H.
  destruct H as [H _].
  cbv zeta. split; [reflexivity |]. split; [exact Ho |]. split; [reflexivity | exact H].
Defined.

(** X26.  A call of [generate_csv_and_send_email] can raise after the
    server accepted the quote, and then it was [quit] that failed; when
    the task is then run again, as its one retry does, and returns, the
    server has accepted the same message twice. *)
Theorem retried_quote_is_sent_twice
    (writerow : list pyval -> string) (json_loads : string -> outcome pyval)
    (as_string : Smtplib.message -> outcome string)
    (vars : Variables.store) (kw : kwargs) (s : Smtplib.t) (e : Smtplib.error) :
  let send :=
    SelfConfidenceEmail.generate_csv_and_send_email writerow json_loads as_string vars kw in
  fst (send s) = Smtplib.Fail e ->
  Smtplib.outbox (snd (send s)) <> Smtplib.outbox s ->
  fst (send (snd (send s))) = Smtplib.Done tt ->
  (exists env,
     Smtplib.outbox (snd (send (snd (send s)))) = Smtplib.outbox s ++ [env; env])
  /\ (exists q, Smtplib.calls (snd (send s)) = Smtplib.calls s ++ q ++ [Smtplib.Quit]).
Proof.
  intros send H1 Ho H2.
  destruct (generate_session writerow json_loads as_string vars kw) as [env H].
  destruct (H s) as (p1 & P1 & _).
  destruct (H (snd (send s))) as (p2 & P2 & _).
  fold send in P1, P2.
  assert (Hn : fst (send s) <> Smtplib.Done tt) by (rewrite H1; discriminate).
  destruct (protocol_retry _ _ _ _ _ _ _ _ _ _ P1 P2 Hn Ho H2) as [E Q].
  split; [exists env; exact E | exact Q].
Qed.

Lemma retried_quote_is_sent_twice_witness :
  let send :=
    SelfConfidenceEmail.generate_csv_and_send_email FurtherSamples.writerow
      FurtherSamples.json_loads FurtherSamples.as_string FurtherSamples.config
      (mkKwargs eight confidence_ti) in
  fst (send gone_at_quit_ssl) = Smtplib.Fail Smtplib.OSError
  /\ Smtplib.outbox (snd (send gone_at_quit_ssl)) <> Smtplib.outbox gone_at_quit_ssl
  /\ fst (send (snd (send gone_at_quit_ssl))) = Smtplib.Done tt
  /\ exists env, Smtplib.outbox (snd (send (snd (send gone_at_quit_ssl)))) = [env; env].
Proof.
  assert (Ho : Smtplib.outbox
                 (snd (SelfConfidenceEmail.generate_csv_and_send_email
                         FurtherSamples.writerow FurtherSamples.json_loads
                         FurtherSamples.as_string FurtherSamples.config
                         (mkKwargs eight confidence_ti) gone_at_quit_ssl))
               <> Smtplib.outbox gone_at_quit_ssl) by discriminate.
  pose proof (retried_quote_is_sent_twice FurtherSamples.writerow FurtherSamples.json_loads
                FurtherSamples.as_string FurtherSamples.config (mkKwargs eight confidence_ti)
                gone_at_quit_ssl Smtplib.OSError eq_refl Ho eq_refl) as H.
  destruct H as [H _].
  cbv zeta. split; [reflexivity |]. split; [exact Ho |]. split; [reflexivity | exact H].
Defined.

End Extra.
